(** * FHIRPath evaluation engine: value algebra, logic, equality, conversions

    A shallow embedding of the evaluator functions of fhirpath.js
    (src/logic.ts, src/equality.ts, src/deep-equal.ts, src/numbers.ts,
    src/misc.ts, src/math.ts, src/filtering.ts, src/hash-object.ts,
    src/utilities.ts, src/collections.ts, src/existence.ts,
    src/combining.ts, src/aggregate.ts, src/strings.ts), the properties
    the specification states about them, and further properties of the
    functions themselves.

    JavaScript numbers are IEEE binary64 values (primitive floats), bigints
    are [Z], strings are sequences of code units restricted to the ASCII
    range.  Object identity is not part of a value: wherever the source
    compares two reference-typed operands with [===], the answer is taken
    from the parameter [same_object]. *)

From Stdlib Require Import ZArith List Bool Ascii String DecimalString DecimalPos
  DecimalZ Lia Floats.
From stdpp Require Import gmap strings list sorting.

Set Warnings "-register-all,-inexact-float,-clear-no-such-hyp".

Local Open Scope Z_scope.
Local Open Scope string_scope.
Local Open Scope list_scope.

(** ** JavaScript values *)

(** Instances of [FP_Type] (src/types.ts).  A quantity carries the fields
    [value] and [unit] that math.ts and misc.ts read; the temporal classes
    carry the string they were parsed from. *)
Inductive time_class := FP_DateTime | FP_Date | FP_Time | FP_Instant.

Inductive fp_type :=
| FP_Quantity (value : float) (unit : string)
| FP_TimeBase (cls : time_class) (asStr : string).

Inductive value :=
| VUndefined
| VNull
| VBool (b : bool)
| VNum (x : float)
| VBigInt (z : Z)
| VStr (s : string)
| VArr (items : list value)
| VObj (props : list (string * value))
| VDate (time : float)
| VFP (t : fp_type)
| VNode (data _data : value) (path : string).

(** [typeof v] *)
Inductive js_type :=
| TUndefined | TObject | TBoolean | TNumber | TBigint | TString.

Definition typeof (v : value) : js_type :=
  match v with
  | VUndefined => TUndefined
  | VBool _ => TBoolean
  | VNum _ => TNumber
  | VBigInt _ => TBigint
  | VStr _ => TString
  | VNull | VArr _ | VObj _ | VDate _ | VFP _ | VNode _ _ _ => TObject
  end.

Definition js_type_eqb (a b : js_type) : bool :=
  match a, b with
  | TUndefined, TUndefined | TObject, TObject | TBoolean, TBoolean
  | TNumber, TNumber | TBigint, TBigint | TString, TString => true
  | _, _ => false
  end.

(** The string that [typeof] returns. *)
Definition typeof_name (t : js_type) : string :=
  match t with
  | TUndefined => "undefined"
  | TObject => "object"
  | TBoolean => "boolean"
  | TNumber => "number"
  | TBigint => "bigint"
  | TString => "string"
  end.

(** [Array.isArray(v)] *)
Definition isArray (v : value) : bool :=
  match v with VArr _ => true | _ => false end.

(** ToBoolean: the truthiness of a value in a condition or under [!]. *)
Definition truthy (v : value) : bool :=
  match v with
  | VUndefined | VNull => false
  | VBool b => b
  | VNum x => negb (PrimFloat.is_zero x || PrimFloat.is_nan x)
  | VBigInt z => negb (z =? 0)%Z
  | VStr s => negb (String.eqb s "")
  | VArr _ | VObj _ | VDate _ | VFP _ | VNode _ _ _ => true
  end.

(** [v === true] and [v === false] *)
Definition is_true (v : value) : bool :=
  match v with VBool true => true | _ => false end.

Definition is_false (v : value) : bool :=
  match v with VBool false => true | _ => false end.

Definition js_not (a : value) : value := VBool (negb (truthy a)).

(** The empty collection [[]]. *)
Definition empty : value := VArr [].

(** [v == null] *)
Definition is_nullish (v : value) : bool :=
  match v with VNull | VUndefined => true | _ => false end.

(** ** src/logic.ts *)
Module Logic.





End Logic.

(** ** JavaScript built-ins on numbers and strings *)
Module JS.

(** The Number with the value of a natural number (array and string
    lengths, indices). *)
Definition of_nat (n : nat) : float :=
  PrimFloat.of_uint63 (Uint63.of_Z (Z.of_nat n)).

(** [Number(z)] for a bigint [z]: the nearest binary64 value. *)
Definition Number_of_bigint (z : Z) : float :=
  SF2Prim (binary_normalize prec emax z 0 false).

(** The Number with the value of an integer of magnitude below 2^63. *)
Definition of_small_Z (n : Z) : float :=
  if (0 <=? n)%Z then PrimFloat.of_uint63 (Uint63.of_Z n)
  else PrimFloat.opp (PrimFloat.of_uint63 (Uint63.of_Z (- n))).

(** [Math.round(x)]: the integral Number closest to [x], ties towards
    +Infinity; NaN, infinities, zeros and integral values are returned as
    they are; a result of magnitude zero keeps the sign of [x]. *)
Definition Math_round (x : float) : float :=
  match Prim2SF x with
  | S754_finite s m e =>
      if (0 <=? e)%Z then x
      else
        let k := (- e)%Z in
        let v2 := (if s then - (2 * Z.pos m) else 2 * Z.pos m)%Z in
        let n := Z.shiftr (v2 + 2 ^ k) (k + 1) in
        if (n =? 0)%Z then (if s then PrimFloat.neg_zero else PrimFloat.zero)
        else of_small_Z n
  | _ => x
  end.

(** [Math.floor(x)] *)
Definition Math_floor (x : float) : float :=
  match Prim2SF x with
  | S754_finite s m e =>
      if (0 <=? e)%Z then x
      else
        let n := Z.shiftr (if s then Z.neg m else Z.pos m) (- e) in
        if (n =? 0)%Z then PrimFloat.zero else of_small_Z n
  | _ => x
  end.

(** [x % y] on Numbers: the remainder of the truncating division, computed
    exactly; it has the sign of the dividend. *)
Definition rem (x y : float) : float :=
  match Prim2SF x, Prim2SF y with
  | S754_nan, _ | _, S754_nan => PrimFloat.nan
  | S754_infinity _, _ => PrimFloat.nan
  | _, S754_zero _ => PrimFloat.nan
  | _, S754_infinity _ => x
  | S754_zero _, _ => x
  | S754_finite sx mx ex, S754_finite _ my ey =>
      let e := Z.min ex ey in
      let r := Z.rem (Z.pos mx * 2 ^ (ex - e)) (Z.pos my * 2 ^ (ey - e)) in
      if (r =? 0)%Z then (if sx then PrimFloat.neg_zero else PrimFloat.zero)
      else SF2Prim (binary_normalize prec emax (if sx then - r else r) e false)
  end.

(** [s.toUpperCase()] and [s.toLowerCase()] on ASCII code units. *)
Definition upper_ascii (c : ascii) : ascii :=
  let n := nat_of_ascii c in
  if ((97 <=? n) && (n <=? 122))%nat then ascii_of_nat (n - 32) else c.

Definition lower_ascii (c : ascii) : ascii :=
  let n := nat_of_ascii c in
  if ((65 <=? n) && (n <=? 90))%nat then ascii_of_nat (n + 32) else c.

Fixpoint map_string (f : ascii -> ascii) (s : string) : string :=
  match s with
  | EmptyString => EmptyString
  | String c r => String (f c) (map_string f r)
  end.

Definition toUpperCase : string -> string := map_string upper_ascii.
Definition toLowerCase : string -> string := map_string lower_ascii.

(** The property names every ordinary object inherits from
    [Object.prototype]; each of them holds a function or, for [__proto__],
    the prototype object itself, so reading any of them gives a truthy
    value. *)
Definition Object_prototype_names : list string :=
  [ "constructor"; "hasOwnProperty"; "isPrototypeOf";
    "propertyIsEnumerable"; "toLocaleString"; "toString"; "valueOf";
    "__proto__"; "__defineGetter__"; "__defineSetter__";
    "__lookupGetter__"; "__lookupSetter__" ].

Definition mem_string (k : string) (l : list string) : bool :=
  existsb (String.eqb k) l.

(** Truthiness of [obj[key]] for an object literal [{}] whose own
    properties are the names in [own], each set to [true]. *)
Definition flag_set (own : list string) (key : string) : bool :=
  mem_string key own || mem_string key Object_prototype_names.

(** [table[name]] for a table object with the own entries [own]: the
    entry, an inherited member, or [undefined]. *)
Inductive lookup (A : Type) :=
| Own (a : A)
| Inherited
| Absent.
Arguments Own {A} a.
Arguments Inherited {A}.
Arguments Absent {A}.

Definition table_get {A} (own : string -> option A) (name : string)
  : lookup A :=
  match own name with
  | Some a => Own a
  | None => if mem_string name Object_prototype_names then Inherited else Absent
  end.

(** [arr.slice(start, end)] for integral arguments: a negative argument
    counts from the end of the array, and both are clamped to the array. *)
Definition relative_index (len : nat) (k : Z) : nat :=
  if (k <? 0)%Z then Z.to_nat (Z.max (Z.of_nat len + k) 0)
  else Z.to_nat (Z.min k (Z.of_nat len)).

Definition slice {A} (l : list A) (start end_ : Z) : list A :=
  let from := relative_index (length l) start in
  let to := relative_index (length l) end_ in
  take (to - from) (drop from l).

(** [Number.isInteger(x)] *)
Definition isInteger (x : float) : bool :=
  match Prim2SF x with
  | S754_zero _ => true
  | S754_finite _ m e => (0 <=? e)%Z || (Z.pos m mod 2 ^ (- e) =? 0)%Z
  | _ => false
  end.

(** [BigInt(x)] for an integral Number [x]. *)
Definition BigInt_of_number (x : float) : Z :=
  match Prim2SF x with
  | S754_finite s m e =>
      let v :=
        if (0 <=? e)%Z then (Z.pos m * 2 ^ e)%Z else (Z.pos m / 2 ^ (- e))%Z in
      if s then (- v)%Z else v
  | _ => 0%Z
  end.

(** [BigInt(v)] for a string [v] made of an optional sign and decimal
    digits: the integer it denotes. *)
Definition digit_value (acc : Z) (c : ascii) : Z :=
  (10 * acc + (Z.of_nat (nat_of_ascii c) - 48))%Z.

Definition digits_value (s : string) : Z :=
  List.fold_left digit_value (list_ascii_of_string s) 0%Z.

Definition BigInt_of_string (v : string) : Z :=
  match v with
  | String c r =>
      if (nat_of_ascii c =? 45)%nat then (- digits_value r)%Z
      else if (nat_of_ascii c =? 43)%nat then digits_value r
      else digits_value v
  | EmptyString => 0%Z
  end.

(** [arr.join(sep)] on an array of strings. *)
Fixpoint join (sep : string) (l : list string) : string :=
  match l with
  | [] => EmptyString
  | [s] => s
  | s :: r => s +:+ sep +:+ join sep r
  end.

(** [z.toString()] for a bigint [z]. *)
Definition bigint_toString (z : Z) : string :=
  NilEmpty.string_of_int (Z.to_int z).

(** [s.substring(a, b)] for integral arguments: both are clamped to the
    string, and exchanged when the first is the larger. *)
Definition clamp (len : nat) (k : Z) : nat :=
  Z.to_nat (Z.min (Z.max k 0) (Z.of_nat len)).

Definition substring (s : string) (a b : Z) : string :=
  let finalStart := clamp (String.length s) a in
  let finalEnd := clamp (String.length s) b in
  String.substring (Nat.min finalStart finalEnd)
    (Nat.max finalStart finalEnd - Nat.min finalStart finalEnd) s.

(** [s.startsWith(p)], [s.endsWith(p)], [s.indexOf(p)] and
    [s.includes(p)]. *)
Definition startsWith (s p : string) : bool := String.prefix p s.

Definition endsWith (s p : string) : bool :=
  (String.length p <=? String.length s)%nat
  && String.eqb
       (String.substring (String.length s - String.length p)
          (String.length p) s) p.

Definition indexOf (s p : string) : Z :=
  match String.index 0 p s with
  | Some n => Z.of_nat n
  | None => (-1)%Z
  end.

Definition includes (s p : string) : bool :=
  match String.index 0 p s with Some _ => true | None => false end.

(** [s.split(sep)] for a string [sep].  With the empty separator the
    string is cut into its code units.  Otherwise the string is read from
    the left: [cur] holds the piece being read, and [skip] counts the
    characters of a separator that was found and is being passed over. *)
Fixpoint split_go (sep : string) (skip : nat) (cur : string) (s : string)
  : list string :=
  match s with
  | EmptyString => [cur]
  | String c r =>
      match skip with
      | S k => split_go sep k cur r
      | O =>
          if String.prefix sep s then
            cur :: split_go sep (String.length sep - 1) EmptyString r
          else split_go sep 0 (cur +:+ String c EmptyString) r
      end
  end.

Definition split (s sep : string) : list string :=
  if String.eqb sep EmptyString then
    List.map (fun c => String c EmptyString) (list_ascii_of_string s)
  else split_go sep 0 EmptyString s.

End JS.

(** ** Results of functions that may throw *)
Inductive result (A : Type) :=
| Ok (a : A)
| Throw (msg : string).
Arguments Ok {A} a.
Arguments Throw {A} msg.

Definition bind {A B} (r : result A) (f : A -> result B) : result B :=
  match r with Ok a => f a | Throw m => Throw m end.

Notation "'let*' x ':=' r 'in' k" := (bind r (fun x => k))
  (at level 10, x name, r at level 100, k at level 200).

(** ** src/utilities.ts *)
Module Util.

Definition raiseError {A} (message fnName : string) : result A :=
  Throw ((if String.eqb fnName "" then "" else fnName +:+ ": ") +:+ message).

(** [x.length === n] *)
Definition has_length (x : value) (n : nat) : bool :=
  match x with
  | VArr l => Nat.eqb (length l) n
  | VStr s => Nat.eqb (String.length s) n
  | VObj props =>
      match List.find (fun kv => String.eqb (fst kv) "length") props with
      | Some (_, VNum y) => PrimFloat.eqb y (JS.of_nat n)
      | _ => false
      end
  | _ => false
  end.

(** [x[0]] *)
Definition first_item (x : value) : value :=
  match x with
  | VArr (v :: _) => v
  | VStr (String c _) => VStr (String c EmptyString)
  | VObj props =>
      match List.find (fun kv => String.eqb (fst kv) "0") props with
      | Some (_, v) => v
      | None => VUndefined
      end
  | _ => VUndefined
  end.

Definition isEmpty (x : value) : bool :=
  match x with VArr [] => true | _ => false end.

Definition isSome (x : value) : bool :=
  match x with
  | VNull | VUndefined => false
  | _ => negb (isEmpty x)
  end.

Definition valData (val : value) : value :=
  match val with VNode data _ _ => data | _ => val end.

Definition isTrue (x : value) : bool :=
  match x with
  | VNull | VUndefined => false
  | _ => is_true x || (has_length x 1 && is_true (valData (first_item x)))
  end.

Definition arraify (x : value) : list value :=
  match x with
  | VArr l => l
  | _ => if isSome x then [x] else []
  end.

(** [types] holds the names of the permitted types; the result is the
    data that was checked. *)
Definition assertType (data : value) (types : list string)
    (errorMsgPrefix : string) : result value :=
  let val := valData data in
  if JS.mem_string (typeof_name (typeof val)) types then Ok val
  else
    let typeList :=
      if (1 <? length types)%nat then "one of " +:+ JS.join ", " types
      else hd "undefined" types in
    raiseError ("Found type '" +:+ typeof_name (typeof data) +:+
                "' but was expecting " +:+ typeList) errorMsgPrefix.

Section WithTypes.

(** [convert data path] is the [FP_Type] instance (src/types.ts) that the
    data of a node of that path converts to, if any. *)
Variable convert : value -> string -> option fp_type.

(** Modelled from the spec: [ResourceNode.convertData] (src/types.ts is
    not among the sources).  By the comment on [valDataConverted] below it
    returns the data of the node, converted to an [FP_Type] instance when
    the node is of such a type. *)
Definition convertData (v : value) : value :=
  match v with
  | VNode data _ path =>
      match convert data path with Some t => VFP t | None => data end
  | _ => v
  end.

Definition valDataConverted (val : value) : value :=
  match val with VNode _ _ _ => convertData val | _ => val end.

End WithTypes.

End Util.

(** ** src/misc.ts *)
Module Misc.

(** *** iif

    The arguments [cond], [ok] and [fail] of [iifMacro] are closures of the
    compiled expression.  An evaluation is a tree of their invocations: the
    closure that is called, its argument, and the continuation that
    receives what the closure returned.  A closure returns a collection at
    once, or a promise of one. *)
Inductive closure := Cond | OkBranch | FailBranch.

Inductive outcome :=
| Sync (v : value)
| Promise (v : value).

Inductive prog :=
| Done (o : outcome)
| Invoke (c : closure) (data : value) (k : outcome -> prog).

(** [p.then(f)] for the promise that a continuation [f] builds: the final
    outcome is a promise, whatever [f] returned. *)
Fixpoint then_ (p : prog) : prog :=
  match p with
  | Done (Sync v) | Done (Promise v) => Done (Promise v)
  | Invoke c d k => Invoke c d (fun o => then_ (k o))
  end.

(** [fail] is optional: [fail_given] tells whether the call passed it. *)
Definition iifMacroSync (data condition : value) (fail_given : bool) : prog :=
  if Util.isTrue condition then Invoke OkBranch data Done
  else if fail_given then Invoke FailBranch data Done
  else Done (Sync empty).

Definition iifMacro (data : value) (fail_given : bool) : prog :=
  Invoke Cond data (fun condition =>
    match condition with
    | Promise c => then_ (iifMacroSync data c fail_given)
    | Sync c => iifMacroSync data c fail_given
    end).

(** Running an evaluation against the behaviour [h] of the three closures
    gives its outcome and the invocations made, in order. *)
Fixpoint run (h : closure -> value -> outcome) (p : prog)
  : outcome * list (closure * value) :=
  match p with
  | Done o => (o, [])
  | Invoke c d k =>
      let (o, calls) := run h (k (h c d)) in (o, (c, d) :: calls)
  end.

(** *** Conversions *)

Definition checkSingleton (coll : list value) (fnName : string) : result bool :=
  if (1 <? length coll)%nat then
    Util.raiseError "The input collection contains multiple items" fnName
  else Ok (Nat.eqb (length coll) 1).

Definition trueStrings : list string := ["true"; "t"; "yes"; "y"; "1"; "1.0"].
Definition falseStrings : list string := ["false"; "f"; "no"; "n"; "0"; "0.0"].

(** The function returns a boolean or [undefined]; the caller turns
    [undefined] into the empty collection ([Util.arraify]). *)
Definition toBoolean (coll : list value) : result value :=
  let* single := checkSingleton coll "toBoolean" in
  if single then
    let v := Util.valData (hd VUndefined coll) in
    Ok match v with
       | VBool _ => v
       | VBigInt z =>
           if (z =? 1)%Z then VBool true
           else if (z =? 0)%Z then VBool false
           else VUndefined
       | VNum x =>
           if PrimFloat.eqb x 1 then VBool true
           else if PrimFloat.eqb x 0 then VBool false
           else VUndefined
       | VStr s =>
           let lowerCaseValue := JS.toLowerCase s in
           if JS.flag_set trueStrings lowerCaseValue then VBool true
           else if JS.flag_set falseStrings lowerCaseValue then VBool false
           else VUndefined
       | _ => VUndefined
       end
  else Ok VUndefined.

(** *** toQuantity *)

Definition is_digit (c : ascii) : bool :=
  let n := nat_of_ascii c in ((48 <=? n) && (n <=? 57))%nat.

Definition is_letter (c : ascii) : bool :=
  let n := nat_of_ascii c in
  ((65 <=? n) && (n <=? 90) || (97 <=? n) && (n <=? 122))%nat.

Definition is_space (c : ascii) : bool :=
  let n := nat_of_ascii c in
  ((9 <=? n) && (n <=? 13) || (n =? 32))%nat.

Definition is_apostrophe (c : ascii) : bool := (nat_of_ascii c =? 39)%nat.

(** The longest prefix of [s] whose characters satisfy [p], and the rest. *)
Fixpoint span (p : ascii -> bool) (s : string) : string * string :=
  match s with
  | EmptyString => (EmptyString, EmptyString)
  | String c r =>
      if p c then let (a, b) := span p r in (String c a, b)
      else (EmptyString, s)
  end.

Definition nonempty (s : string) : bool := negb (String.eqb s EmptyString).

(** [quantityRegex.exec(s)]: the groups 1 (value), 5 (quoted unit) and
    6 (calendar unit) of a match of
    [^((\+|-)?\d+(\.\d+)?)\s*(('[^']+')|([a-zA-Z]+))?$]. *)
Definition quantityRegex (s : string)
  : option (string * option string * option string) :=
  let (sign, r0) :=
    match s with
    | String c r =>
        if ((nat_of_ascii c =? 43) || (nat_of_ascii c =? 45))%nat
        then (String c EmptyString, r) else (EmptyString, s)
    | EmptyString => (EmptyString, s)
    end in
  let (int, r1) := span is_digit r0 in
  if negb (nonempty int) then None
  else
    let (frac, r2) :=
      match r1 with
      | String c r =>
          if (nat_of_ascii c =? 46)%nat then
            let (f, r') := span is_digit r in
            if nonempty f then (String c f, r') else (EmptyString, r1)
          else (EmptyString, r1)
      | EmptyString => (EmptyString, r1)
      end in
    let value := sign +:+ int +:+ frac in
    let (_, r3) := span is_space r2 in
    match r3 with
    | EmptyString => Some (value, None, None)
    | String c r =>
        if is_apostrophe c then
          let (body, r') := span (fun x => negb (is_apostrophe x)) r in
          match r' with
          | String c' EmptyString =>
              if nonempty body then
                Some (value,
                      Some (String c (body +:+ String c' EmptyString)), None)
              else None
          | _ => None
          end
        else
          let (letters, r') := span is_letter r3 in
          if nonempty letters && negb (nonempty r') then
            Some (value, None, Some letters)
          else None
    end.

Section WithTypes.

(** Members of src/types.ts: the conversion of node data, the own
    entries of the table objects [FP_Quantity._calendarDuration2Seconds]
    and [FP_Quantity.mapTimeUnitsToUCUMCode], and
    [FP_Quantity.convUnitTo], which returns a quantity or [null]; and
    [Number(s)] for a string. *)
Variable convert : value -> string -> option fp_type.
Variable _calendarDuration2Seconds : string -> option float.
Variable mapTimeUnitsToUCUMCode : string -> option string.
Variable convUnitTo : string -> float -> string -> option fp_type.
Variable Number_of_string : string -> float.

(** Truthiness and [> 1] of what a lookup in the seconds table gives,
    truthiness of what a lookup in the table of codes gives. *)
Definition seconds_truthy (s : JS.lookup float) : bool :=
  match s with
  | JS.Own x => truthy (VNum x)
  | JS.Inherited => true
  | JS.Absent => false
  end.

Definition seconds_gt_1 (s : JS.lookup float) : bool :=
  match s with JS.Own x => PrimFloat.ltb 1 x | _ => false end.

Definition code_truthy (c : JS.lookup string) : bool :=
  match c with
  | JS.Own u => nonempty u
  | JS.Inherited => true
  | JS.Absent => false
  end.

(** The quantity that [coll[0]] stands for, before any unit conversion. *)
Definition quantity_of (item : value) : option fp_type :=
  match Util.valDataConverted convert item with
  | VNum x => Some (FP_Quantity x "'1'")
  | VFP (FP_Quantity x u) => Some (FP_Quantity x u)
  | VBool b => Some (FP_Quantity (if b then 1 else 0) "'1'")
  | VStr s =>
      match quantityRegex s with
      | Some (value, unit, time) =>
          if match time with
             | Some t => negb (nonempty t)
                         || code_truthy (JS.table_get mapTimeUnitsToUCUMCode t)
             | None => true
             end
          then
            let u :=
              match unit, time with
              | Some u, _ => u
              | None, Some t => if nonempty t then t else "'1'"
              | None, None => "'1'"
              end in
            Some (FP_Quantity (Number_of_string value) u)
          else None
      | None => None
      end
  | _ => None
  end.

(** [this_unit] is the property [unit] of [this], the evaluation context
    the function is called on; [None] when the context has no such
    property, and then the table is read at the name ["undefined"].
    [toUnit] is [None] when the argument is not passed.
    The result is a quantity, [null] or [undefined]. *)
Definition toQuantity (this_unit : option string) (coll : list value)
    (toUnit : option string) : result value :=
  let* single := checkSingleton coll "toQuantity" in
  if single then
    let given :=
      match toUnit with Some u => nonempty u | None => false end in
    let thisUnitInSeconds :=
      JS.table_get _calendarDuration2Seconds
        (match this_unit with Some u => u | None => "undefined" end) in
    let toUnitInSeconds :=
      match toUnit with
      | Some u => JS.table_get _calendarDuration2Seconds u
      | None => JS.Absent
      end in
    if given
       && negb (Bool.eqb (negb (seconds_truthy thisUnitInSeconds))
                         (negb (seconds_truthy toUnitInSeconds)))
       && (seconds_gt_1 thisUnitInSeconds || seconds_gt_1 toUnitInSeconds)
    then Ok VNull
    else
      let toUnit' :=
        match toUnit with
        | Some u =>
            if given
               && negb (code_truthy (JS.table_get mapTimeUnitsToUCUMCode u))
            then Some ("'" +:+ u +:+ "'") else Some u
        | None => None
        end in
      match quantity_of (hd VUndefined coll) with
      | Some (FP_Quantity x u) =>
          match toUnit' with
          | Some tu =>
              if given && negb (String.eqb u tu) then
                match convUnitTo u x tu with
                | Some q => Ok (VFP q)
                | None => Ok VNull
                end
              else Ok (VFP (FP_Quantity x u))
          | None => Ok (VFP (FP_Quantity x u))
          end
      | _ => Ok VUndefined
      end
  else Ok VUndefined.

End WithTypes.

(** *** toInteger, toLong, toDecimal *)

(** [intRegex.test(v)] and [numRegex.test(v)] for the patterns
    [^[+-]?\d+$] and [^[+-]?\d+(\.\d+)?$]. *)
Definition is_sign (c : ascii) : bool :=
  ((nat_of_ascii c =? 43) || (nat_of_ascii c =? 45))%nat.

Definition strip_sign (v : string) : string :=
  match v with
  | String c r => if is_sign c then r else v
  | EmptyString => v
  end.

Definition intRegex (v : string) : bool :=
  let (int, rest) := span is_digit (strip_sign v) in
  nonempty int && negb (nonempty rest).

Definition numRegex (v : string) : bool :=
  let (int, rest) := span is_digit (strip_sign v) in
  nonempty int &&
  match rest with
  | EmptyString => true
  | String c r =>
      (nat_of_ascii c =? 46)%nat &&
      let (frac, rest') := span is_digit r in
      nonempty frac && negb (nonempty rest')
  end.

Section Conversions.

(** [parseInt(v)] and [parseFloat(v)]: the Number nearest to the decimal
    numeral [v]. *)
Variable parseInt : string -> float.
Variable parseFloat : string -> float.

(** The three functions return a number or [undefined]; the caller turns
    [undefined] into the empty collection. *)
Definition toInteger (coll : list value) : result value :=
  let* single := checkSingleton coll "toInteger" in
  if single then
    let v := Util.valData (hd VUndefined coll) in
    Ok match v with
       | VBool false => VNum 0
       | VBool true => VNum 1
       | VBigInt z => VNum (JS.Number_of_bigint z)
       | VNum x => if JS.isInteger x then v else VUndefined
       | VStr s => if intRegex s then VNum (parseInt s) else VUndefined
       | _ => VUndefined
       end
  else Ok VUndefined.

Definition toLong (coll : list value) : result value :=
  let* single := checkSingleton coll "toLong" in
  if single then
    let v := Util.valData (hd VUndefined coll) in
    Ok match v with
       | VBool false => VBigInt 0
       | VBool true => VBigInt 1
       | VBigInt _ => v
       | VNum x => if JS.isInteger x then VBigInt (JS.BigInt_of_number x)
                   else VUndefined
       | VStr s => if intRegex s then VBigInt (JS.BigInt_of_string s)
                   else VUndefined
       | _ => VUndefined
       end
  else Ok VUndefined.

Definition toDecimal (coll : list value) : result value :=
  let* single := checkSingleton coll "toDecimal" in
  if single then
    let v := Util.valData (hd VUndefined coll) in
    Ok match v with
       | VBool false => VNum 0
       | VBool true => VNum 1
       | VBigInt z => VNum (JS.Number_of_bigint z)
       | VNum _ => v
       | VStr s => if numRegex s then VNum (parseFloat s) else VUndefined
       | _ => VUndefined
       end
  else Ok VUndefined.

End Conversions.

Section ToString.

(** Members of src/types.ts (the conversion of node data and
    [FP_Type.toString]) and of the JavaScript runtime: the rendering of a
    Number, and [toString] on an array, an object or a [Date]. *)
Variable convert : value -> string -> option fp_type.
Variable fp_toString : fp_type -> string.
Variable numToString : float -> string.
Variable object_toString : value -> string.

(** The function returns a string or [undefined]. *)
Definition toString (coll : list value) : result value :=
  let* single := checkSingleton coll "toString" in
  if single then
    Ok match Util.valDataConverted convert (hd VUndefined coll) with
       | VUndefined | VNull => VUndefined
       | VBool b => VStr (if b then "true" else "false")
       | VNum x => VStr (numToString x)
       | VBigInt z => VStr (JS.bigint_toString z)
       | VStr s => VStr s
       | VFP t => VStr (fp_toString t)
       | VArr _ as v | VObj _ as v | VDate _ as v | VNode _ _ _ as v =>
           VStr (object_toString v)
       end
  else Ok VUndefined.

End ToString.

(** *** Singleton evaluation of collections *)

(** The names of the table [singletonEvalByType]; the callers pass one
    of them. *)
Inductive singleton_type :=
| Integer | Boolean | Number | String_ | StringOrNumber | AnySingletonAtRoot.

Definition type_name (type : singleton_type) : string :=
  match type with
  | Integer => "Integer"
  | Boolean => "Boolean"
  | Number => "Number"
  | String_ => "String"
  | StringOrNumber => "StringOrNumber"
  | AnySingletonAtRoot => "AnySingletonAtRoot"
  end.

(** An entry of the table applied to the data [d], which is neither
    [null] nor [undefined]; [None] is the result [undefined]. *)
Definition singletonEvalByType (type : singleton_type) (d : value)
  : option value :=
  match type with
  | Integer =>
      match d with
      | VNum x => if JS.isInteger x then Some d else None
      | _ => None
      end
  | Boolean => match d with VBool _ => Some d | _ => Some (VBool true) end
  | Number => match d with VNum _ | VBigInt _ => Some d | _ => None end
  | String_ => match d with VStr _ => Some d | _ => None end
  | StringOrNumber => match d with VStr _ | VNum _ => Some d | _ => None end
  | AnySingletonAtRoot => Some d
  end.

Section Singleton.

(** [toJSON] of src/types.ts renders the values in error messages, and
    [TypeInfo.isPrimitiveValue] tells the nodes of primitive types. *)
Variable toJSON : value -> string.
Variable isPrimitiveValue : value -> bool.

(** The result is a value of the type asked for, or the empty
    collection. *)
Definition singleton (coll : list value) (type : singleton_type)
  : result value :=
  if (1 <? length coll)%nat then
    Throw ("Unexpected collection" +:+ toJSON (VArr coll) +:+
           "; expected singleton of type " +:+ type_name type)
  else if Nat.eqb (length coll) 0 then Ok empty
  else
    let v := Util.valData (hd VUndefined coll) in
    if is_nullish v then Ok empty
    else
      match singletonEvalByType type v with
      | Some value => Ok value
      | None =>
          Throw ("Expected " +:+ JS.toLowerCase (type_name type) +:+
                 ", but got: " +:+ toJSON (VArr coll))
      end.

Definition hasValueFn (coll : list value) : bool :=
  Nat.eqb (length coll) 1
  && negb (is_nullish (Util.valData (hd VUndefined coll)))
  && isPrimitiveValue (hd VUndefined coll).

Definition getValueFn (coll : list value) : value :=
  if Nat.eqb (length coll) 1 then
    let node := hd VUndefined coll in
    let v := Util.valData node in
    if negb (is_nullish v) && isPrimitiveValue node then v else empty
  else empty.

End Singleton.

End Misc.

(** ** src/math.ts (the division family) *)
Module Math.
Section WithTypes.

(** Members of src/types.ts, which the functions below call:
    the conversion of node data, [FP_Type.div(y)] and [toJSON]. *)
Variable convert : value -> string -> option fp_type.
Variable fp_div : fp_type -> fp_type -> value.
Variable toJSON : value -> string.

Definition valDataConverted : value -> value := Util.valDataConverted convert.

Definition div (xs ys : list value) : result value :=
  let cannot : result value :=
    Throw ("Cannot " +:+ toJSON (VArr xs) +:+ " / " +:+ toJSON (VArr ys)) in
  match xs, ys with
  | [x0], [y0] =>
      let x := valDataConverted x0 in
      let y := valDataConverted y0 in
      if is_nullish x || is_nullish y then Ok empty
      else
        match x, y with
        | VBigInt bx, VBigInt by_ =>
            if (by_ =? 0)%Z then Ok empty
            else Ok (VNum (JS.Number_of_bigint bx / JS.Number_of_bigint by_))
        | VBigInt bx, VNum ny =>
            if PrimFloat.eqb ny 0 then Ok empty
            else Ok (VNum (JS.Number_of_bigint bx / ny))
        | VBigInt _, VFP (FP_Quantity _ _) =>
            Util.raiseError "Cannot divide bigint by Quantity" ""
        | VNum nx, VNum ny =>
            if PrimFloat.eqb ny 0 then Ok empty else Ok (VNum (nx / ny))
        | VNum nx, VBigInt by_ =>
            if (by_ =? 0)%Z then Ok empty
            else Ok (VNum (nx / JS.Number_of_bigint by_))
        | VNum nx, VFP (FP_Quantity v u) =>
            Ok (fp_div (FP_Quantity nx "'1'") (FP_Quantity v u))
        | VFP tx, VFP (FP_Quantity v u) => Ok (fp_div tx (FP_Quantity v u))
        | VFP tx, VNum ny => Ok (fp_div tx (FP_Quantity ny "'1'"))
        | _, _ => cannot
        end
  | _, _ => cannot
  end.

(** [y === 0 || y === 0n] *)
Definition is_zero_number (y : value) : bool :=
  match y with VNum ny => PrimFloat.eqb ny 0 | _ => false end.

Definition is_zero_bigint (y : value) : bool :=
  match y with VBigInt by_ => (by_ =? 0)%Z | _ => false end.

Definition intdiv (x y : value) : value :=
  if is_zero_number y || is_zero_bigint y then empty
  else
    match x, y with
    | VBigInt bx, VBigInt by_ => VBigInt (Z.quot bx by_)
    | VBigInt bx, VNum ny => VNum (JS.Math_floor (JS.Number_of_bigint bx / ny))
    | VNum nx, VNum ny => VNum (JS.Math_floor (nx / ny))
    | VNum nx, VBigInt by_ => VNum (JS.Math_floor (nx / JS.Number_of_bigint by_))
    | _, _ => empty
    end.

(** The remainder of two bigints throws a RangeError on a zero divisor. *)
Definition bigint_rem (bx by_ : Z) : result value :=
  if (by_ =? 0)%Z then Throw "RangeError: Division by zero"
  else Ok (VBigInt (Z.rem bx by_)).

Definition mod_ (x y : value) : result value :=
  if is_zero_number y then Ok empty
  else
    match x, y with
    | VBigInt bx, VBigInt by_ => bigint_rem bx by_
    | VBigInt bx, VNum ny => Ok (VNum (JS.rem (JS.Number_of_bigint bx) ny))
    | VNum nx, VNum ny => Ok (VNum (JS.rem nx ny))
    | VNum nx, VBigInt by_ => Ok (VNum (JS.rem nx (JS.Number_of_bigint by_)))
    | _, _ => Ok empty
    end.

(** *** plus, minus, mul *)

(** [FP_Type.plus(y)] and [FP_Type.mul(y)] of src/types.ts, which return
    a value ([null] and [undefined] included) or throw. *)
Variable fp_plus : fp_type -> fp_type -> result value.
Variable fp_mul : fp_type -> fp_type -> result value.

Definition unit_quantity (x : float) : fp_type := FP_Quantity x "'1'".

Definition plus (xs ys : list value) : result value :=
  let cannot : result value :=
    Util.raiseError
      ("Cannot " +:+ toJSON (VArr xs) +:+ " + " +:+ toJSON (VArr ys)) "" in
  let defined (res : result value) : result value :=
    let* r := res in
    match r with VUndefined => cannot | _ => Ok r end in
  match xs, ys with
  | [x0], [y0] =>
      let x := valDataConverted x0 in
      let y := valDataConverted y0 in
      if is_nullish x || is_nullish y then Ok empty
      else
        match x, y with
        | VStr sx, VStr sy => Ok (VStr (sx +:+ sy))
        | VNum nx, VNum ny => Ok (VNum (nx + ny))
        | VNum nx, VBigInt by_ =>
            if JS.isInteger nx then Ok (VBigInt (JS.BigInt_of_number nx + by_))
            else Ok (VNum (nx + JS.Number_of_bigint by_))
        | VNum nx, VFP (FP_Quantity v u) =>
            defined (fp_plus (unit_quantity nx) (FP_Quantity v u))
        | VBigInt bx, VBigInt by_ => Ok (VBigInt (bx + by_))
        | VBigInt bx, VNum ny =>
            if JS.isInteger ny then Ok (VBigInt (bx + JS.BigInt_of_number ny))
            else Ok (VNum (JS.Number_of_bigint bx + ny))
        | VBigInt _, VFP (FP_Quantity _ _) =>
            Util.raiseError "Cannot add a Quantity to a BigInt" ""
        | VFP tx, VFP (FP_Quantity v u) => defined (fp_plus tx (FP_Quantity v u))
        | VFP tx, VFP ty => defined (fp_plus ty tx)
        | VFP tx, VNum ny => defined (fp_plus tx (unit_quantity ny))
        | _, _ => cannot
        end
  | _, _ => cannot
  end.

Definition minus (xs ys : list value) : result value :=
  let cannot : result value :=
    Throw ("Cannot " +:+ toJSON (VArr xs) +:+ " - " +:+ toJSON (VArr ys)) in
  match xs, ys with
  | [x0], [y0] =>
      let x := valDataConverted x0 in
      let y := valDataConverted y0 in
      if is_nullish x || is_nullish y then Ok empty
      else
        match x, y with
        | VNum nx, VNum ny => Ok (VNum (nx - ny))
        | VNum nx, VBigInt by_ =>
            if JS.isInteger nx then Ok (VBigInt (JS.BigInt_of_number nx - by_))
            else Ok (VNum (nx - JS.Number_of_bigint by_))
        | VNum nx, VFP (FP_Quantity v u) =>
            fp_plus (unit_quantity nx) (FP_Quantity (- v) u)
        | VBigInt bx, VBigInt by_ => Ok (VBigInt (bx - by_))
        | VBigInt bx, VNum ny =>
            if JS.isInteger ny then Ok (VBigInt (bx - JS.BigInt_of_number ny))
            else Ok (VNum (JS.Number_of_bigint bx - ny))
        | VBigInt _, VFP (FP_Quantity _ _) =>
            Util.raiseError "Cannot subtract a Quantity from a BigInt" ""
        | VFP tx, VFP (FP_Quantity v u) => fp_plus tx (FP_Quantity (- v) u)
        | VFP tx, VNum ny => fp_plus tx (unit_quantity (- ny))
        | _, _ => cannot
        end
  | _, _ => cannot
  end.

Definition mul (xs ys : list value) : result value :=
  let cannot : result value :=
    Util.raiseError
      ("Cannot " +:+ toJSON (VArr xs) +:+ " * " +:+ toJSON (VArr ys)) "" in
  match xs, ys with
  | [x0], [y0] =>
      let x := valDataConverted x0 in
      let y := valDataConverted y0 in
      if is_nullish x || is_nullish y then Ok empty
      else
        match x, y with
        | VBigInt bx, VBigInt by_ => Ok (VBigInt (bx * by_))
        | VBigInt bx, VNum ny =>
            if JS.isInteger ny then Ok (VBigInt (bx * JS.BigInt_of_number ny))
            else Ok (VNum (JS.Number_of_bigint bx * ny))
        | VBigInt _, VFP (FP_Quantity _ _) =>
            Util.raiseError "Cannot multiply bigint by Quantity" ""
        | VNum nx, VNum ny => Ok (VNum (nx * ny))
        | VNum nx, VBigInt by_ =>
            if JS.isInteger nx then Ok (VBigInt (JS.BigInt_of_number nx * by_))
            else Ok (VNum (nx * JS.Number_of_bigint by_))
        | VNum nx, VFP (FP_Quantity v u) =>
            fp_mul (unit_quantity nx) (FP_Quantity v u)
        | VFP tx, VFP (FP_Quantity v u) => fp_mul tx (FP_Quantity v u)
        | VFP tx, VNum ny => fp_mul tx (unit_quantity ny)
        | _, _ => cannot
        end
  | _, _ => cannot
  end.

(** *** Functions of a numeric singleton *)

Definition callFnForNumericSingleton (x : list value) (fn : float -> value)
  : result value :=
  match x with
  | [] => Ok empty
  | [x0] =>
      let num := Util.valData x0 in
      if is_nullish num then Ok empty
      else
        match num with
        | VNum n => Ok (fn n)
        | _ => Throw ("Expected number, but got " +:+ toJSON num)
        end
  | _ =>
      Throw ("Unexpected collection" +:+ toJSON (VArr x) +:+
             "; expected singleton of type number")
  end.

Definition abs (x : list value) : result value :=
  match x with
  | [] => Ok empty
  | [x0] =>
      let val := Util.valData x0 in
      if is_nullish val then Ok empty
      else
        match val with
        | VNum n => Ok (VNum (PrimFloat.abs n))
        | VFP (FP_Quantity v u) => Ok (VFP (FP_Quantity (PrimFloat.abs v) u))
        | _ =>
            Throw ("Expected number or Quantity, but got " +:+
                   toJSON (if truthy val then val else VArr x))
        end
  | _ =>
      Throw ("Unexpected collection" +:+ toJSON (VArr x) +:+
             "; expected singleton of type number or Quantity")
  end.

Definition floor (x : list value) : result value :=
  callFnForNumericSingleton x (fun num => VNum (JS.Math_floor num)).

Definition sqrt (x : list value) : result value :=
  callFnForNumericSingleton x
    (fun num => if PrimFloat.ltb num 0 then empty else VNum (PrimFloat.sqrt num)).

End WithTypes.
End Math.

(** ** src/aggregate.ts *)
Module Aggregate.

(** [aggregateMacro] for an expression that returns at once:
    [expr i total x] is what it returns, or throws, for the item [x]
    while [$index] is [i] and [$total] is [total]. *)
Fixpoint aggregate_from (i : nat) (data : list value)
    (expr : nat -> value -> value -> result value) (total : value)
  : result value :=
  match data with
  | [] => Ok total
  | x :: rest =>
      let* t := expr i total x in aggregate_from (S i) rest expr t
  end.

Definition aggregateMacro (data : list value)
    (expr : nat -> value -> value -> result value) (initialValue : value)
  : result value :=
  aggregate_from 0 data expr initialValue.

Definition countFn (x : list value) : value := VNum (JS.of_nat (length x)).

(** The loop of [minMaxShortcutTemplate] over the items after the first;
    [fn] is [equalityEngine.lt] or [equalityEngine.gt], which returns a
    boolean or the empty collection, or throws. *)
Fixpoint minMax_loop (rest : list value)
    (fn : list value -> list value -> result value) (total : list value)
  : result (list value) :=
  match rest with
  | [] => Ok total
  | d :: rest' =>
      if is_nullish (Util.valData d) then Ok []
      else
        let this := [d] in
        let* comparison := fn this total in
        minMax_loop rest' fn (if Util.isTrue comparison then this else total)
  end.

Definition minMaxShortcutTemplate (data : list value)
    (fn : list value -> list value -> result value) : result (list value) :=
  match data with
  | [] => Ok []
  | d0 :: rest =>
      if is_nullish (Util.valData d0) then Ok [] else minMax_loop rest fn [d0]
  end.

Section WithTypes.

Variable convert : value -> string -> option fp_type.
Variable fp_div : fp_type -> fp_type -> value.
Variable toJSON : value -> string.
Variable fp_plus : fp_type -> fp_type -> result value.

(** The items of a collection whose data is neither [null] nor
    [undefined]. *)
Definition with_data (x : value) : list value :=
  List.filter (fun i => negb (is_nullish (Util.valData i))) (Util.arraify x).

(** The result is the sum, the empty collection, or [undefined] for the
    empty collection. *)
Definition sumFn (data : list value) : result value :=
  aggregateMacro (JS.slice data 1 (Z.of_nat (length data)))
    (fun _ total this =>
       let x := with_data this in
       let y := with_data total in
       if Nat.eqb (length x) 0 || Nat.eqb (length y) 0 then Ok empty
       else Math.plus convert toJSON fp_plus x y)
    (hd VUndefined data).

Definition avgFn (data : list value) : result value :=
  let* sum := sumFn data in
  let x := Util.arraify sum in
  let y := Util.arraify (countFn data) in
  if Nat.eqb (length x) 0 || Nat.eqb (length y) 0 then Ok empty
  else Math.div convert fp_div toJSON x y.

End WithTypes.
End Aggregate.

(** ** src/strings.ts *)
Module Strings.
Section WithJSON.

Variable toJSON : value -> string.

(** [misc.singleton(coll, 'String')]: a string or the empty collection.
    An argument of a function is a string, or [None] when the engine
    passes the empty collection for it. *)
Definition str_of (coll : list value) : result value :=
  Misc.singleton toJSON coll Misc.String_.

Definition indexOf (coll : list value) (substr : option string)
  : result value :=
  let* str := str_of coll in
  Ok match substr, str with
     | Some sub, VStr s => VNum (JS.of_small_Z (JS.indexOf s sub))
     | _, _ => empty
     end.

(** [length_] is [None] when the argument is not passed or is the empty
    collection. *)
Definition substring (coll : list value) (start length_ : option Z)
  : result value :=
  let* str := str_of coll in
  Ok match str, start with
     | VStr s, Some st =>
         if (st <? 0)%Z || (Z.of_nat (String.length s) <=? st)%Z then empty
         else
           match length_ with
           | None => VStr (JS.substring s st (Z.of_nat (String.length s)))
           | Some len => VStr (JS.substring s st (st + len))
           end
     | _, _ => empty
     end.

Definition startsWith (coll : list value) (prefix : option string)
  : result value :=
  let* str := str_of coll in
  Ok match prefix, str with
     | Some p, VStr s => VBool (JS.startsWith s p)
     | _, _ => empty
     end.

Definition endsWith (coll : list value) (postfix : option string)
  : result value :=
  let* str := str_of coll in
  Ok match postfix, str with
     | Some p, VStr s => VBool (JS.endsWith s p)
     | _, _ => empty
     end.

Definition containsFn (coll : list value) (substr : option string)
  : result value :=
  let* str := str_of coll in
  Ok match substr, str with
     | Some sub, VStr s => VBool (JS.includes s sub)
     | _, _ => empty
     end.

Definition upper (coll : list value) : result value :=
  let* str := str_of coll in
  Ok match str with VStr s => VStr (JS.toUpperCase s) | _ => empty end.

Definition lower (coll : list value) : result value :=
  let* str := str_of coll in
  Ok match str with VStr s => VStr (JS.toLowerCase s) | _ => empty end.

Definition splitFn (coll : list value) (separator : string) : result value :=
  let* strToSplit := str_of coll in
  Ok match strToSplit with
     | VStr s => VArr (List.map VStr (JS.split s separator))
     | _ => empty
     end.

Definition length (coll : list value) : result value :=
  let* str := str_of coll in
  Ok match str with
     | VStr s => VNum (JS.of_nat (String.length s))
     | _ => empty
     end.

Definition toChars (coll : list value) : result value :=
  let* str := str_of coll in
  Ok match str with
     | VStr s => VArr (List.map VStr (JS.split s EmptyString))
     | _ => empty
     end.

End WithJSON.

(** The strings that [joinFn] collects: the data of the items, those
    without data left out; any other item is an error. *)
Fixpoint stringValues (coll : list value) : result (list string) :=
  match coll with
  | [] => Ok []
  | n :: rest =>
      match Util.valData n with
      | VStr d => let* r := stringValues rest in Ok (d :: r)
      | VNull | VUndefined => stringValues rest
      | _ => Throw "Join requires a collection of strings."
      end
  end.

(** [separator] is [None] when the argument is not passed. *)
Definition joinFn (coll : list value) (separator : option string)
  : result value :=
  let* values := stringValues coll in
  if Nat.eqb (List.length values) 0 then Ok empty
  else
    Ok (VStr (JS.join (match separator with Some sep => sep | None => "" end)
                values)).

End Strings.

(** ** src/numbers.ts *)
Module Numbers.

Definition PRECISION_STEP : float := 1e-8.

Definition roundToMaxPrecision (x : float) : float :=
  JS.Math_round (x / PRECISION_STEP) * PRECISION_STEP.

Definition isEqual (actual expected : float) : bool :=
  PrimFloat.eqb (roundToMaxPrecision actual) (roundToMaxPrecision expected).

End Numbers.

(** ** Own properties of values *)

Definition index_key (i : nat) : string :=
  NilEmpty.string_of_uint (Nat.to_uint i).

Fixpoint indexed {A} (i : nat) (l : list A) : list (string * A) :=
  match l with
  | [] => []
  | x :: r => (index_key i, x) :: indexed (S i) r
  end.

Definition chars (s : string) : list value :=
  List.map (fun c => VStr (String c EmptyString)) (list_ascii_of_string s).

(** The own enumerable properties that [Object.keys] lists: the indices of
    an array or a string, the members of a plain object. *)
Definition own_props (v : value) : list (string * value) :=
  match v with
  | VArr l => indexed 0 l
  | VStr s => indexed 0 (chars s)
  | VObj props => props
  | _ => []
  end.

Definition keys (v : value) : list string := List.map fst (own_props v).

(** [v[key]] for an own property. *)
Definition get (v : value) (key : string) : value :=
  match List.find (fun kv => String.eqb (fst kv) key) (own_props v) with
  | Some (_, x) => x
  | None => VUndefined
  end.

(** [Array.prototype.sort] without a comparator: by code units. *)
Fixpoint insert_sorted (k : string) (l : list string) : list string :=
  match l with
  | [] => [k]
  | h :: t => if String.leb k h then k :: l else h :: insert_sorted k t
  end.

Definition sort (l : list string) : list string :=
  List.fold_right insert_sorted [] l.

Fixpoint list_eqb (l1 l2 : list string) : bool :=
  match l1, l2 with
  | [], [] => true
  | a :: r1, b :: r2 => String.eqb a b && list_eqb r1 r2
  | _, _ => false
  end.

(** ** src/deep-equal.ts *)
Module DeepEqual.

Definition isString (myVar : value) : bool :=
  match myVar with VStr _ => true | _ => false end.

(** The tests [typeof v === ...] and [v instanceof ...] with the payload
    of the value they recognise: a string, a Number, a bigint, a [Date],
    an [FP_Type] instance. *)
Definition as_string (v : value) : option string :=
  match v with VStr s => Some s | _ => None end.

Definition as_number (v : value) : option float :=
  match v with VNum x => Some x | _ => None end.

Definition as_bigint (v : value) : option Z :=
  match v with VBigInt z => Some z | _ => None end.

Definition as_date (v : value) : option float :=
  match v with VDate t => Some t | _ => None end.

Definition as_fp (v : value) : option fp_type :=
  match v with VFP t => Some t | _ => None end.

(** [\s] on ASCII code units. *)
Definition is_space (c : ascii) : bool :=
  let n := nat_of_ascii c in
  ((9 <=? n) && (n <=? 13) || (n =? 32))%nat.

Fixpoint skip_spaces (s : string) : string :=
  match s with
  | String c r => if is_space c then skip_spaces r else s
  | EmptyString => EmptyString
  end.

(** [s.replace(/\s+/, ' ')]: the pattern has no [g] flag, so the leftmost
    run of whitespace is replaced and the rest of the string is kept. *)
Fixpoint replace_first_spaces (s : string) : string :=
  match s with
  | EmptyString => EmptyString
  | String c r =>
      if is_space c then String " " (skip_spaces r)
      else String c (replace_first_spaces r)
  end.

Definition normalizeStr (x : string) : string :=
  replace_first_spaces (JS.toUpperCase x).

(** The normalisation as the specification words it: upper case, and
    every run of whitespace collapsed to a single space.  [in_run] tells
    that the previous character was whitespace. *)
Fixpoint collapse_spaces (in_run : bool) (s : string) : string :=
  match s with
  | EmptyString => EmptyString
  | String c r =>
      if is_space c then
        if in_run then collapse_spaces true r
        else String " " (collapse_spaces true r)
      else String c (collapse_spaces false r)
  end.

Definition isUndefinedOrNull (v : value) : bool := is_nullish v.

(** [actual == expected] for a Number and a bigint: equality of the
    mathematical values. *)
Definition loose_eq_number_bigint (x : float) (z : Z) : bool :=
  match Prim2SF x with
  | S754_zero _ => (z =? 0)%Z
  | S754_finite s m e =>
      let sm := if s then Z.neg m else Z.pos m in
      if (0 <=? e)%Z then (z =? sm * 2 ^ e)%Z else (z * 2 ^ (- e) =? sm)%Z
  | _ => false
  end.

Definition is_reference (v : value) : bool :=
  match v with
  | VArr _ | VObj _ | VDate _ | VFP _ | VNode _ _ _ => true
  | _ => false
  end.

Definition isResourceNode (v : value) : bool :=
  match v with VNode _ _ _ => true | _ => false end.

(** [v.data], [v._data] of a ResourceNode and [v.data?.name] *)
Definition node_data (v : value) : value :=
  match v with VNode data _ _ => data | _ => VUndefined end.

Definition node__data (v : value) : value :=
  match v with VNode _ _data _ => _data | _ => VUndefined end.

Definition data_member (v : value) (name : string) : value :=
  if is_nullish (node_data v) then VUndefined else get (node_data v) name.

Section WithTypes.

(** Whether two reference-typed operands of [===] are the same object. *)
Variable same_object : value -> value -> bool.

(** Members of src/types.ts.  [convert data path] is the [FP_Type]
    instance that the data of a node of that path converts to, if any;
    [fp_equals] and [fp_equivalentTo] are the methods [equals] (which may
    return [undefined]) and [equivalentTo] of [FP_Type]. *)
Variable convert : value -> string -> option fp_type.
Variable fp_equals : fp_type -> fp_type -> value.
Variable fp_equivalentTo : fp_type -> fp_type -> value.

(** [isNumber] (built on [parseFloat] and [isFinite]) and
    [numbers.isEquivalent] (built on the decimal rendering of a Number)
    decide the equivalence of two numbers.  Both are taken as total:
    [isFinite] throws on a bigint, so an equivalence ([fuzzy]) that
    brings a bigint to [isNumber] is not covered; equality calls
    neither. *)
Variable isNumber : value -> bool.
Variable isEquivalent : value -> value -> value.

Definition convertData : value -> value := Util.convertData convert.

Definition strict_eq (a b : value) : bool :=
  match a with
  | VUndefined => match b with VUndefined => true | _ => false end
  | VNull => match b with VNull => true | _ => false end
  | VBool x => match b with VBool y => Bool.eqb x y | _ => false end
  | VNum x => match b with VNum y => PrimFloat.eqb x y | _ => false end
  | VBigInt x => match b with VBigInt y => (x =? y)%Z | _ => false end
  | VStr x => match b with VStr y => String.eqb x y | _ => false end
  | _ => is_reference b && same_object a b
  end.

(** [r && k] on results that may be out of fuel. *)
Definition and_then (r k : option value) : option value :=
  match r with
  | Some v => if truthy v then k else Some v
  | None => None
  end.

(** The loop of [objEquiv] over the keys, in the order it visits them. *)
Fixpoint all_equal (deq : value -> value -> option value) (a b : value)
    (visit : list string) : option value :=
  match visit with
  | [] => Some (VBool (js_type_eqb (typeof a) (typeof b)))
  | key :: rest =>
      match deq (get a key) (get b key) with
      | Some r => if truthy r then all_equal deq a b rest else Some (VBool false)
      | None => None
      end
  end.

(** [objEquiv]; [deq] is [deepEqual] with the options passed on.  No value
    here is an [arguments] object, and [Object.keys] does not throw on the
    operands that reach this function. *)
Definition objEquiv (deq : value -> value -> option value) (a b : value)
  : option value :=
  if isUndefinedOrNull a || isUndefinedOrNull b then Some (VBool false)
  else if negb (strict_eq (get a "prototype") (get b "prototype")) then
    Some (VBool false)
  else
    let ka := sort (keys a) in
    let kb := sort (keys b) in
    if negb (Nat.eqb (length ka) (length kb)) then Some (VBool false)
    else if negb (list_eqb ka kb) then Some (VBool false)
    else
      match ka with
      | [key] => deq (get a key) (get b key)
      | _ => all_equal deq a b (List.rev ka)
      end.

(** The body of [deepEqual(v1, v2, opts)]; [fuzzy] is [opts.fuzzy], and
    [deepEqual] stands for the function itself in its nested calls. *)
Definition deepEqual_body (deepEqual : value -> value -> bool -> option value)
    (v1 v2 : value) (fuzzy : bool) : option value :=
  let v1IsResourceNode := isResourceNode v1 in
  let v2IsResourceNode := isResourceNode v2 in
  let actual := if v1IsResourceNode then convertData v1 else v1 in
  let expected := if v2IsResourceNode then convertData v2 else v2 in
  let both := v1IsResourceNode && v2IsResourceNode in
  (* opts.fuzzy || !v1IsResourceNode || !v2IsResourceNode ||
     deepEqual(v1._data, v2._data) *)
  let same_data :=
    if fuzzy || negb both then Some (VBool true)
    else deepEqual (node__data v1) (node__data v2) false in
  let by_kind :=
    match as_date actual, as_date expected with
    | Some t1, Some t2 =>
        if PrimFloat.eqb t1 t2 then same_data else Some (VBool false)
    | _, _ =>
        if negb (truthy actual) || negb (truthy expected)
           || negb (js_type_eqb (typeof actual) TObject)
              && negb (js_type_eqb (typeof expected) TObject)
        then
          if strict_eq actual expected then same_data else Some (VBool false)
        else
          match as_fp actual, as_fp expected with
          | Some ta, Some te =>
              if fuzzy then Some (fp_equivalentTo ta te)
              else
                let result := fp_equals ta te in
                if truthy result then
                  if negb both then Some (VBool true)
                  else
                    and_then
                      (deepEqual (node__data v1) (node__data v2) false)
                      (and_then
                         (deepEqual (data_member v1 "id")
                            (data_member v2 "id") false)
                         (deepEqual (data_member v1 "extension")
                            (data_member v2 "extension") false))
                else Some result
          | None, Some te =>
              match as_number actual with
              | Some x =>
                  let qa := FP_Quantity x "'1'" in
                  Some (if fuzzy then fp_equivalentTo qa te
                        else fp_equals qa te)
              | None => Some (VBool false)
              end
          | Some ta, None =>
              match as_number expected with
              | Some y =>
                  let qe := FP_Quantity y "'1'" in
                  Some (if fuzzy then fp_equivalentTo ta qe
                        else fp_equals ta qe)
              | None => Some (VBool false)
              end
          | None, None =>
              objEquiv (fun a b => deepEqual a b fuzzy) actual expected
          end
    end in
  if strict_eq actual expected then same_data
  else if fuzzy then
    match as_string actual, as_string expected with
    | Some sa, Some se =>
        Some (VBool (String.eqb (normalizeStr sa) (normalizeStr se)))
    | _, _ =>
        if isNumber actual && isNumber expected then
          Some (isEquivalent actual expected)
        else by_kind
    end
  else
    match as_number actual, as_bigint actual with
    | Some x, _ =>
        match as_bigint expected, as_number expected with
        | Some z, _ => Some (VBool (loose_eq_number_bigint x z))
        | None, Some y =>
            if Numbers.isEqual x y then
              if both then deepEqual (node__data v1) (node__data v2) fuzzy
              else Some (VBool true)
            else Some (VBool false)
        | None, None => by_kind
        end
    | None, Some z =>
        match as_number expected with
        | Some y => Some (VBool (loose_eq_number_bigint y z))
        | None => by_kind
        end
    | None, None => by_kind
    end.

(** The recursion descends into the operands; [fuel] bounds its depth and
    [None] tells that it ran out. *)
Fixpoint deepEqual_rec (fuel : nat) : value -> value -> bool -> option value :=
  match fuel with
  | O => fun _ _ _ => None
  | S n => deepEqual_body (deepEqual_rec n)
  end.

(** The nesting depth of a value. *)
Fixpoint depth (v : value) : nat :=
  match v with
  | VArr l => S (list_max (List.map depth l))
  | VObj props => S (list_max (List.map (fun kv => depth (snd kv)) props))
  | VNode data _data _ => S (Nat.max (depth data) (depth _data))
  | _ => 0
  end.

(** Each nested call goes to members of both operands, and one of the two
    is then less deep: the sum of the depths bounds the nesting. *)
Definition deepEqual (v1 v2 : value) (fuzzy : bool) : value :=
  match deepEqual_rec (S (depth v1 + depth v2)) v1 v2 fuzzy with
  | Some r => r
  | None => VUndefined
  end.

End WithTypes.
End DeepEqual.

(** ** src/equality.ts (equality and equivalence) *)
Module Equality.
Section WithTypes.

Variable same_object : value -> value -> bool.
Variable convert : value -> string -> option fp_type.
Variable fp_equals : fp_type -> fp_type -> value.
Variable fp_equivalentTo : fp_type -> fp_type -> value.
Variable isNumber : value -> bool.
Variable isEquivalent : value -> value -> value.

Definition deepEqual : value -> value -> bool -> value :=
  DeepEqual.deepEqual same_object convert fp_equals fp_equivalentTo
    isNumber isEquivalent.

(** The operands are collections: JavaScript arrays. *)
Definition equality (x y : list value) : value :=
  if Util.isEmpty (VArr x) || Util.isEmpty (VArr y) then empty
  else deepEqual (VArr x) (VArr y) false.

Definition equivalence (x y : list value) : value :=
  if Util.isEmpty (VArr x) && Util.isEmpty (VArr y) then VArr [VBool true]
  else if Util.isEmpty (VArr x) || Util.isEmpty (VArr y) then empty
  else deepEqual (VArr x) (VArr y) true.

Definition equal (a b : list value) : value := equality a b.

Definition unequal (a b : list value) : value :=
  let eq := equality a b in
  match eq with
  | VUndefined => VUndefined
  | _ => js_not eq
  end.

Definition equival (a b : list value) : value := equivalence a b.

Definition unequival (a b : list value) : value := js_not (equivalence a b).

End WithTypes.
End Equality.

(** ** src/hash-object.ts *)
Module HashObject.

(** The array index a property name denotes, if it is the canonical
    decimal form of one. *)
Definition digit_of (c : ascii) : option nat :=
  let n := nat_of_ascii c in
  if ((48 <=? n) && (n <=? 57))%nat then Some (n - 48)%nat else None.

Fixpoint parse_digits (acc : nat) (s : string) : option nat :=
  match s with
  | EmptyString => Some acc
  | String c r =>
      match digit_of c with
      | Some d => parse_digits (10 * acc + d) r
      | None => None
      end
  end.

Definition array_index (k : string) : option nat :=
  match k with
  | EmptyString => None
  | String c r =>
      if Ascii.eqb c "0" && negb (String.eqb r EmptyString) then None
      else parse_digits 0 k
  end.

(** Insertion of a property into an object already in enumeration order:
    array indices first, ascending; then the other names in the order of
    their insertion. *)
Fixpoint insert_index (i : nat) (kv : string * value)
    (o : list (string * value)) : list (string * value) :=
  match o with
  | [] => [kv]
  | h :: t =>
      match array_index (fst h) with
      | Some j => if (j <? i)%nat then h :: insert_index i kv t else kv :: o
      | None => kv :: o
      end
  end.

(** [o[key] = v] on an object that started as [{}] and receives each name
    once.  Assigning to [__proto__] sets the prototype and adds no own
    property. *)
Definition set_prop (o : list (string * value)) (kv : string * value)
  : list (string * value) :=
  if String.eqb (fst kv) "__proto__" then o
  else
    match array_index (fst kv) with
    | Some i => insert_index i kv o
    | None => o ++ [kv]
    end.

(** [JSON.stringify] of a string: ASCII code units. *)
Definition hex_digit (n : nat) : ascii :=
  ascii_of_nat (if (n <? 10)%nat then 48 + n else 87 + n).

Definition escape_char (c : ascii) : string :=
  let n := nat_of_ascii c in
  let bs := ascii_of_nat 92 in
  if (n =? 34)%nat then String bs (String c EmptyString)
  else if (n =? 92)%nat then String bs (String bs EmptyString)
  else if (n =? 8)%nat then String bs "b"
  else if (n =? 12)%nat then String bs "f"
  else if (n =? 10)%nat then String bs "n"
  else if (n =? 13)%nat then String bs "r"
  else if (n =? 9)%nat then String bs "t"
  else if (n <? 32)%nat then
    String bs ("u00" +:+ String (hex_digit (n / 16))
                          (String (hex_digit (n mod 16)) EmptyString))
  else String c EmptyString.

Fixpoint escape (s : string) : string :=
  match s with
  | EmptyString => EmptyString
  | String c r => escape_char c +:+ escape r
  end.

Definition quote (s : string) : string :=
  let q := String (ascii_of_nat 34) EmptyString in
  q +:+ escape s +:+ q.

Fixpoint join (sep : string) (l : list string) : string :=
  match l with
  | [] => EmptyString
  | [s] => s
  | s :: r => s +:+ sep +:+ join sep r
  end.

Section WithTypes.

(** Members of src/types.ts and of the UCUM library, and the renderings of
    Numbers ([String(x)]) and Dates ([toISOString]).
    [getSpecifiedUnit u] stands for the pair of [property_] and
    [magnitude_] of [ucumUtils.getSpecifiedUnit(u).unit]. *)
Variable convert : value -> string -> option fp_type.
Variable fp_toString : fp_type -> string.
Variable _yearMonthConversionFactor : string -> option float.
Variable toUcumQuantity : float -> string -> float * string.
Variable getSpecifiedUnit : string -> string * float.
Variable numToString : float -> string.
Variable toISOString : float -> string.

Definition bigint_toString (z : Z) : string :=
  NilEmpty.string_of_int (Z.to_int z).

Definition prepare_fp (t : fp_type) : value :=
  match t with
  | FP_Quantity v u =>
      let ucum :=
        let (uv, uu) := toUcumQuantity v u in
        let (property_, magnitude_) := getSpecifiedUnit uu in
        VStr ("_!" +:+ property_ +:+ "!_:" +:+ numToString (magnitude_ * uv)) in
      match _yearMonthConversionFactor u with
      | Some magnitude =>
          if truthy (VNum magnitude) then
            VStr ("_!yearMonth!_:" +:+ numToString (magnitude * v))
          else ucum
      | None => ucum
      end
  | _ => VStr (fp_toString t)
  end.

(** [prepareObject]; the data of a node is plain data (no node inside). *)
Fixpoint prepareObject (v : value) : value :=
  match v with
  | VNode data _ path =>
      match convert data path with
      | Some t => prepare_fp t
      | None => prepareObject data
      end
  | VNull => VNull
  | VBigInt z => VStr (bigint_toString z)
  | VNum x => VNum (Numbers.roundToMaxPrecision x)
  | VDate t => VStr (toISOString t)
  | VFP t => prepare_fp t
  | VArr l => VArr (List.map prepareObject l)
  | VObj props =>
      let prepared := List.map (fun kv => (fst kv, prepareObject (snd kv))) props in
      VObj (List.fold_left
              (fun o key => set_prop o (key, get (VObj prepared) key))
              (sort (List.map fst props)) [])
  | VUndefined | VBool _ | VStr _ => v
  end.

(** [JSON.stringify(v)] for a prepared value; [None] is [undefined]. *)
Fixpoint stringify (v : value) : option string :=
  match v with
  | VNull => Some "null"
  | VBool b => Some (if b then "true" else "false")
  | VNum x => Some (if PrimFloat.is_finite x then numToString x else "null")
  | VStr s => Some (quote s)
  | VArr l =>
      Some ("[" +:+
            join "," (List.map (fun x => match stringify x with
                                         | Some s => s
                                         | None => "null"
                                         end) l) +:+ "]")
  | VObj props =>
      Some ("{" +:+
            join "," (List.flat_map
                        (fun kv => match stringify (snd kv) with
                                   | Some s => [quote (fst kv) +:+ ":" +:+ s]
                                   | None => []
                                   end) props) +:+ "}")
  | _ => None
  end.

(** The hash is used as a property name: [undefined] names the property
    ["undefined"]. *)
Definition hashObject (obj : value) : string :=
  match stringify (prepareObject obj) with
  | Some s => s
  | None => "undefined"
  end.

End WithTypes.
End HashObject.

(** ** src/filtering.ts (distinct and repeat) *)
Module Filtering.

Definition maxCollSizeForDeepEqual : nat := 6.

(** [state] of [repeatMacro]; [unique] holds the names set to [true]. *)
Record RepeatState := {
  res : list value;
  unique : gset string;
  hasPrimitive : bool
}.

(** Truthiness of [table[key]] for a table object that started as [{}]. *)
Definition flagged (table : gset string) (key : string) : bool :=
  bool_decide (key ∈ table) || JS.mem_string key JS.Object_prototype_names.

(** [flattenSync] of src/utilities.ts, [[].concat(...x)]: the items of
    [x] that are arrays are replaced by their contents. *)
Definition flattenSync (x : list value) : list value :=
  List.flat_map (fun v => match v with VArr l => l | _ => [v] end) x.

(** [parentData !== false && !parentData] *)
Definition no_data (parentData : value) : bool :=
  negb (is_false parentData) && negb (truthy parentData).

(** [Array.isArray(parentData) ? parentData : [parentData]] *)
Definition dataArray (parentData : value) : list value :=
  match parentData with VArr l => l | _ => [parentData] end.

(** [whereMacro] and [selectMacro] for an expression that returns
    collections at once: [expr i x] is what the compiled expression
    returns for the item [x] while [$index] is [i]. *)
Definition whereMacro (parentData : value) (expr : nat -> value -> list value)
  : list value :=
  if no_data parentData then []
  else
    match parentData with
    | VBool b => if b then [VBool true] else []
    | _ =>
        flattenSync
          (imap (fun i x =>
                   if truthy (hd VUndefined (expr i x)) then x else VArr [])
             (dataArray parentData))
    end.

Definition selectMacro (data : value) (expr : nat -> value -> list value)
  : list value :=
  if no_data data then []
  else flattenSync (imap (fun i x => VArr (expr i x)) (dataArray data)).

Definition singleFn (x : list value) : result (list value) :=
  if Nat.eqb (length x) 1 then Ok x
  else if Nat.eqb (length x) 0 then Ok []
  else Throw "Expected single".

(** [x[0]] and [x[x.length - 1]]: [undefined] on the empty collection. *)
Definition firstFn (x : list value) : value := hd VUndefined x.

Definition lastFn (x : list value) : value := List.last x VUndefined.

(** The counts of [take] and [skip] are integers. *)
Definition tailFn (x : list value) : list value :=
  JS.slice x 1 (Z.of_nat (length x)).

Definition takeFn (x : list value) (n : Z) : list value := JS.slice x 0 n.

Definition skipFn (x : list value) (num : Z) : list value :=
  JS.slice x num (Z.of_nat (length x)).

Section WithHelpers.

(** [deepEqual] with default options, [hashObject], and
    [TypeInfo.isPrimitiveValue] of src/types.ts. *)
Variable deepEqual : value -> value -> value.
Variable hashObject : value -> string.
Variable isPrimitiveValue : value -> bool.

(** The loop over [x] that fills [unique] through the table [uniqueHash]. *)
Fixpoint distinct_by_hash (x : list value) (uniqueHash : gset string)
    (unique : list value) : list value :=
  match x with
  | [] => unique
  | xObj :: rest =>
      let xStr := hashObject xObj in
      if flagged uniqueHash xStr then distinct_by_hash rest uniqueHash unique
      else distinct_by_hash rest ({[xStr]} ∪ uniqueHash) (unique ++ [xObj])
  end.

(** The do-while loop; [xCopy] is kept as a stack, its top first, so that
    [pop] takes the head.  [fuel] bounds the number of rounds; the length
    of [x] is enough, since every round pops an item. *)
Fixpoint distinct_by_deepEqual (fuel : nat) (xCopy unique : list value)
  : list value :=
  match fuel, xCopy with
  | S n, xObj :: rest =>
      distinct_by_deepEqual n
        (List.filter (fun o => negb (truthy (deepEqual xObj o))) rest)
        (unique ++ [xObj])
  | _, _ => unique
  end.

Definition distinctFn (x : list value) (hasPrimitive : option bool)
  : list value :=
  match x with
  | [] => []
  | _ =>
      let hasPrimitive :=
        match hasPrimitive with
        | Some b => b
        | None => existsb isPrimitiveValue x
        end in
      if negb hasPrimitive && (maxCollSizeForDeepEqual <? length x)%nat then
        distinct_by_hash x ∅ []
      else distinct_by_deepEqual (length x) x []
  end.

(** The two filters of [getNewItems]; each returns the items kept and the
    table or result list it updated on the way. *)
Fixpoint new_by_hash (items : list value) (unique : gset string)
  : list value * gset string :=
  match items with
  | [] => ([], unique)
  | item :: rest =>
      let key := hashObject item in
      if flagged unique key then new_by_hash rest unique
      else
        let (kept, unique') := new_by_hash rest ({[key]} ∪ unique) in
        (item :: kept, unique')
  end.

Fixpoint new_by_deepEqual (items res : list value)
  : list value * list value :=
  match items with
  | [] => ([], res)
  | item :: rest =>
      if existsb (fun i => truthy (deepEqual i item)) res then
        new_by_deepEqual rest res
      else
        let (kept, res') := new_by_deepEqual rest (res ++ [item]) in
        (item :: kept, res')
  end.

Definition getNewItems (items : list value) (state : RepeatState)
  : list value * RepeatState :=
  let hasPrimitive := hasPrimitive state || existsb isPrimitiveValue items in
  if negb hasPrimitive
     && (maxCollSizeForDeepEqual <? length items + length (res state))%nat
  then
    let (newItems, unique') := new_by_hash items (unique state) in
    (newItems,
     {| res := res state ++ newItems; unique := unique';
        hasPrimitive := hasPrimitive |})
  else
    let (newItems, res') := new_by_deepEqual items (res state) in
    (newItems,
     {| res := res'; unique := unique state; hasPrimitive := hasPrimitive |}).

Definition initial_state : RepeatState :=
  {| res := []; unique := ∅; hasPrimitive := false |}.

(** [repeatMacro] for a projection [expr] that returns collections at
    once; [fuel] bounds the number of nested calls and [None] tells that
    it ran out.  (When a projection returns promises, the source takes the
    same steps after they have resolved.) *)
Fixpoint repeatMacro (fuel : nat) (parentData : value)
    (expr : value -> list value) (state : RepeatState)
  : option (list value) :=
  match fuel with
  | O => None
  | S n =>
      if negb (is_false parentData) && negb (truthy parentData) then Some []
      else
        let dataArray :=
          match parentData with VArr l => l | _ => [parentData] end in
        let newItems := List.flat_map expr dataArray in
        match newItems with
        | [] => Some (res state)
        | _ =>
            let (fresh, state') := getNewItems newItems state in
            repeatMacro n (VArr fresh) expr state'
        end
  end.

End WithHelpers.
End Filtering.

(** ** src/collections.ts *)
Module Collections.
Section WithHelpers.

(** [deepEqual] with default options, and [toJSON] of src/types.ts. *)
Variable deepEqual : value -> value -> value.
Variable toJSON : value -> string.

(** The loop over [a]; [b[0]] is [undefined] when [b] is empty. *)
Fixpoint containsImpl (a b : list value) : bool :=
  match a with
  | [] => false
  | ai :: rest =>
      if truthy (deepEqual ai (hd VUndefined b)) then true
      else containsImpl rest b
  end.

(** The result is a boolean or the empty collection. *)
Definition contains (a b : list value) : result value :=
  if Nat.eqb (length b) 0 then Ok empty
  else if Nat.eqb (length a) 0 then Ok (VBool false)
  else if (1 <? length b)%nat then
    Throw ("Expected singleton on right side of contains, got " +:+
           toJSON (VArr b))
  else Ok (VBool (containsImpl a b)).

Definition in_ (a b : list value) : result value :=
  if Nat.eqb (length a) 0 then Ok empty
  else if Nat.eqb (length b) 0 then Ok (VBool false)
  else if (1 <? length a)%nat then
    Throw ("Expected singleton on right side of in, got " +:+ toJSON (VArr a))
  else Ok (VBool (containsImpl b a)).

End WithHelpers.
End Collections.

(** ** src/existence.ts *)
Module Existence.

Definition emptyFn (x : list value) : bool := Util.isEmpty (VArr x).

(** The loops of [allTrueFn], [anyTrueFn], [allFalseFn] and [anyFalseFn]:
    each checks the type of an item before it reads it, and stops at the
    item that decides the result. *)
Fixpoint allTrue_loop (x : list value) : result bool :=
  match x with
  | [] => Ok true
  | data :: rest =>
      let* xi := Util.assertType data ["boolean"] "allTrue" in
      if is_true xi then allTrue_loop rest else Ok false
  end.

Fixpoint anyTrue_loop (x : list value) : result bool :=
  match x with
  | [] => Ok false
  | data :: rest =>
      let* xi := Util.assertType data ["boolean"] "anyTrue" in
      if is_true xi then Ok true else anyTrue_loop rest
  end.

Fixpoint allFalse_loop (x : list value) : result bool :=
  match x with
  | [] => Ok true
  | data :: rest =>
      let* xi := Util.assertType data ["boolean"] "allFalse" in
      if is_false xi then allFalse_loop rest else Ok false
  end.

Fixpoint anyFalse_loop (x : list value) : result bool :=
  match x with
  | [] => Ok false
  | data :: rest =>
      let* xi := Util.assertType data ["boolean"] "anyFalse" in
      if is_false xi then Ok true else anyFalse_loop rest
  end.

Definition allTrueFn (x : list value) : result (list value) :=
  let* rtn := allTrue_loop x in Ok [VBool rtn].

Definition anyTrueFn (x : list value) : result (list value) :=
  let* rtn := anyTrue_loop x in Ok [VBool rtn].

Definition allFalseFn (x : list value) : result (list value) :=
  let* rtn := allFalse_loop x in Ok [VBool rtn].

Definition anyFalseFn (x : list value) : result (list value) :=
  let* rtn := anyFalse_loop x in Ok [VBool rtn].

(** [existsMacro]; [expr] is [None] when the call passes no criterion. *)
Definition existsMacro (coll : list value)
    (expr : option (nat -> value -> list value)) : bool :=
  match expr with
  | Some e => negb (Util.isEmpty (VArr (Filtering.whereMacro (VArr coll) e)))
  | None => negb (Util.isEmpty (VArr coll))
  end.

(** The loop of [allMacro] from the index [i], for an expression that
    returns collections at once: the result, and the items the
    expression was called on with the value of [$index] at each call. *)
Fixpoint allMacro_from (i : nat) (coll : list value)
    (expr : nat -> value -> list value)
  : list value * list (nat * value) :=
  match coll with
  | [] => ([VBool true], [])
  | x :: rest =>
      if Util.isTrue (VArr (expr i x)) then
        let (r, calls) := allMacro_from (S i) rest expr in (r, (i, x) :: calls)
      else ([VBool false], [(i, x)])
  end.

Definition allMacro (coll : list value) (expr : nat -> value -> list value)
  : list value * list (nat * value) :=
  allMacro_from 0 coll expr.

Section WithHelpers.

Variable toJSON : value -> string.
Variable deepEqual : value -> value -> value.
Variable hashObject : value -> string.
Variable isPrimitiveValue : value -> bool.

(** The result is a boolean or the empty collection. *)
Definition notFn (coll : list value) : result value :=
  let* d := Misc.singleton toJSON coll Misc.Boolean in
  Ok match d with VBool b => VBool (negb b) | _ => empty end.

Definition subsetOf (coll1 coll2 : list value) : bool :=
  if (length coll1 <=? length coll2)%nat then
    let hasPrimitive :=
      existsb isPrimitiveValue coll1 || existsb isPrimitiveValue coll2 in
    if negb hasPrimitive
       && (Filtering.maxCollSizeForDeepEqual <? length coll1 + length coll2)%nat
    then
      let c2Hash : gset string :=
        List.fold_left (fun hash item => {[hashObject item]} ∪ hash) coll2 ∅ in
      negb (existsb
              (fun item => negb (Filtering.flagged c2Hash (hashObject item)))
              coll1)
    else
      forallb
        (fun item1 =>
           existsb
             (fun obj2 =>
                truthy (deepEqual (Util.valData item1) (Util.valData obj2)))
             coll2)
        coll1
  else false.

Definition subsetOfFn (coll1 coll2 : list value) : list value :=
  [VBool (subsetOf coll1 coll2)].

Definition supersetOfFn (coll1 coll2 : list value) : list value :=
  [VBool (subsetOf coll2 coll1)].

Definition isDistinctFn (x : list value) : list value :=
  [VBool (Nat.eqb (length x)
            (length (Filtering.distinctFn deepEqual hashObject
                       isPrimitiveValue x None)))].

End WithHelpers.
End Existence.

(** ** src/combining.ts *)
Module Combining.
Section WithHelpers.

Variable deepEqual : value -> value -> value.
Variable hashObject : value -> string.
Variable isPrimitiveValue : value -> bool.

Definition union (coll1 coll2 : list value) : list value :=
  Filtering.distinctFn deepEqual hashObject isPrimitiveValue
    (coll1 ++ coll2) None.

Definition combineFn (coll1 coll2 : list value) : list value := coll1 ++ coll2.

(** The table [coll2hash] of [intersect] holds booleans.  Reading a name
    it does not hold finds what a plain object inherits; assigning to
    [__proto__] adds no property. *)
Definition marked (coll2hash : gmap string bool) (hash : string) : bool :=
  match coll2hash !! hash with
  | Some b => b
  | None => JS.mem_string hash JS.Object_prototype_names
  end.

Definition set_mark (coll2hash : gmap string bool) (hash : string) (b : bool)
  : gmap string bool :=
  if String.eqb hash "__proto__" then coll2hash else <[hash := b]> coll2hash.

(** The loop over [coll2] that fills the table and counts the different
    hashes, and the loop over [coll1] that collects the result. *)
Fixpoint hash_coll2 (coll2 : list value) (coll2hash : gmap string bool)
    (uncheckedLength : nat) : gmap string bool * nat :=
  match coll2 with
  | [] => (coll2hash, uncheckedLength)
  | item :: rest =>
      let hash := hashObject item in
      if marked coll2hash hash then
        hash_coll2 rest coll2hash (uncheckedLength - 1)
      else hash_coll2 rest (set_mark coll2hash hash true) uncheckedLength
  end.

Fixpoint collect_marked (coll1 : list value) (coll2hash : gmap string bool)
    (uncheckedLength : nat) (result : list value) : list value :=
  match coll1 with
  | [] => result
  | item :: rest =>
      if (0 <? uncheckedLength)%nat then
        let hash := hashObject item in
        if marked coll2hash hash then
          collect_marked rest (set_mark coll2hash hash false)
            (uncheckedLength - 1) (result ++ [item])
        else collect_marked rest coll2hash uncheckedLength result
      else result
  end.

Definition intersect (coll1 coll2 : list value) : list value :=
  if negb (Nat.eqb (length coll1) 0) && negb (Nat.eqb (length coll2) 0) then
    let hasPrimitive :=
      existsb isPrimitiveValue coll1 || existsb isPrimitiveValue coll2 in
    if negb hasPrimitive
       && (Filtering.maxCollSizeForDeepEqual <? length coll1 + length coll2)%nat
    then
      let (coll2hash, uncheckedLength) :=
        hash_coll2 coll2 ∅ (length coll2) in
      collect_marked coll1 coll2hash uncheckedLength []
    else
      List.filter
        (fun obj1 => existsb (fun obj2 => truthy (deepEqual obj1 obj2)) coll2)
        (Filtering.distinctFn deepEqual hashObject isPrimitiveValue coll1
           (Some hasPrimitive))
  else [].

Definition exclude (coll1 coll2 : list value) : list value :=
  if Nat.eqb (length coll2) 0 then coll1
  else if negb (Nat.eqb (length coll1) 0) then
    let hasPrimitive :=
      existsb isPrimitiveValue coll1 || existsb isPrimitiveValue coll2 in
    if negb hasPrimitive
       && (Filtering.maxCollSizeForDeepEqual <? length coll1 + length coll2)%nat
    then
      let coll2hash : gset string :=
        List.fold_left (fun hash item => {[hashObject item]} ∪ hash) coll2 ∅ in
      List.filter
        (fun item => negb (Filtering.flagged coll2hash (hashObject item)))
        coll1
    else
      List.filter
        (fun item =>
           negb (existsb (fun item2 => truthy (deepEqual item item2)) coll2))
        coll1
  else [].

End WithHelpers.
End Combining.

(** * Sample instances and inputs

    The members of src/types.ts, of the UCUM library and of the
    JavaScript runtime that the functions above take as parameters, in a
    plain form, and the inputs on which the properties below are
    instantiated. *)
Module Sample.

(** No two operands are the same object. *)
Definition distinct_objects (a b : value) : bool := false.

(** No node converts to an [FP_Type] instance. *)
Definition no_conversion (data : value) (path : string) : option fp_type :=
  None.

(** Quantities and temporal values are equal when their fields are. *)
Definition time_class_eqb (a b : time_class) : bool :=
  match a, b with
  | FP_DateTime, FP_DateTime | FP_Date, FP_Date | FP_Time, FP_Time
  | FP_Instant, FP_Instant => true
  | _, _ => false
  end.

Definition fp_equals (a b : fp_type) : value :=
  match a, b with
  | FP_Quantity x u, FP_Quantity y w =>
      VBool (PrimFloat.eqb x y && String.eqb u w)
  | FP_TimeBase c s, FP_TimeBase d t =>
      VBool (time_class_eqb c d && String.eqb s t)
  | _, _ => VBool false
  end.

(** Stand-ins for [isNumber] and [numbers.isEquivalent] on Numbers.  The
    samples compare for equality, where [deepEqual] calls neither. *)
Definition isNumber (v : value) : bool :=
  match v with VNum x => PrimFloat.is_finite x | _ => false end.

Definition isEquivalent (a b : value) : value :=
  match a, b with
  | VNum x, VNum y => VBool (PrimFloat.eqb (JS.Math_round x) (JS.Math_round y))
  | _, _ => VBool false
  end.

Definition deepEqual (a b : value) : value :=
  DeepEqual.deepEqual distinct_objects no_conversion fp_equals fp_equals
    isNumber isEquivalent a b false.

(** A rendering of Numbers that tells different Numbers apart: sign,
    mantissa and exponent (not the decimal rendering of JavaScript). *)
Definition render_number (x : float) : string :=
  match Prim2SF x with
  | S754_zero _ => "0"
  | S754_infinity s => if s then "-Infinity" else "Infinity"
  | S754_nan => "NaN"
  | S754_finite s m e =>
      (if s then "-" else "") +:+ NilEmpty.string_of_int (Z.to_int (Z.pos m))
      +:+ "p" +:+ NilEmpty.string_of_int (Z.to_int e)
  end.

Definition fp_toString (t : fp_type) : string :=
  match t with
  | FP_Quantity x u => render_number x +:+ " " +:+ u
  | FP_TimeBase _ s => s
  end.

Definition hashObject : value -> string :=
  HashObject.hashObject no_conversion fp_toString (fun _ => None)
    (fun x u => (x, u)) (fun u => (u, 1%float)) render_number render_number.

(** Modelled from the spec: [TypeInfo.isPrimitiveValue] (src/types.ts is
    not among the sources).  The primitives are the value kinds Boolean,
    Integer, Long, Decimal, String, Date, DateTime and Time of the data
    model; a node is primitive when its data is. *)
Definition isPrimitiveValue (v : value) : bool :=
  match Util.valData v with
  | VBool _ | VNum _ | VBigInt _ | VStr _ | VFP (FP_TimeBase _ _) => true
  | _ => false
  end.

(** Modelled from the spec: the table
    [FP_Quantity._calendarDuration2Seconds] (src/types.ts is not among
    the sources), for the calendar durations of the data model, with a
    year of 365 days and a month of 30 days. *)
Definition calendar_seconds (u : string) : option float :=
  if String.eqb u "year" then Some 31536000%float
  else if String.eqb u "month" then Some 2592000%float
  else if String.eqb u "week" then Some 604800%float
  else if String.eqb u "day" then Some 86400%float
  else if String.eqb u "hour" then Some 3600%float
  else if String.eqb u "minute" then Some 60%float
  else if String.eqb u "second" then Some 1%float
  else if String.eqb u "millisecond" then Some 0.001%float
  else None.

(** Seven nodes of a complex type: [{a: []}], [{a: {}}], and five more of
    the first. *)
Definition contact_array : value :=
  VNode (VObj [("a", VArr [])]) VUndefined "Patient.contact".

Definition contact_object : value :=
  VNode (VObj [("a", VObj [])]) VUndefined "Patient.contact".

Definition seven_contacts : list value :=
  [contact_array; contact_object; contact_array; contact_array;
   contact_array; contact_array; contact_array].

(** A cyclic structure: two items that refer to each other, and the
    projection that follows the reference. *)
Definition ping : value := VNode (VObj [("id", VStr "ping")]) VUndefined "Item".
Definition pong : value := VNode (VObj [("id", VStr "pong")]) VUndefined "Item".

Definition item_id (v : value) : string :=
  match v with
  | VNode (VObj ((_, VStr s) :: _)) _ _ => s
  | _ => ""
  end.

Definition other (x : value) : list value :=
  if String.eqb (item_id x) "ping" then [pong]
  else if String.eqb (item_id x) "pong" then [ping]
  else [].

Definition class_of (v : value) : nat :=
  if String.eqb (item_id v) "pong" then 1%nat else 0%nat.

(** A collection of two booleans and a string, the expression [$this],
    and a collection that holds an item twice. *)
Definition flags : list value := [VBool true; VBool false; VStr "x"].

Definition itself (i : nat) (x : value) : list value := [x].

Definition twins : list value := [VStr "a"; VStr "a"].

(** Two Numbers next to each other in binary64, the nearest to the
    decimals 1000000000.0000001 and 1000000000.0000002; they are about
    1.2e-7 apart. *)
Definition decimal_a : float := 0x1.dcd6500000001p+29.
Definition decimal_b : float := 0x1.dcd6500000002p+29.

(** A tree of parameters, [{part: [{name: 'a', part: members}, {name:
    'b'}]}], and the projection [part] that [repeat(part)] applies: the
    members of [part], as nodes. *)
Definition named (name : string) : value := VObj [("name", VStr name)].

Definition branch (members : list value) : value :=
  VObj [("name", VStr "a"); ("part", VArr members)].

Definition tree (members : list value) : value :=
  VNode (VObj [("part", VArr [branch members; named "b"])]) VUndefined
    "Parameters.parameter".

Definition part_node (data : value) : value :=
  VNode data VUndefined "Parameters.parameter.part".

Definition part (x : value) : list value :=
  match get (Util.valData x) "part" with
  | VArr l => List.map part_node l
  | _ => []
  end.

(** Seven members and four members, the last of each a copy of the
    part [{name: 'b'}] that stands next to the branch. *)
Definition seven_parts : list value :=
  [named "1"; named "2"; named "3"; named "4"; named "5"; named "6";
   named "b"].

Definition four_parts : list value :=
  [named "1"; named "2"; named "3"; named "b"].

End Sample.

(** * Vocabulary of the properties *)

(** The normalisation of strings under equivalence, as the specification
    words it. *)
Definition spec_normalizeStr (x : string) : string :=
  DeepEqual.collapse_spaces false (JS.toUpperCase x).

(** The value a closure's outcome settles to. *)
Definition settled (o : Misc.outcome) : value :=
  match o with Misc.Sync v | Misc.Promise v => v end.

(** The outcome [o] as seen behind the condition [cond]: a promise when the
    condition was a promise. *)
Definition behind (cond o : Misc.outcome) : Misc.outcome :=
  match cond with
  | Misc.Promise _ => Misc.Promise (settled o)
  | Misc.Sync _ => o
  end.

(** Numeric operands: a Number or a bigint. *)
Definition numeric (v : value) : bool :=
  match v with VNum _ | VBigInt _ => true | _ => false end.

(** A zero divisor: the Number 0 (of either sign) or the bigint 0n. *)
Definition zero_divisor (v : value) : bool :=
  Math.is_zero_number v || Math.is_zero_bigint v.

(** ** Runs of repeat *)
Section RepeatVocabulary.

Variable hashObject : value -> string.
Variable expr : value -> list value.
Variable cls : value -> nat.

(** The values the projection can return. *)
Definition output (v : value) : Prop := exists x, v ∈ expr x.

(** The generations of a run that starts from the collection [l]: each is
    a subsequence, in order, of what the projection makes of the
    generation before; the run ends with the generation whose projection
    is empty. *)
Inductive generations : list value -> list (list value) -> Prop :=
| generations_end l :
    List.flat_map expr l = [] -> generations l []
| generations_next l fresh later :
    List.flat_map expr l <> [] ->
    fresh `sublist_of` List.flat_map expr l ->
    generations fresh later ->
    generations l (fresh :: later).

(** The classes and the hashes of the items of a list; the potential of a
    state, which every new item raises; what holds of every state of a
    run. *)
Definition classes (l : list value) : gset nat := list_to_set (cls <$> l).

Definition hashes (l : list value) : gset string :=
  list_to_set (hashObject <$> l).

Definition potential (st : Filtering.RepeatState) : nat :=
  (size (classes (Filtering.res st)) + size (Filtering.unique st))%nat.

Definition Inv (st : Filtering.RepeatState) : Prop :=
  Forall output (Filtering.res st) /\
  Filtering.unique st ⊆ hashes (Filtering.res st).

End RepeatVocabulary.

(** ** Results of distinct *)
Section DistinctVocabulary.

Variable deepEqual : value -> value -> value.
Variable hashObject : value -> string.
Variable isPrimitiveValue : value -> bool.

(** [a] is not [deepEqual] to [o]. *)
Definition differs (a o : value) : bool := negb (truthy (deepEqual a o)).

(** No item is [deepEqual] to a later one. *)
Inductive separated : list value -> Prop :=
| separated_nil : separated []
| separated_cons a l :
    Forall (fun o => differs a o = true) l -> separated l ->
    separated (a :: l).

(** The names of the items are new to the table, one after the other. *)
Fixpoint unflagged (table : gset string) (l : list value) : Prop :=
  match l with
  | [] => True
  | a :: r =>
      Filtering.flagged table (hashObject a) = false /\
      unflagged ({[hashObject a]} ∪ table) r
  end.

(** Whether [distinctFn] takes the hash strategy on [x]. *)
Definition uses_hash (x : list value) : bool :=
  negb (existsb isPrimitiveValue x)
  && (Filtering.maxCollSizeForDeepEqual <? length x)%nat.

End DistinctVocabulary.

(** ** Criteria of where, exists and all *)

(** The criterion of [where] holds of the item [x] at the index [i]: the
    first item of what the expression returns is truthy. *)
Definition kept (expr : nat -> value -> list value) (i : nat) (x : value)
  : bool :=
  truthy (hd VUndefined (expr i x)).

(** The criterion of [all] holds: the expression returns the singleton
    [true]. *)
Definition criterion_true (expr : nat -> value -> list value) (i : nat)
    (x : value) : bool :=
  Util.isTrue (VArr (expr i x)).

(** Whether a function of two collections takes the hash strategy. *)
Definition pair_uses_hash (isPrimitiveValue : value -> bool)
    (coll1 coll2 : list value) : bool :=
  negb (existsb isPrimitiveValue coll1 || existsb isPrimitiveValue coll2)
  && (Filtering.maxCollSizeForDeepEqual <? length coll1 + length coll2)%nat.

(** ** Further vocabulary *)

(** The rounding of a Number to the nearest multiple of the precision
    step, on its exact value: the integer [k] nearest to [x * 10^8] (the
    upper one of two that are as near), so that [k * 1e-8] is the
    multiple.  Infinities and NaN have none. *)
Definition nearest_step (x : float) : option Z :=
  match Prim2SF x with
  | S754_zero _ => Some 0%Z
  | S754_finite s m e =>
      let n := if s then Z.neg m else Z.pos m in
      Some (if (0 <=? e)%Z then (n * 2 ^ e * 10 ^ 8)%Z
            else ((2 * n * 10 ^ 8 + 2 ^ (- e)) / (2 * 2 ^ (- e)))%Z)
  | _ => None
  end.

(** The item carries data: its value is neither [null] nor [undefined]. *)
Definition has_data (d : value) : bool := negb (is_nullish (Util.valData d)).

(** The string without its first [n] characters. *)
Fixpoint drop_chars (n : nat) (s : string) : string :=
  match n, s with
  | S k, String _ r => drop_chars k r
  | _, _ => s
  end.

(** The string holds ASCII characters only. *)
Definition ascii_only (s : string) : bool :=
  forallb (fun c => (nat_of_ascii c <? 128)%nat) (list_ascii_of_string s).

(** The operand [deepEqual] compares: the converted data of a node, the
    value itself otherwise. *)
Definition deepEqual_operand (convert : value -> string -> option fp_type)
    (v : value) : value :=
  if DeepEqual.isResourceNode v then DeepEqual.convertData convert v else v.

(** [deq'] returns what [deq] returns, wherever [deq] returns. *)
Definition extends (deq deq' : value -> value -> bool -> option value)
  : Prop :=
  forall a b f r, deq a b f = Some r -> deq' a b f = Some r.

(** The members of an object, each value prepared for hashing. *)
Definition prepared_members (prepareObject : value -> value)
    (props : list (string * value)) : list (string * value) :=
  List.map (fun kv => (fst kv, prepareObject (snd kv))) props.

(** * Properties *)

(** ** Three-valued logic *)




(** ** iif *)

Lemma run_then_ h p :
  Misc.run h (Misc.then_ p) =
  (Misc.Promise (settled (fst (Misc.run h p))), snd (Misc.run h p)).
Proof.
  induction p as [[v | v] | c d k IH]; simpl; try reflexivity.
  rewrite IH. destruct (Misc.run h (k (h c d))); reflexivity.
Qed.

Lemma run_iifMacroSync h data condition fail_given :
  Misc.run h (Misc.iifMacroSync data condition fail_given) =
  if Util.isTrue condition then (h Misc.OkBranch data, [(Misc.OkBranch, data)])
  else if fail_given then (h Misc.FailBranch data, [(Misc.FailBranch, data)])
  else (Misc.Sync empty, []).
Proof.
  unfold Misc.iifMacroSync.
  destruct (Util.isTrue condition); [reflexivity |].
  destruct fail_given; reflexivity.
Qed.

(** C9: whatever the three closures do, [iifMacro] calls the condition
    once and then exactly one branch: [ok] when the condition is true,
    otherwise [fail] when it was passed; the other branch is not called.
    With a condition that is not true and no [fail], no branch is called
    and the result is the empty collection. *)
Theorem iifMacro_lazy (h : Misc.closure -> value -> Misc.outcome)
    (data : value) (fail_given : bool) :
  let cond := h Misc.Cond data in
  Misc.run h (Misc.iifMacro data fail_given) =
  if Util.isTrue (settled cond) then
    (behind cond (h Misc.OkBranch data),
     [(Misc.Cond, data); (Misc.OkBranch, data)])
  else if fail_given then
    (behind cond (h Misc.FailBranch data),
     [(Misc.Cond, data); (Misc.FailBranch, data)])
  else (behind cond (Misc.Sync empty), [(Misc.Cond, data)]).
Proof.
  intros cond. unfold Misc.iifMacro. cbn [Misc.run]. fold cond.
  destruct cond as [c | c]; cbn [settled behind].
  - rewrite run_iifMacroSync.
    destruct (Util.isTrue c); [reflexivity |]. destruct fail_given; reflexivity.
  - rewrite run_then_, run_iifMacroSync.
    destruct (Util.isTrue c); [reflexivity |]. destruct fail_given; reflexivity.
Qed.

(** ** toBoolean *)

Lemma toBoolean_empty : Misc.toBoolean [] = Ok VUndefined.
Proof. reflexivity. Qed.

Lemma toBoolean_many (a b : value) (rest : list value) :
  Misc.toBoolean (a :: b :: rest) =
  Throw "toBoolean: The input collection contains multiple items".
Proof. reflexivity. Qed.

Lemma toBoolean_boolean (b : bool) : Misc.toBoolean [VBool b] = Ok (VBool b).
Proof. reflexivity. Qed.

Lemma toBoolean_bigint (z : Z) :
  Misc.toBoolean [VBigInt z] =
  Ok (if (z =? 1)%Z then VBool true
      else if (z =? 0)%Z then VBool false else VUndefined).
Proof. reflexivity. Qed.

Lemma toBoolean_number (x : float) :
  Misc.toBoolean [VNum x] =
  Ok (if PrimFloat.eqb x 1 then VBool true
      else if PrimFloat.eqb x 0 then VBool false else VUndefined).
Proof. reflexivity. Qed.

(** A string that is not the name of an inherited property converts by
    the two tables alone. *)
Lemma toBoolean_string (s : string) :
  JS.mem_string (JS.toLowerCase s) JS.Object_prototype_names = false ->
  Misc.toBoolean [VStr s] =
  Ok (if JS.mem_string (JS.toLowerCase s) Misc.trueStrings then VBool true
      else if JS.mem_string (JS.toLowerCase s) Misc.falseStrings then VBool false
      else VUndefined).
Proof.
  intros H. unfold Misc.toBoolean. cbn [Misc.checkSingleton length Nat.ltb Nat.leb Nat.eqb bind hd Util.valData].
  unfold JS.flag_set. rewrite H, !orb_false_r. reflexivity.
Qed.

(** C8: the string ['constructor'] is none of the twelve accepted
    spellings, yet [toBoolean] converts it to [true]: the lookup
    [trueStrings[lowerCaseValue]] finds the property of that name which
    the table object inherits. *)
Theorem toBoolean_inherited_property :
  Misc.toBoolean [VStr "constructor"] = Ok (VBool true) /\
  JS.mem_string (JS.toLowerCase "constructor") Misc.trueStrings = false /\
  JS.mem_string (JS.toLowerCase "constructor") Misc.falseStrings = false.
Proof. repeat split. Qed.

(** ** Division by zero *)
Section DivisionFamily.

Variable convert : value -> string -> option fp_type.
Variable fp_div : fp_type -> fp_type -> value.
Variable toJSON : value -> string.

Lemma div_zero_divisor (x y : value) :
  numeric x = true -> zero_divisor y = true ->
  Math.div convert fp_div toJSON [x] [y] = Ok empty.
Proof.
  destruct x; try discriminate; destruct y; try discriminate;
    unfold zero_divisor; cbn; intros _ H; rewrite ?orb_false_r in H;
    now rewrite H.
Qed.

Lemma intdiv_zero_divisor (x y : value) :
  zero_divisor y = true -> Math.intdiv x y = empty.
Proof. unfold Math.intdiv, zero_divisor. now intros ->. Qed.

Lemma mod_zero_number (x y : value) :
  Math.is_zero_number y = true -> Math.mod_ x y = Ok empty.
Proof. unfold Math.mod_. now intros ->. Qed.

End DivisionFamily.

Lemma rem_by_zero (x : float) : JS.rem x (JS.Number_of_bigint 0) = PrimFloat.nan.
Proof.
  unfold JS.rem.
  change (Prim2SF (JS.Number_of_bigint 0)) with (S754_zero false).
  destruct (Prim2SF x); reflexivity.
Qed.

(** C10: with the bigint divisor [0n], [mod] does not return the empty
    collection: a bigint dividend raises a RangeError and a Number
    dividend gives NaN. *)
Theorem mod_bigint_zero_divisor :
  (forall bx : Z,
      Math.mod_ (VBigInt bx) (VBigInt 0) = Throw "RangeError: Division by zero") /\
  (forall nx : float, Math.mod_ (VNum nx) (VBigInt 0) = Ok (VNum PrimFloat.nan)).
Proof.
  split; intros; cbn; [reflexivity | now rewrite rem_by_zero].
Qed.

(** ** Binary64 facts *)
Module FloatFacts.

Lemma shr_1_nonneg (mrs : shr_record) :
  (0 <= shr_m mrs)%Z -> (0 <= shr_m (shr_1 mrs))%Z.
Proof.
  destruct mrs as [m r s]. cbn [shr_m].
  destruct m as [| [p | p |] | p]; cbn; lia.
Qed.

Lemma iter_shr_1_nonneg (p : positive) (mrs : shr_record) :
  (0 <= shr_m mrs)%Z -> (0 <= shr_m (SpecFloat.iter_pos shr_1 p mrs))%Z.
Proof.
  revert mrs. induction p as [p IH | p IH |]; intros mrs H;
    cbn [SpecFloat.iter_pos].
  - apply IH, IH, shr_1_nonneg, H.
  - apply IH, IH, H.
  - apply shr_1_nonneg, H.
Qed.

Lemma shr_fexp_nonneg (m e : Z) (l : location) :
  (0 <= m)%Z -> (0 <= shr_m (fst (shr_fexp prec emax m e l)))%Z.
Proof.
  intros H. unfold shr_fexp, shr.
  assert (H0 : (0 <= shr_m (shr_record_of_loc m l))%Z)
    by (destruct l as [| []]; exact H).
  destruct (fexp prec emax (Zdigits2 m + e) - e)%Z; cbn [fst]; try exact H0.
  now apply iter_shr_1_nonneg.
Qed.

Lemma round_nearest_even_nonneg (m : Z) (l : location) :
  (0 <= m)%Z -> (0 <= round_nearest_even m l)%Z.
Proof.
  intros H. destruct l as [| []]; cbn; try lia.
  destruct (Z.even m); lia.
Qed.

(** Rounding a non-negative mantissa gives a zero, a finite number or an
    infinity. *)
Lemma binary_round_aux_not_nan (s : bool) (m e : Z) (l : location) :
  (0 <= m)%Z -> binary_round_aux prec emax s m e l <> S754_nan.
Proof.
  intros H. unfold binary_round_aux.
  pose proof (shr_fexp_nonneg m e l H) as H1.
  destruct (shr_fexp prec emax m e l) as [mrs' e']. cbn [fst] in H1.
  pose proof (shr_fexp_nonneg _ e' loc_Exact
                (round_nearest_even_nonneg _ (loc_of_shr_record mrs') H1)) as H2.
  destruct (shr_fexp prec emax _ e' loc_Exact) as [mrs'' e'']. cbn [fst] in H2.
  destruct (shr_m mrs''); try discriminate; [| lia].
  destruct (e'' <=? emax - prec)%Z; discriminate.
Qed.

Lemma binary_normalize_not_nan (m e : Z) (szero : bool) :
  binary_normalize prec emax m e szero <> S754_nan.
Proof.
  destruct m; cbn [binary_normalize]; try discriminate;
    unfold binary_round;
    destruct (shl_align _ _ _); apply binary_round_aux_not_nan; lia.
Qed.

Lemma SFdiv_finite_not_nan (x : spec_float) (sy : bool) (my : positive) (ey : Z) :
  x <> S754_nan -> SFdiv prec emax x (S754_finite sy my ey) <> S754_nan.
Proof.
  destruct x as [sx | sx | | sx mx ex]; intros H; cbn [SFdiv]; try discriminate;
    try congruence.
  unfold SFdiv_core_binary.
  set (m' := match _ with Zpos _ => _ | Z0 => _ | Zneg _ => _ end).
  assert (Hm : (0 <= m')%Z).
  { subst m'. destruct (_ - _ - _)%Z; try lia. apply Z.shiftl_nonneg. lia. }
  pose proof (Z.div_pos m' (Z.pos my) Hm ltac:(lia)) as Hq.
  unfold Z.div in Hq. destruct (Z.div_eucl m' (Z.pos my)) as [q r].
  now apply binary_round_aux_not_nan.
Qed.

Lemma SFmul_finite_not_nan (x : spec_float) (sy : bool) (my : positive) (ey : Z) :
  x <> S754_nan -> SFmul prec emax x (S754_finite sy my ey) <> S754_nan.
Proof.
  destruct x as [sx | sx | | sx mx ex]; intros H; cbn [SFmul]; try discriminate;
    try congruence.
  apply binary_round_aux_not_nan. lia.
Qed.

Lemma SFeqb_refl (f : spec_float) : f <> S754_nan -> SFeqb f f = true.
Proof.
  destruct f as [s | s | | s m e]; intros H; try congruence;
    unfold SFeqb; cbn [SFcompare]; try (destruct s; reflexivity).
  rewrite Z.compare_refl, Pos.compare_cont_refl. now destruct s.
Qed.

(** Numbers that compare equal are the same number, or two zeros. *)
Lemma SFeqb_true (f1 f2 : spec_float) :
  SFeqb f1 f2 = true ->
  f1 = f2 \/ exists s1 s2, f1 = S754_zero s1 /\ f2 = S754_zero s2.
Proof.
  unfold SFeqb.
  destruct f1 as [s1 | s1 | | s1 m1 e1], f2 as [s2 | s2 | | s2 m2 e2];
    cbn [SFcompare]; try discriminate;
    try (destruct s1; discriminate); try (destruct s2; discriminate).
  - intros _. right. eauto.
  - destruct s1, s2; try discriminate; now left.
  - intros H. left.
    destruct s1, s2; try discriminate;
      destruct (Z.compare_spec e1 e2) as [-> | |]; try discriminate;
      destruct (Pos.compare_cont Eq m1 m2) eqn:E; try discriminate;
      apply Pos.compare_eq in E; now subst.
Qed.

Lemma of_small_Z_not_nan (n : Z) : Prim2SF (JS.of_small_Z n) <> S754_nan.
Proof.
  unfold JS.of_small_Z. destruct (0 <=? n)%Z.
  - rewrite of_uint63_spec. apply binary_normalize_not_nan.
  - rewrite opp_spec, of_uint63_spec.
    pose proof (binary_normalize_not_nan
                  (Uint63.to_Z (Uint63.of_Z (- n))) 0 false) as H.
    destruct (binary_normalize _ _ _ _ _); cbn; congruence.
Qed.

Lemma Math_round_not_nan (x : float) :
  Prim2SF x <> S754_nan -> Prim2SF (JS.Math_round x) <> S754_nan.
Proof.
  intros H. unfold JS.Math_round.
  destruct (Prim2SF x) as [s | s | | s m e] eqn:E; try (rewrite E; congruence).
  destruct (0 <=? e)%Z; [rewrite E; congruence |].
  cbv zeta. destruct (_ =? 0)%Z.
  - destruct s; discriminate.
  - apply of_small_Z_not_nan.
Qed.

Lemma Math_round_zero (x : float) (s : bool) :
  Prim2SF x = S754_zero s -> JS.Math_round x = x.
Proof. intros H. unfold JS.Math_round. now rewrite H. Qed.

Lemma step_finite :
  Prim2SF Numbers.PRECISION_STEP = S754_finite false 6044629098073146 (-79).
Proof. reflexivity. Qed.

Lemma roundToMaxPrecision_not_nan (x : float) :
  Prim2SF x <> S754_nan -> Prim2SF (Numbers.roundToMaxPrecision x) <> S754_nan.
Proof.
  intros H. unfold Numbers.roundToMaxPrecision.
  rewrite mul_spec, step_finite. apply SFmul_finite_not_nan, Math_round_not_nan.
  rewrite div_spec, step_finite. now apply SFdiv_finite_not_nan.
Qed.

Lemma roundToMaxPrecision_zero (x : float) (s : bool) :
  Prim2SF x = S754_zero s ->
  Prim2SF (Numbers.roundToMaxPrecision x) = S754_zero s.
Proof.
  intros H. unfold Numbers.roundToMaxPrecision.
  assert (Hd : Prim2SF (x / Numbers.PRECISION_STEP) = S754_zero s).
  { rewrite div_spec, step_finite, H. cbn. now rewrite xorb_false_r. }
  rewrite mul_spec, (Math_round_zero _ s Hd), Hd, step_finite. cbn.
  now rewrite xorb_false_r.
Qed.

Lemma eqb_refl (x : float) : Prim2SF x <> S754_nan -> PrimFloat.eqb x x = true.
Proof. intros H. rewrite FloatAxioms.eqb_spec. now apply SFeqb_refl. Qed.

(** Two Numbers that are [===] round to Numbers that are [===]. *)
Lemma eqb_isEqual (x y : float) :
  PrimFloat.eqb x y = true -> Numbers.isEqual x y = true.
Proof.
  intros H. unfold Numbers.isEqual.
  rewrite FloatAxioms.eqb_spec in H.
  assert (Hx : Prim2SF x <> S754_nan).
  { intros E. rewrite E in H. discriminate. }
  destruct (SFeqb_true _ _ H) as [E | (s1 & s2 & E1 & E2)].
  - apply Prim2SF_inj in E. subst y.
    now apply eqb_refl, roundToMaxPrecision_not_nan.
  - rewrite FloatAxioms.eqb_spec,
      (roundToMaxPrecision_zero _ _ E1), (roundToMaxPrecision_zero _ _ E2).
    reflexivity.
Qed.

End FloatFacts.

(** ** Equality and equivalence *)
Section EqualityFacts.

Variable same_object : value -> value -> bool.
Variable convert : value -> string -> option fp_type.
Variable fp_equals : fp_type -> fp_type -> value.
Variable fp_equivalentTo : fp_type -> fp_type -> value.
Variable isNumber : value -> bool.
Variable isEquivalent : value -> value -> value.

Local Abbreviation deepEqual :=
  (DeepEqual.deepEqual same_object convert fp_equals fp_equivalentTo
     isNumber isEquivalent).
Local Abbreviation equal :=
  (Equality.equal same_object convert fp_equals fp_equivalentTo
     isNumber isEquivalent).
Local Abbreviation unequal :=
  (Equality.unequal same_object convert fp_equals fp_equivalentTo
     isNumber isEquivalent).

Lemma equal_empty (a b : list value) :
  a = [] \/ b = [] -> equal a b = empty.
Proof.
  intros [-> | ->]; unfold equal, Equality.equal, Equality.equality.
  - reflexivity.
  - cbn. now rewrite orb_true_r.
Qed.

(** C1: with an empty operand [unequal] returns the boolean [false], not
    the empty collection: it negates the empty collection that [equality]
    returned, and an array is truthy.  ([equal] returns the empty
    collection, see [equal_empty].) *)
Theorem unequal_empty_operand (a b : list value) :
  a = [] \/ b = [] ->
  unequal a b = VBool false /\ Util.arraify (unequal a b) = [VBool false].
Proof.
  intros H. unfold unequal, Equality.unequal.
  pose proof (equal_empty a b H) as E.
  unfold equal, Equality.equal in E. rewrite E. split; reflexivity.
Qed.

(** Strict comparison of two Numbers inside [deepEqual]. *)
Lemma deepEqual_numbers (x y : float) :
  deepEqual (VNum x) (VNum y) false = VBool (Numbers.isEqual x y).
Proof.
  unfold DeepEqual.deepEqual. cbn [DeepEqual.depth Nat.add DeepEqual.deepEqual_rec].
  unfold DeepEqual.deepEqual_body. cbn -[Numbers.isEqual].
  destruct (PrimFloat.eqb x y) eqn:E.
  - now rewrite (FloatFacts.eqb_isEqual x y E).
  - now destruct (Numbers.isEqual x y).
Qed.

(** [=] on two collections that each hold one Number, and that are not
    one and the same array, compares what [roundToMaxPrecision] makes of
    the two Numbers. *)
Lemma equal_numbers (x y : float) :
  same_object (VArr [VNum x]) (VArr [VNum y]) = false ->
  equal [VNum x] [VNum y] =
  VBool (PrimFloat.eqb (Numbers.roundToMaxPrecision x)
                       (Numbers.roundToMaxPrecision y)).
Proof.
  intros Hobj.
  change (PrimFloat.eqb _ _) with (Numbers.isEqual x y).
  unfold Equality.equal, Equality.equality, Equality.deepEqual,
    DeepEqual.deepEqual.
  cbn [Util.isEmpty orb DeepEqual.depth list_max List.map fold_right Nat.max
       Nat.add DeepEqual.deepEqual_rec].
  unfold DeepEqual.deepEqual_body at 1. cbn -[Numbers.isEqual DeepEqual.deepEqual_body].
  rewrite Hobj.
  unfold DeepEqual.deepEqual_body at 1.
  cbn -[Numbers.isEqual DeepEqual.deepEqual_body].
  destruct (PrimFloat.eqb x y) eqn:E.
  - now rewrite (FloatFacts.eqb_isEqual x y E).
  - now destruct (Numbers.isEqual x y).
Qed.

(** C7: the Numbers 1000000000.0000001 and 1000000000.0000002 are
    different ([===] is false), and the multiples of 1e-8 nearest to
    them are twelve steps apart, yet [=] holds of them: the quotient
    [x / PRECISION_STEP] that [roundToMaxPrecision] rounds is one and
    the same Number for both. *)
Theorem equal_numbers_beyond_precision :
  equal [VNum Sample.decimal_a] [VNum Sample.decimal_b] = VBool true /\
  PrimFloat.eqb Sample.decimal_a Sample.decimal_b = false /\
  nearest_step Sample.decimal_a = Some 100000000000000012%Z /\
  nearest_step Sample.decimal_b = Some 100000000000000024%Z /\
  PrimFloat.eqb (Sample.decimal_a / Numbers.PRECISION_STEP)
                (Sample.decimal_b / Numbers.PRECISION_STEP) = true.
Proof.
  split; [| repeat split].
  destruct (same_object (VArr [VNum Sample.decimal_a])
              (VArr [VNum Sample.decimal_b])) eqn:E.
  - unfold Equality.equal, Equality.equality, Equality.deepEqual,
      DeepEqual.deepEqual.
    cbn [Util.isEmpty orb DeepEqual.depth list_max List.map fold_right
         Nat.max Nat.add DeepEqual.deepEqual_rec].
    unfold DeepEqual.deepEqual_body at 1.
    cbn -[DeepEqual.deepEqual_body]. now rewrite E.
  - now rewrite (equal_numbers _ _ E).
Qed.

(** Equivalence of two strings compares what [normalizeStr] makes of
    them. *)
Lemma deepEqual_strings_fuzzy (s1 s2 : string) :
  deepEqual (VStr s1) (VStr s2) true =
  VBool (String.eqb (DeepEqual.normalizeStr s1) (DeepEqual.normalizeStr s2)).
Proof.
  unfold DeepEqual.deepEqual. cbn [DeepEqual.depth Nat.add DeepEqual.deepEqual_rec].
  unfold DeepEqual.deepEqual_body. cbn -[DeepEqual.normalizeStr].
  destruct (String.eqb s1 s2) eqn:E; [| reflexivity].
  apply String.eqb_eq in E. subst s2. now rewrite String.eqb_refl.
Qed.

(** C3: the strings ['a b  c'] and ['a b c'] are identical once put in
    upper case with every run of whitespace collapsed, yet they are not
    equivalent: [normalizeStr] collapses the first run only and leaves
    the two spaces before [c]. *)
Theorem equivalence_second_run_of_spaces :
  deepEqual (VStr "a b  c") (VStr "a b c") true = VBool false /\
  spec_normalizeStr "a b  c" = spec_normalizeStr "a b c".
Proof. rewrite deepEqual_strings_fuzzy. split; reflexivity. Qed.

End EqualityFacts.

(** ** toQuantity *)

(** A Number above 1 is truthy. *)
Lemma gt_1_truthy (s : float) :
  PrimFloat.ltb 1 s = true -> truthy (VNum s) = true.
Proof.
  intros H. rewrite ltb_spec in H. cbn [truthy].
  unfold PrimFloat.is_zero, PrimFloat.is_nan.
  rewrite !FloatAxioms.eqb_spec.
  change (Prim2SF 1) with (S754_finite false 4503599627370496 (-52)) in H.
  change (Prim2SF 0) with (S754_zero false).
  destruct (Prim2SF s) as [sg | sg | | sg m e] eqn:E; try discriminate.
  - destruct sg; reflexivity.
  - assert (R : SFeqb (S754_finite sg m e) (S754_finite sg m e) = true)
      by (apply FloatFacts.SFeqb_refl; discriminate).
    rewrite R. destruct sg; reflexivity.
Qed.

Section ToQuantityFacts.

Variable convert : value -> string -> option fp_type.
Variable _calendarDuration2Seconds : string -> option float.
Variable mapTimeUnitsToUCUMCode : string -> option string.
Variable convUnitTo : string -> float -> string -> option fp_type.
Variable Number_of_string : string -> float.

Local Abbreviation toQuantity :=
  (Misc.toQuantity convert _calendarDuration2Seconds mapTimeUnitsToUCUMCode
     convUnitTo Number_of_string).

(** C4: on a context without a [unit] property, [toQuantity] returns
    [null] for every item as soon as the requested unit is a calendar
    duration above a second, whatever the unit of the item is, also when
    the item is itself a calendar duration: the guard reads the source
    unit from [this], not from the item. *)
Theorem toQuantity_calendar_target (item : value) (toUnit : string) (s : float) :
  _calendarDuration2Seconds "undefined" = None ->
  toUnit <> "" ->
  _calendarDuration2Seconds toUnit = Some s ->
  PrimFloat.ltb 1 s = true ->
  toQuantity None [item] (Some toUnit) = Ok VNull.
Proof.
  intros Hthis Hne0 Hto Hgt.
  assert (Hne : Misc.nonempty toUnit = true)
    by (destruct toUnit; [congruence | reflexivity]).
  unfold toQuantity, Misc.toQuantity.
  cbn [Misc.checkSingleton length Nat.ltb Nat.leb Nat.eqb bind].
  unfold JS.table_get. rewrite Hthis, Hto, Hne.
  cbn [JS.mem_string JS.Object_prototype_names existsb].
  cbn [Misc.seconds_truthy Misc.seconds_gt_1].
  rewrite Hgt, (gt_1_truthy s Hgt). reflexivity.
Qed.

End ToQuantityFacts.

(** ** repeat *)
Section RepeatFacts.
Import Filtering.

Variable deepEqual : value -> value -> value.
Variable hashObject : value -> string.
Variable isPrimitiveValue : value -> bool.
Variable expr : value -> list value.

Variable cls : value -> nat.
Variable N : nat.

Local Abbreviation output := (output expr).
Local Abbreviation generations := (generations expr).
Local Abbreviation classes := (classes cls).
Local Abbreviation hashes := (hashes hashObject).
Local Abbreviation potential := (potential cls).
Local Abbreviation Inv := (Inv hashObject expr).

Hypothesis cls_bound : forall v, output v -> (cls v < N)%nat.
Hypothesis cls_deepEqual :
  forall v w, output v -> output w -> cls v = cls w ->
              truthy (deepEqual v w) = true.
Hypothesis cls_hashObject :
  forall v w, output v -> output w -> cls v = cls w ->
              hashObject v = hashObject w.

Lemma elem_of_classes c l : c ∈ classes l <-> exists v, v ∈ l /\ cls v = c.
Proof.
  unfold classes. rewrite elem_of_list_to_set, list_elem_of_fmap.
  split; intros (v & H1 & H2); eauto.
Qed.

Lemma elem_of_hashes k l : k ∈ hashes l <-> exists v, v ∈ l /\ hashObject v = k.
Proof.
  unfold hashes. rewrite elem_of_list_to_set, list_elem_of_fmap.
  split; intros (v & H1 & H2); eauto.
Qed.

Lemma classes_app l1 l2 : classes (l1 ++ l2) = classes l1 ∪ classes l2.
Proof. unfold classes. now rewrite fmap_app, list_to_set_app_L. Qed.

Lemma hashes_app l1 l2 : hashes (l1 ++ l2) = hashes l1 ∪ hashes l2.
Proof. unfold hashes. now rewrite fmap_app, list_to_set_app_L. Qed.

Lemma classes_bounded l : Forall output l -> (size (classes l) <= N)%nat.
Proof.
  intros Hl.
  rewrite <- (size_set_seq (C := gset nat) 0 N).
  apply subseteq_size. intros c Hc.
  apply elem_of_classes in Hc as (v & Hv & <-).
  apply elem_of_set_seq. split; [lia |].
  rewrite Forall_forall in Hl. cbn. apply cls_bound. auto.
Qed.

Lemma hashes_le_classes l :
  Forall output l -> (size (hashes l) <= size (classes l))%nat.
Proof.
  induction l as [| a l IH]; intros Hl; [reflexivity |].
  apply Forall_cons in Hl as [Ha Hl]. specialize (IH Hl).
  change (hashes (a :: l)) with ({[hashObject a]} ∪ hashes l).
  change (classes (a :: l)) with ({[cls a]} ∪ classes l).
  destruct (decide (hashObject a ∈ hashes l)) as [Hin | Hout].
  - replace ({[hashObject a]} ∪ hashes l) with (hashes l) by set_solver.
    etransitivity; [exact IH |]. apply subseteq_size. set_solver.
  - assert (Hc : cls a ∉ classes l).
    { intros Hc. apply elem_of_classes in Hc as (w & Hw & E).
      apply Hout, elem_of_hashes. exists w. split; [exact Hw |].
      rewrite Forall_forall in Hl. apply cls_hashObject; auto. }
    rewrite !size_union, !size_singleton by set_solver. lia.
Qed.

Lemma potential_bounded st : Inv st -> (potential st <= 2 * N)%nat.
Proof.
  intros [Hres Huniq]. unfold potential.
  pose proof (classes_bounded _ Hres).
  pose proof (hashes_le_classes _ Hres).
  pose proof (subseteq_size _ _ Huniq). lia.
Qed.

Lemma flagged_false table key : flagged table key = false -> key ∉ table.
Proof.
  unfold flagged. intros H. apply orb_false_elim in H as [H _].
  now apply bool_decide_eq_false in H.
Qed.

(** The items kept by the hash filter: a subsequence of the input, each
    with a name new to the table. *)
Lemma new_by_hash_spec items :
  forall table kept table',
    new_by_hash hashObject items table = (kept, table') ->
    kept `sublist_of` items /\
    table' = table ∪ hashes kept /\
    size table' = (size table + length kept)%nat.
Proof.
  induction items as [| item rest IH]; intros table kept table' H; cbn in H.
  - injection H as <- <-. split; [constructor |].
    split; [set_solver | cbn; lia].
  - destruct (flagged table (hashObject item)) eqn:F.
    + destruct (IH _ _ _ H) as (S1 & S2 & S3).
      split; [now apply sublist_cons | auto].
    + destruct (new_by_hash hashObject rest ({[hashObject item]} ∪ table))
        as [kept0 table0] eqn:E.
      injection H as <- <-.
      destruct (IH _ _ _ E) as (S1 & S2 & S3).
      apply flagged_false in F.
      split; [now apply sublist_skip |].
      split.
      * rewrite S2. change (hashes (item :: kept0))
          with ({[hashObject item]} ∪ hashes kept0). set_solver.
      * rewrite S3, size_union, size_singleton by set_solver. cbn. lia.
Qed.

(** The items kept by the deep-equality filter: a subsequence of the
    input, appended to the result, each of a class new to it. *)
Lemma new_by_deepEqual_spec items :
  forall res0 kept res',
    Forall output items -> Forall output res0 ->
    new_by_deepEqual deepEqual items res0 = (kept, res') ->
    kept `sublist_of` items /\
    res' = res0 ++ kept /\
    (size (classes res0) + length kept <= size (classes res'))%nat.
Proof.
  induction items as [| item rest IH]; intros res0 kept res' Hi Hr H; cbn in H.
  - injection H as <- <-. rewrite app_nil_r. split; [constructor |].
    split; [reflexivity | cbn; lia].
  - apply Forall_cons in Hi as [Hitem Hrest].
    destruct (existsb _ res0) eqn:F.
    + destruct (IH _ _ _ Hrest Hr H) as (S1 & S2 & S3).
      split; [now apply sublist_cons | auto].
    + destruct (new_by_deepEqual deepEqual rest (res0 ++ [item]))
        as [kept0 res1] eqn:E.
      injection H as <- <-.
      assert (Hr' : Forall output (res0 ++ [item]))
        by (apply Forall_app; auto).
      destruct (IH _ _ _ Hrest Hr' E) as (S1 & S2 & S3).
      split; [now apply sublist_skip |].
      split; [now rewrite S2, <- app_assoc |].
      assert (Hc : cls item ∉ classes res0).
      { intros Hc. apply elem_of_classes in Hc as (w & Hw & Ew).
        assert (T : truthy (deepEqual w item) = true).
        { rewrite Forall_forall in Hr. apply cls_deepEqual; auto. }
        assert (X : existsb (fun i => truthy (deepEqual i item)) res0 = true).
        { apply existsb_exists. exists w. split; [| exact T].
          now apply list_elem_of_In. }
        congruence. }
      rewrite classes_app in S3.
      change (classes [item]) with ({[cls item]} ∪ (∅ : gset nat)) in S3.
      rewrite size_union, size_union, size_singleton, size_empty in S3
        by set_solver.
      cbn. lia.
Qed.


Lemma Forall_sublist (P : value -> Prop) (kept items : list value) :
  kept `sublist_of` items -> Forall P items -> Forall P kept.
Proof.
  intros Hs Hi. apply Forall_forall. intros x Hx.
  rewrite Forall_forall in Hi. apply Hi. eapply elem_of_sublist; eauto.
Qed.

Lemma getNewItems_spec items st fresh st' :
  Inv st -> Forall output items ->
  getNewItems deepEqual hashObject isPrimitiveValue items st = (fresh, st') ->
  Inv st' /\ res st' = res st ++ fresh /\ fresh `sublist_of` items /\
  (potential st + length fresh <= potential st')%nat.
Proof.
  intros [Hres Huniq] Hitems. unfold getNewItems.
  destruct (negb _ && _).
  - destruct (new_by_hash hashObject items (unique st)) as [kept table'] eqn:E.
    intros [= <- <-].
    destruct (new_by_hash_spec _ _ _ _ E) as (S1 & S2 & S3).
    assert (Hkept : Forall output kept) by (eapply Forall_sublist; eauto).
    unfold Inv, potential. cbn [res unique].
    rewrite hashes_app, classes_app, S3, S2.
    repeat split; try done.
    + now apply Forall_app.
    + set_solver.
    + pose proof (subseteq_size (classes (res st))
                    (classes (res st) ∪ classes kept) ltac:(set_solver)).
      lia.
  - destruct (new_by_deepEqual deepEqual items (res st)) as [kept res'] eqn:E.
    intros [= <- <-].
    destruct (new_by_deepEqual_spec _ _ _ _ Hitems Hres E) as (S1 & S2 & S3).
    assert (Hkept : Forall output kept) by (eapply Forall_sublist; eauto).
    unfold Inv, potential. cbn [res unique]. subst res'.
    repeat split; try done.
    + now apply Forall_app.
    + rewrite hashes_app. set_solver.
    + lia.
Qed.

Lemma outputs_flat_map l : Forall output (List.flat_map expr l).
Proof.
  apply Forall_forall. intros v Hv.
  apply list_elem_of_In, in_flat_map in Hv as (x & _ & Hx).
  exists x. now apply list_elem_of_In.
Qed.

Lemma repeatMacro_run n :
  forall st l,
    Inv st -> (2 * N + 1 <= n + potential st)%nat ->
    exists gens,
      generations l gens /\
      forall m,
        repeatMacro deepEqual hashObject isPrimitiveValue (S n + m) (VArr l)
          expr st = Some (res st ++ concat gens).
Proof.
  induction n as [| n IH]; intros st l HI Hfuel.
  { pose proof (potential_bounded st HI). lia. }
  destruct (List.flat_map expr l) as [| v0 vs] eqn:Eflat.
  { exists []. split; [now constructor |].
    intros m. cbn. rewrite Eflat. cbn. now rewrite app_nil_r. }
  destruct (getNewItems deepEqual hashObject isPrimitiveValue
              (List.flat_map expr l) st) as [fresh st'] eqn:Enew.
  destruct (getNewItems_spec _ _ _ _ HI (outputs_flat_map l) Enew)
    as (HI' & Hres & Hsub & Hpot).
  assert (Hne : List.flat_map expr l <> []) by (rewrite Eflat; discriminate).
  assert (Hstep : forall k,
             repeatMacro deepEqual hashObject isPrimitiveValue (S k) (VArr l)
               expr st =
             repeatMacro deepEqual hashObject isPrimitiveValue k (VArr fresh)
               expr st').
  { intros k. cbn [repeatMacro is_false truthy negb andb].
    rewrite Enew, Eflat. reflexivity. }
  destruct fresh as [| f fs].
  - exists [[]]. split.
    + constructor; [exact Hne | exact Hsub | now constructor].
    + intros m. change (S (S n) + m)%nat with (S (S (n + m))).
      rewrite Hstep. cbn. now rewrite Hres.
  - destruct (IH st' (f :: fs) HI') as (gens & Hgens & Hrun).
    { cbn [length] in Hpot. lia. }
    exists ((f :: fs) :: gens). split.
    + now constructor.
    + intros m. change (S (S n) + m)%nat with (S (S n + m)).
      rewrite Hstep, Hrun, Hres. cbn [concat]. now rewrite <- app_assoc.
Qed.

(** Termination: when the values the projection returns fall into [N]
    classes, and two values of one class are duplicates for both
    strategies ([deepEqual] is truthy on them and they have one hash),
    [repeatMacro] returns on every input collection: [2 * N + 2] nested
    calls are enough.  The result is the concatenation of the generations
    of items added, in the order of their discovery, each generation a
    subsequence of the projection of the one before, up to the generation
    whose projection is empty.  (A class can be added twice, once by each
    strategy.) *)
Lemma repeatMacro_terminates (l : list value) :
  exists gens,
    generations l gens /\
    forall fuel,
      (2 * N + 2 <= fuel)%nat ->
      repeatMacro deepEqual hashObject isPrimitiveValue fuel (VArr l) expr
        initial_state = Some (concat gens).
Proof.
  destruct (repeatMacro_run (2 * N + 1) initial_state l) as (gens & Hg & Hrun).
  - split; [constructor | set_solver].
  - lia.
  - exists gens. split; [exact Hg |]. intros fuel Hfuel.
    replace fuel with (S (2 * N + 1) + (fuel - (2 * N + 2)))%nat by lia.
    apply Hrun.
Qed.

End RepeatFacts.

(** C6: an iteration of [repeatMacro] can add an item that is already in
    the running result.  On the tree whose branch has seven parts, the
    first iteration finds the branch and the part [b] (two items: the
    [deepEqual] strategy, which fills [res] and leaves the table
    [unique] empty); the second finds the seven parts of the branch
    (nine items with the result: the hash strategy, which looks in
    [unique] only) and adds all seven, the copy of [b] included.  The
    result holds [b] twice.  With four parts in the branch the second
    iteration takes the [deepEqual] strategy as well, and the copy of
    [b] is left out. *)
Theorem repeatMacro_repeats_item (n : nat) :
  Filtering.repeatMacro Sample.deepEqual Sample.hashObject
    Sample.isPrimitiveValue (3 + n) (VArr [Sample.tree Sample.seven_parts])
    Sample.part Filtering.initial_state =
  Some (Sample.part_node (Sample.branch Sample.seven_parts)
        :: Sample.part_node (Sample.named "b")
        :: (Sample.part_node <$> Sample.seven_parts)) /\
  last Sample.seven_parts = Some (Sample.named "b") /\
  Filtering.repeatMacro Sample.deepEqual Sample.hashObject
    Sample.isPrimitiveValue (3 + n) (VArr [Sample.tree Sample.four_parts])
    Sample.part Filtering.initial_state =
  Some (Sample.part_node (Sample.branch Sample.four_parts)
        :: Sample.part_node (Sample.named "b")
        :: (Sample.part_node <$> [Sample.named "1"; Sample.named "2";
                                  Sample.named "3"])).
Proof. repeat split; vm_compute; reflexivity. Qed.

(** ** distinct *)
Section DistinctFacts.
Import Filtering.

Variable deepEqual : value -> value -> value.
Variable hashObject : value -> string.
Variable isPrimitiveValue : value -> bool.

Local Abbreviation differs := (differs deepEqual).
Local Abbreviation separated := (separated deepEqual).
Local Abbreviation unflagged := (unflagged hashObject).
Local Abbreviation uses_hash := (uses_hash isPrimitiveValue).
Local Abbreviation by_deepEqual := (distinct_by_deepEqual deepEqual).
Local Abbreviation by_hash := (distinct_by_hash hashObject).
Local Abbreviation distinctFn :=
  (distinctFn deepEqual hashObject isPrimitiveValue).

Lemma by_deepEqual_acc fuel : forall xCopy unique,
  by_deepEqual fuel xCopy unique = unique ++ by_deepEqual fuel xCopy [].
Proof.
  induction fuel as [| n IH]; intros xCopy unique; cbn.
  - now rewrite app_nil_r.
  - destruct xCopy as [| xObj rest]; [now rewrite app_nil_r |].
    rewrite IH, (IH _ ([] ++ [xObj])). cbn. now rewrite <- app_assoc.
Qed.

Lemma filter_length_le (p : value -> bool) (l : list value) :
  (length (List.filter p l) <= length l)%nat.
Proof. induction l as [| a l IH]; cbn; [lia |]. destruct (p a); cbn; lia. Qed.

Lemma by_deepEqual_sublist fuel : forall xCopy,
  by_deepEqual fuel xCopy [] `sublist_of` xCopy.
Proof.
  induction fuel as [| n IH]; intros xCopy; cbn; [apply sublist_nil_l |].
  destruct xCopy as [| xObj rest]; [constructor |].
  rewrite by_deepEqual_acc. cbn. apply sublist_skip.
  etransitivity; [apply IH |].
  clear. induction rest as [| a l IH]; cbn; [constructor |].
  destruct (negb _); [now apply sublist_skip | now apply sublist_cons].
Qed.

Lemma by_deepEqual_separated fuel : forall xCopy,
  (length xCopy <= fuel)%nat -> separated (by_deepEqual fuel xCopy []).
Proof.
  induction fuel as [| n IH]; intros xCopy Hlen.
  - destruct xCopy; [constructor | cbn in Hlen; lia].
  - destruct xCopy as [| xObj rest]; cbn; [constructor |].
    rewrite by_deepEqual_acc. cbn. constructor.
    + apply Forall_forall. intros o Ho.
      eapply elem_of_sublist in Ho; [| apply by_deepEqual_sublist].
      apply list_elem_of_In, filter_In in Ho. apply Ho.
    + apply IH. cbn in Hlen.
      pose proof (filter_length_le
                    (fun o => negb (truthy (deepEqual xObj o))) rest). lia.
Qed.

Lemma filter_all (p : value -> bool) (l : list value) :
  Forall (fun o => p o = true) l -> List.filter p l = l.
Proof.
  induction 1 as [| a l Ha _ IH]; cbn; [reflexivity |]. now rewrite Ha, IH.
Qed.

Lemma by_deepEqual_separated_id l :
  separated l -> forall fuel, (length l <= fuel)%nat -> by_deepEqual fuel l [] = l.
Proof.
  induction 1 as [| a l Ha Hl IH]; intros fuel Hlen.
  - now destruct fuel.
  - destruct fuel as [| n]; [cbn in Hlen; lia |]. cbn.
    rewrite by_deepEqual_acc. cbn. f_equal.
    fold (differs a). rewrite (filter_all _ _ Ha).
    apply IH. cbn in Hlen. lia.
Qed.

Lemma by_hash_kept x : forall table unique,
  exists kept,
    by_hash x table unique = unique ++ kept /\ unflagged table kept /\
    (length kept <= length x)%nat.
Proof.
  induction x as [| xObj rest IH]; intros table unique; cbn.
  - exists []. now rewrite app_nil_r.
  - destruct (flagged table (hashObject xObj)) eqn:F.
    + destruct (IH table unique) as (kept & E & U & L). exists kept.
      repeat split; auto.
    + destruct (IH ({[hashObject xObj]} ∪ table) (unique ++ [xObj]))
        as (kept & E & U & L).
      exists (xObj :: kept). rewrite E, <- app_assoc.
      repeat split; auto. cbn. lia.
Qed.

Lemma by_hash_unflagged_id l : forall table unique,
  unflagged table l -> by_hash l table unique = unique ++ l.
Proof.
  induction l as [| a r IH]; intros table unique U; cbn.
  - now rewrite app_nil_r.
  - destruct U as [F U]. rewrite F, (IH _ _ U), <- app_assoc. reflexivity.
Qed.

Lemma distinctFn_unfold x :
  distinctFn x None =
  if uses_hash x then by_hash x ∅ [] else by_deepEqual (length x) x [].
Proof.
  destruct x as [| a r]; [reflexivity |]. reflexivity.
Qed.

(** A second pass that takes the strategy of the first one changes
    nothing. *)
Lemma distinctFn_idempotent_same_strategy (x : list value) :
  uses_hash (distinctFn x None) = uses_hash x ->
  distinctFn (distinctFn x None) None = distinctFn x None.
Proof.
  intros H. rewrite (distinctFn_unfold (distinctFn x None)), H.
  rewrite distinctFn_unfold. destruct (uses_hash x).
  - destruct (by_hash_kept x ∅ []) as (kept & E & U & _).
    rewrite E. cbn. now apply by_hash_unflagged_id.
  - apply by_deepEqual_separated_id; [| lia].
    now apply by_deepEqual_separated.
Qed.

End DistinctFacts.

(** ** distinct across the two strategies *)
Section DistinctSwitch.
Variable same_object : value -> value -> bool.
Variable convert : value -> string -> option fp_type.
Variable fp_equals : fp_type -> fp_type -> value.
Variable fp_equivalentTo : fp_type -> fp_type -> value.
Variable isNumber : value -> bool.
Variable isEquivalent : value -> value -> value.
Variable fp_toString : fp_type -> string.
Variable _yearMonthConversionFactor : string -> option float.
Variable toUcumQuantity : float -> string -> float * string.
Variable getSpecifiedUnit : string -> string * float.
Variable numToString : float -> string.
Variable toISOString : float -> string.
Variable isPrimitiveValue : value -> bool.

Local Abbreviation deepEqual :=
  (fun a b => DeepEqual.deepEqual same_object convert fp_equals fp_equivalentTo
     isNumber isEquivalent a b false).
Local Abbreviation hashObject :=
  (HashObject.hashObject convert fp_toString _yearMonthConversionFactor
     toUcumQuantity getSpecifiedUnit numToString toISOString).
Local Abbreviation distinctFn :=
  (Filtering.distinctFn deepEqual hashObject isPrimitiveValue).

(** Only equal values are one object; the nodes of the sample path
    convert to no [FP_Type] instance and are not primitive. *)
Hypothesis same_object_sound : forall a b, same_object a b = true -> a = b.
Hypothesis contact_not_converted :
  forall data, convert data "Patient.contact" = None.
Hypothesis contact_array_not_primitive :
  isPrimitiveValue Sample.contact_array = false.
Hypothesis contact_object_not_primitive :
  isPrimitiveValue Sample.contact_object = false.

Lemma different_objects a b : a <> b -> same_object a b = false.
Proof.
  intros H. destruct (same_object a b) eqn:E; [| reflexivity].
  now apply same_object_sound in E.
Qed.

Lemma hash_contact_array :
  hashObject Sample.contact_array = "{" +:+ HashObject.quote "a" +:+ ":[]}".
Proof.
  unfold HashObject.hashObject, Sample.contact_array.
  cbn [HashObject.prepareObject]. rewrite contact_not_converted.
  vm_compute. reflexivity.
Qed.

Lemma hash_contact_object :
  hashObject Sample.contact_object = "{" +:+ HashObject.quote "a" +:+ ":{}}".
Proof.
  unfold HashObject.hashObject, Sample.contact_object.
  cbn [HashObject.prepareObject]. rewrite contact_not_converted.
  vm_compute. reflexivity.
Qed.

Local Abbreviation deepEqual_body :=
  (DeepEqual.deepEqual_body same_object convert fp_equals fp_equivalentTo
     isNumber isEquivalent).
Local Abbreviation deepEqual_rec :=
  (DeepEqual.deepEqual_rec same_object convert fp_equals fp_equivalentTo
     isNumber isEquivalent).

(** An empty array and an object without members have the same keys. *)
Lemma body_empty_array_object rec :
  deepEqual_body rec (VArr []) (VObj []) false = Some (VBool true).
Proof.
  unfold DeepEqual.deepEqual_body. cbn.
  rewrite different_objects by discriminate. reflexivity.
Qed.

Lemma body_contacts rec :
  rec (VArr []) (VObj []) false = Some (VBool true) ->
  deepEqual_body rec Sample.contact_array Sample.contact_object false =
  Some (VBool true).
Proof.
  intros Hrec.
  unfold DeepEqual.deepEqual_body, Sample.contact_array, Sample.contact_object.
  cbn [DeepEqual.isResourceNode DeepEqual.convertData Util.convertData].
  rewrite !contact_not_converted. cbn.
  rewrite different_objects by discriminate. exact Hrec.
Qed.

Lemma deepEqual_contacts :
  deepEqual Sample.contact_array Sample.contact_object = VBool true.
Proof.
  unfold DeepEqual.deepEqual.
  change (DeepEqual.depth Sample.contact_array) with 3%nat.
  change (DeepEqual.depth Sample.contact_object) with 3%nat.
  change (deepEqual_rec (S (3 + 3)))
    with (deepEqual_body (deepEqual_body (deepEqual_rec 5))).
  now rewrite body_contacts by apply body_empty_array_object.
Qed.

(** C5: on seven nodes of a complex type, which are the node [{a: []}],
    the node [{a: {}}] and five more of the first, [distinctFn] takes the
    hash strategy and keeps the first two; on these two it takes the
    deepEqual strategy, for which they are equal, and keeps only the
    first.  The second pass changes the result of the first. *)
Theorem distinctFn_strategy_switch :
  distinctFn Sample.seven_contacts None = [Sample.contact_array; Sample.contact_object] /\
  distinctFn (distinctFn Sample.seven_contacts None) None = [Sample.contact_array].
Proof.
  assert (E : distinctFn Sample.seven_contacts None =
              [Sample.contact_array; Sample.contact_object]).
  { unfold Filtering.distinctFn, Sample.seven_contacts.
    cbn [existsb].
    rewrite !contact_array_not_primitive, !contact_object_not_primitive. cbn [orb negb andb length Nat.ltb Nat.leb Filtering.maxCollSizeForDeepEqual].
    cbn [Filtering.distinct_by_hash].
    rewrite hash_contact_array, hash_contact_object.
    vm_compute. reflexivity. }
  split; [exact E |]. rewrite E.
  unfold Filtering.distinctFn. cbn [existsb].
  rewrite contact_array_not_primitive, contact_object_not_primitive.
  cbn [orb negb andb length Nat.ltb Nat.leb Filtering.maxCollSizeForDeepEqual
       Filtering.distinct_by_deepEqual List.filter].
  rewrite deepEqual_contacts. reflexivity.
Qed.
End DistinctSwitch.

(** * Further properties of the evaluator functions *)

(** ** Subsetting: first, last, tail, take, skip *)

Lemma relative_index_0 (len : nat) : JS.relative_index len 0 = 0%nat.
Proof. unfold JS.relative_index. cbn [Z.ltb Z.compare]. lia. Qed.

Lemma relative_index_length (len : nat) :
  JS.relative_index len (Z.of_nat len) = len.
Proof. unfold JS.relative_index. destruct (_ <? 0)%Z eqn:E; lia. Qed.

Lemma slice_prefix {A} (l : list A) (n : Z) :
  JS.slice l 0 n = take (JS.relative_index (length l) n) l.
Proof.
  unfold JS.slice. now rewrite relative_index_0, Nat.sub_0_r, drop_0.
Qed.

Lemma slice_suffix {A} (l : list A) (n : Z) :
  JS.slice l n (Z.of_nat (length l)) = drop (JS.relative_index (length l) n) l.
Proof.
  unfold JS.slice. rewrite relative_index_length.
  apply take_ge. rewrite length_drop. lia.
Qed.

(** X1: for every integer [n], also a negative one or one beyond the
    length, [take(n)] and [skip(n)] split the collection: the items that
    [takeFn] returns followed by the items that [skipFn] returns are the
    collection itself. *)
Theorem take_skip_partition (x : list value) (n : Z) :
  Filtering.takeFn x n ++ Filtering.skipFn x n = x.
Proof.
  unfold Filtering.takeFn, Filtering.skipFn.
  rewrite slice_prefix, slice_suffix. apply take_drop.
Qed.

(** X2: on a collection that is not empty, [firstFn] followed by
    [tailFn] is the collection, and so is [takeFn] with the count [-1]
    followed by [lastFn]: a negative count is an index from the end, so
    that [take(-1)] drops the last item and [skip(-1)] keeps only it. *)
Theorem first_tail_last (x : list value) :
  x <> [] ->
  Filtering.firstFn x :: Filtering.tailFn x = x /\
  Filtering.takeFn x (-1) ++ [Filtering.lastFn x] = x /\
  Filtering.skipFn x (-1) = [Filtering.lastFn x].
Proof.
  intros Hx.
  unfold Filtering.firstFn, Filtering.lastFn, Filtering.tailFn,
    Filtering.takeFn, Filtering.skipFn.
  rewrite !slice_suffix, slice_prefix. split.
  - destruct x as [| a r]; [congruence |]. cbn [hd length].
    assert (E : JS.relative_index (S (length r)) 1 = 1%nat)
      by (unfold JS.relative_index; cbn [Z.ltb Z.compare]; lia).
    rewrite E. reflexivity.
  - destruct (exists_last Hx) as (front & a & ->).
    rewrite last_last, length_app. cbn [length].
    assert (E : JS.relative_index (length front + 1) (-1) = length front)
      by (unfold JS.relative_index; cbn [Z.ltb Z.compare]; lia).
    rewrite E, take_app_length, drop_app_length. auto.
Qed.

(** ** where, exists, all *)

Lemma whereMacro_cons (a : value) (l : list value) expr :
  isArray a = false ->
  Filtering.whereMacro (VArr (a :: l)) expr =
  (if kept expr 0 a then [a] else []) ++
  Filtering.whereMacro (VArr l) (fun i => expr (S i)).
Proof.
  intros Ha. unfold Filtering.whereMacro.
  cbn [Filtering.no_data is_false truthy negb andb Filtering.dataArray].
  rewrite imap_cons. unfold Filtering.flattenSync. cbn [flat_map].
  f_equal. unfold kept. destruct (truthy _); [| reflexivity].
  destruct a; try reflexivity. discriminate.
Qed.

Lemma whereMacro_spec (l : list value) :
  forall expr,
  Forall (fun x => isArray x = false) l ->
  Filtering.whereMacro (VArr l) expr `sublist_of` l /\
  forall x, x ∈ Filtering.whereMacro (VArr l) expr <->
            exists i, l !! i = Some x /\ kept expr i x = true.
Proof.
  induction l as [| a l IH]; intros expr Hl.
  - split; [constructor |]. intros x. split.
    + intros H. cbn in H. now apply elem_of_nil in H.
    + intros (i & H & _). discriminate.
  - apply Forall_cons in Hl as [Ha Hl].
    destruct (IH (fun i => expr (S i)) Hl) as [Hs Hm].
    rewrite (whereMacro_cons a l expr Ha). split.
    + destruct (kept expr 0 a); cbn;
        [now apply sublist_skip | now apply sublist_cons].
    + intros x. rewrite elem_of_app, Hm. split.
      * intros [H | (i & H1 & H2)].
        -- destruct (kept expr 0 a) eqn:E; [| now apply elem_of_nil in H].
           apply list_elem_of_singleton in H. subst x. exists 0%nat. auto.
        -- exists (S i). auto.
      * intros ([| i] & H1 & H2).
        -- injection H1 as ->. left. rewrite H2. now left.
        -- right. exists i. auto.
Qed.

(** X3: on a collection none of whose items is an array, [whereMacro]
    returns a subsequence of the collection, in its order, made of the
    items for which the first item of what the criterion returns is
    truthy (the criterion need not be the singleton [true]). *)
Theorem whereMacro_items (l : list value)
    (expr : nat -> value -> list value) :
  Forall (fun x => isArray x = false) l ->
  Filtering.whereMacro (VArr l) expr `sublist_of` l /\
  forall x, x ∈ Filtering.whereMacro (VArr l) expr <->
            exists i, l !! i = Some x /\ kept expr i x = true.
Proof. apply whereMacro_spec. Qed.

(** X4: [exists(criterion)] is true exactly when the criterion holds, in
    the sense of [where], of some item of the collection; without a
    criterion it tells whether the collection has an item. *)
Theorem existsMacro_criterion (coll : list value)
    (expr : nat -> value -> list value) :
  Forall (fun x => isArray x = false) coll ->
  (Existence.existsMacro coll (Some expr) = true <->
   exists i x, coll !! i = Some x /\ kept expr i x = true) /\
  (Existence.existsMacro coll None = true <-> coll <> []).
Proof.
  intros Hc. destruct (whereMacro_spec coll expr Hc) as [_ Hm].
  unfold Existence.existsMacro. split.
  - destruct (Filtering.whereMacro (VArr coll) expr) as [| y r] eqn:E.
    + cbn. split; [discriminate |]. intros (i & x & H).
      assert (Hx : x ∈ @nil value) by (apply Hm; eauto).
      now apply elem_of_nil in Hx.
    + cbn. split; [| reflexivity]. intros _.
      destruct (proj1 (Hm y) ltac:(left)) as (i & H). eauto.
  - destruct coll; cbn; split; congruence.
Qed.

Lemma allMacro_from_all (coll : list value) : forall i expr,
  (forall j x, coll !! j = Some x -> criterion_true expr (i + j) x = true) ->
  Existence.allMacro_from i coll expr =
  ([VBool true], imap (fun j x => ((i + j)%nat, x)) coll).
Proof.
  induction coll as [| a l IH]; intros i expr H; [reflexivity |].
  cbn [Existence.allMacro_from].
  pose proof (H 0%nat a eq_refl) as H0. rewrite Nat.add_0_r in H0.
  unfold criterion_true in H0. rewrite H0.
  rewrite (IH (S i) expr).
  - rewrite imap_cons, Nat.add_0_r. f_equal. f_equal.
    apply imap_ext. intros j x _. cbn. f_equal. lia.
  - intros j x Hj. replace (S i + j)%nat with (i + S j)%nat by lia.
    now apply H.
Qed.

Lemma allMacro_from_stop (coll : list value) : forall i expr k a,
  coll !! k = Some a ->
  criterion_true expr (i + k) a = false ->
  (forall j x, (j < k)%nat -> coll !! j = Some x ->
               criterion_true expr (i + j) x = true) ->
  Existence.allMacro_from i coll expr =
  ([VBool false], imap (fun j x => ((i + j)%nat, x)) (take (S k) coll)).
Proof.
  induction coll as [| b l IH]; intros i expr k a Hk Hf Ht; [discriminate |].
  cbn [Existence.allMacro_from]. destruct k as [| k].
  - injection Hk as ->. rewrite Nat.add_0_r in Hf. unfold criterion_true in Hf.
    rewrite Hf. cbn. now rewrite Nat.add_0_r.
  - pose proof (Ht 0%nat b ltac:(lia) eq_refl) as H0. rewrite Nat.add_0_r in H0.
    unfold criterion_true in H0. rewrite H0.
    rewrite (IH (S i) expr k a Hk).
    + cbn [take]. rewrite imap_cons, Nat.add_0_r. f_equal. f_equal.
      apply imap_ext. intros j x _. cbn. f_equal. lia.
    + now replace (S i + k)%nat with (i + S k)%nat by lia.
    + intros j x Hj Hx. replace (S i + j)%nat with (i + S j)%nat by lia.
      apply Ht; [lia | exact Hx].
Qed.

(** X5: [allMacro] calls the criterion on the items in order, with
    [$index] the position of the item, and stops at the first item for
    which it does not return the singleton [true]: the result is then
    [[false]] and no later item is evaluated.  When the criterion
    returns the singleton [true] for every item, also when there is no
    item, the result is [[true]]. *)
Theorem allMacro_lazy (coll : list value) (expr : nat -> value -> list value) :
  ((forall j x, coll !! j = Some x -> criterion_true expr j x = true) ->
   Existence.allMacro coll expr = ([VBool true], imap pair coll)) /\
  (forall k a,
     coll !! k = Some a -> criterion_true expr k a = false ->
     (forall j x, (j < k)%nat -> coll !! j = Some x ->
                  criterion_true expr j x = true) ->
     Existence.allMacro coll expr =
     ([VBool false], imap pair (take (S k) coll))).
Proof.
  split.
  - intros H. unfold Existence.allMacro. now rewrite allMacro_from_all.
  - intros k a Hk Hf Ht. unfold Existence.allMacro.
    now rewrite (allMacro_from_stop coll 0 expr k a).
Qed.

(** ** allTrue, anyTrue, allFalse, anyFalse, not *)

(** X6: on a collection of booleans, or of nodes whose data are
    booleans, [allTrueFn] is the conjunction of the items and
    [anyFalseFn] its negation, [anyTrueFn] is the disjunction and
    [allFalseFn] its negation; on the empty collection they return
    [true], [false], [false] and [true]. *)
Theorem boolean_quantifiers (x : list value) (bs : list bool) :
  Util.valData <$> x = VBool <$> bs ->
  Existence.allTrueFn x = Ok [VBool (forallb id bs)] /\
  Existence.anyFalseFn x = Ok [VBool (negb (forallb id bs))] /\
  Existence.anyTrueFn x = Ok [VBool (existsb id bs)] /\
  Existence.allFalseFn x = Ok [VBool (negb (existsb id bs))].
Proof.
  unfold Existence.allTrueFn, Existence.anyFalseFn, Existence.anyTrueFn,
    Existence.allFalseFn.
  revert bs. induction x as [| v x IH]; intros bs H.
  - destruct bs; [| discriminate]. repeat split.
  - destruct bs as [| b bs]; [discriminate |].
    cbn [fmap list_fmap] in H. injection H as Hv Hx.
    destruct (IH bs Hx) as (I1 & I2 & I3 & I4).
    cbn [Existence.allTrue_loop Existence.anyFalse_loop
         Existence.anyTrue_loop Existence.allFalse_loop].
    unfold Util.assertType. rewrite Hv. cbn.
    destruct b; cbn [is_true is_false forallb existsb id andb orb negb].
    + repeat split; assumption.
    + repeat split; first [assumption | reflexivity].
Qed.

(** X7: [allTrueFn] checks the type of an item only when it reaches it:
    after the first [false] no item is looked at, so that a collection
    of booleans up to a [false] gives [[false]] whatever follows, while
    a string in front raises the type error. *)
Theorem allTrueFn_stops (bs : list bool) (rest : list value) (s : string) :
  Existence.allTrueFn ((VBool <$> bs) ++ VBool false :: rest)
  = Ok [VBool false] /\
  Existence.allTrueFn (VStr s :: rest)
  = Throw "allTrue: Found type 'string' but was expecting boolean".
Proof.
  split; [| reflexivity].
  unfold Existence.allTrueFn.
  induction bs as [| b bs IH]; [reflexivity |].
  destruct b; [exact IH | reflexivity].
Qed.

(** X8: on a singleton, [notFn] negates a boolean, returns the empty
    collection when the item has no data, and returns [false] for every
    other item: the singleton evaluation of a collection as a Boolean
    takes any item that is not a boolean for [true]. *)
Theorem notFn_singleton (toJSON : value -> string) (v : value) :
  Existence.notFn toJSON [v] =
  Ok match Util.valData v with
     | VNull | VUndefined => empty
     | VBool b => VBool (negb b)
     | _ => VBool false
     end.
Proof.
  unfold Existence.notFn, Misc.singleton.
  cbn [length Nat.ltb Nat.leb Nat.eqb hd].
  destruct (Util.valData v); reflexivity.
Qed.

(** ** distinct, isDistinct, subsetOf *)

Lemma List_filter_sublist {A} (p : A -> bool) (l : list A) :
  List.filter p l `sublist_of` l.
Proof.
  induction l as [| a l IH]; cbn; [constructor |].
  destruct (p a); [now apply sublist_skip | now apply sublist_cons].
Qed.

Lemma sublist_same_length {A} (l1 l2 : list A) :
  l1 `sublist_of` l2 -> length l1 = length l2 -> l1 = l2.
Proof.
  induction 1 as [| x l1 l2 _ IH | x l1 l2 S IH]; cbn; intros H.
  - reflexivity.
  - f_equal. apply IH. lia.
  - apply sublist_length in S. lia.
Qed.

Lemma length_eqb_0 {A} (l : list A) : Nat.eqb (length l) 0 = true <-> l = [].
Proof. destruct l; cbn; split; congruence. Qed.

Section DistinctMore.
Import Filtering.

Variable deepEqual : value -> value -> value.
Variable hashObject : value -> string.
Variable isPrimitiveValue : value -> bool.

Local Abbreviation distinctFn :=
  (distinctFn deepEqual hashObject isPrimitiveValue).
Local Abbreviation isDistinctFn :=
  (Existence.isDistinctFn deepEqual hashObject isPrimitiveValue).
Local Abbreviation subsetOfFn :=
  (Existence.subsetOfFn deepEqual hashObject isPrimitiveValue).
Local Abbreviation exclude :=
  (Combining.exclude deepEqual hashObject isPrimitiveValue).
Local Abbreviation intersect :=
  (Combining.intersect deepEqual hashObject isPrimitiveValue).
Local Abbreviation hash_strategy := (pair_uses_hash isPrimitiveValue).

Lemma by_hash_sublist x : forall table unique,
  exists kept,
    distinct_by_hash hashObject x table unique = unique ++ kept /\
    kept `sublist_of` x.
Proof.
  induction x as [| xObj rest IH]; intros table unique; cbn.
  - exists []. split; [now rewrite app_nil_r | constructor].
  - destruct (flagged table (hashObject xObj)).
    + destruct (IH table unique) as (kept & E & S). exists kept.
      split; [exact E | now apply sublist_cons].
    + destruct (IH ({[hashObject xObj]} ∪ table) (unique ++ [xObj]))
        as (kept & E & S).
      exists (xObj :: kept). rewrite E, <- app_assoc.
      split; [reflexivity | now apply sublist_skip].
Qed.

Lemma distinctFn_sublist_of (x : list value) (hasPrimitive : option bool) :
  distinctFn x hasPrimitive `sublist_of` x.
Proof.
  unfold Filtering.distinctFn. destruct x as [| a r]; [constructor |].
  destruct (negb _ && _).
  - destruct (by_hash_sublist (a :: r) ∅ []) as (kept & -> & S). exact S.
  - apply by_deepEqual_sublist.
Qed.

(** X9: [distinctFn] returns a subsequence of its input under both
    strategies and whatever [hasPrimitive] is passed: it makes up no
    item and keeps the order of the items it retains. *)
Theorem distinctFn_subsequence (x : list value) (hasPrimitive : option bool) :
  distinctFn x hasPrimitive `sublist_of` x /\
  (length (distinctFn x hasPrimitive) <= length x)%nat.
Proof.
  split; [apply distinctFn_sublist_of |].
  apply sublist_length, distinctFn_sublist_of.
Qed.

(** X10: when [distinctFn] takes the deepEqual strategy, the first item
    of the collection is the first item of the result, and no item of
    the result is [deepEqual] to a later one. *)
Theorem distinctFn_deepEqual_separated (x : list value) :
  uses_hash isPrimitiveValue x = false ->
  separated deepEqual (distinctFn x None) /\
  hd_error (distinctFn x None) = hd_error x.
Proof.
  intros H. rewrite distinctFn_unfold, H. split.
  - now apply by_deepEqual_separated.
  - destruct x as [| a r]; [reflexivity |].
    cbn [length distinct_by_deepEqual]. now rewrite by_deepEqual_acc.
Qed.

(** X11: [isDistinctFn] answers [true] exactly when [distinctFn] returns
    the collection unchanged. *)
Theorem isDistinctFn_iff (x : list value) :
  isDistinctFn x = [VBool true] <-> distinctFn x None = x.
Proof.
  unfold Existence.isDistinctFn. split.
  - intros H. injection H as H. apply Nat.eqb_eq in H.
    apply sublist_same_length; [apply distinctFn_sublist_of | auto].
  - intros ->. now rewrite Nat.eqb_refl.
Qed.

(** X12: [subsetOfFn] counts the items: a collection that is not
    distinct is not a subset of what [distinctFn] makes of it, since it
    is the longer of the two. *)
Theorem duplicates_not_subset (x : list value) :
  isDistinctFn x = [VBool false] ->
  subsetOfFn x (distinctFn x None) = [VBool false].
Proof.
  unfold Existence.isDistinctFn, Existence.subsetOfFn, Existence.subsetOf.
  intros H. injection H as H. apply Nat.eqb_neq in H.
  pose proof (sublist_length _ _ (distinctFn_sublist_of x None)) as L.
  destruct (Nat.leb_spec (length x) (length (distinctFn x None)));
    [lia | reflexivity].
Qed.

(** ** exclude, intersect *)

(** X13: [exclude] returns the first collection itself when the second
    is empty, and otherwise a subsequence of the first, duplicates
    included; under the deepEqual strategy no item of the result is
    [deepEqual] to an item of the second collection. *)
Theorem exclude_filters (coll1 coll2 : list value) :
  exclude coll1 [] = coll1 /\
  exclude coll1 coll2 `sublist_of` coll1 /\
  (hash_strategy coll1 coll2 = false ->
   forall x y, x ∈ exclude coll1 coll2 -> y ∈ coll2 ->
               truthy (deepEqual x y) = false).
Proof.
  split; [reflexivity |]. unfold Combining.exclude, pair_uses_hash.
  destruct (Nat.eqb (length coll2) 0) eqn:E2.
  - apply length_eqb_0 in E2. subst coll2. split; [reflexivity |].
    intros _ x y _ Hy. now apply elem_of_nil in Hy.
  - destruct coll1 as [| a r].
    { split; [constructor |]. intros _ x y Hx. now apply elem_of_nil in Hx. }
    cbn [length Nat.eqb negb].
    destruct (negb _ && _).
    + split; [apply List_filter_sublist | discriminate].
    + split; [apply List_filter_sublist |].
      intros _ x y Hx Hy. apply list_elem_of_In, filter_In in Hx as [_ Hx].
      apply negb_true_iff in Hx.
      destruct (truthy (deepEqual x y)) eqn:T; [| reflexivity].
      assert (X : existsb (fun item2 => truthy (deepEqual x item2)) coll2
                  = true).
      { apply existsb_exists. exists y.
        split; [now apply list_elem_of_In | exact T]. }
      congruence.
Qed.

Lemma collect_marked_sublist coll1 : forall table unchecked result,
  exists kept,
    Combining.collect_marked hashObject coll1 table unchecked result =
    result ++ kept /\
    kept `sublist_of` coll1.
Proof.
  induction coll1 as [| item rest IH]; intros table unchecked result;
    cbn [Combining.collect_marked].
  - exists []. split; [now rewrite app_nil_r | constructor].
  - destruct (0 <? unchecked)%nat.
    + destruct (Combining.marked table (hashObject item)).
      * destruct (IH (Combining.set_mark table (hashObject item) false)
                    (unchecked - 1)%nat (result ++ [item])) as (kept & E & S).
        exists (item :: kept). rewrite E, <- app_assoc.
        split; [reflexivity | now apply sublist_skip].
      * destruct (IH table unchecked result) as (kept & E & S).
        exists kept. split; [exact E | now apply sublist_cons].
    + exists []. split; [now rewrite app_nil_r | apply sublist_nil_l].
Qed.

(** X14: [intersect] is empty when either collection is, and otherwise
    returns a subsequence of the first collection under both
    strategies; under the deepEqual strategy every item of the result is
    [deepEqual] to an item of the second collection. *)
Theorem intersect_selects (coll1 coll2 : list value) :
  intersect [] coll2 = [] /\
  intersect coll1 [] = [] /\
  intersect coll1 coll2 `sublist_of` coll1 /\
  (hash_strategy coll1 coll2 = false ->
   forall x, x ∈ intersect coll1 coll2 ->
             exists y, y ∈ coll2 /\ truthy (deepEqual x y) = true).
Proof.
  split; [reflexivity |]. split.
  { unfold Combining.intersect. cbn. now rewrite andb_false_r. }
  unfold Combining.intersect, pair_uses_hash.
  destruct (negb (Nat.eqb (length coll1) 0) && negb (Nat.eqb (length coll2) 0)).
  - destruct (negb _ && _).
    + split; [| discriminate].
      destruct (Combining.hash_coll2 hashObject coll2 ∅ (length coll2))
        as [table unchecked].
      destruct (collect_marked_sublist coll1 table unchecked [])
        as (kept & -> & S). exact S.
    + split.
      * etransitivity; [apply List_filter_sublist | apply distinctFn_sublist_of].
      * intros _ x Hx. apply list_elem_of_In, filter_In in Hx as [_ Hx].
        apply existsb_exists in Hx as (y & Hy & T).
        exists y. split; [now apply list_elem_of_In | exact T].
  - split; [apply sublist_nil_l |].
    intros _ x Hx. now apply elem_of_nil in Hx.
Qed.

(** X30: a second [distinctFn] changes nothing when it takes the
    strategy the first one took; this is so, in particular, for every
    collection of at most [maxCollSizeForDeepEqual] items. *)
Theorem distinctFn_idempotent (x : list value) :
  uses_hash isPrimitiveValue (distinctFn x None) =
    uses_hash isPrimitiveValue x \/
  (length x <= maxCollSizeForDeepEqual)%nat ->
  distinctFn (distinctFn x None) None = distinctFn x None.
Proof.
  intros H. apply distinctFn_idempotent_same_strategy.
  destruct H as [H | H]; [exact H |].
  pose proof (sublist_length _ _ (distinctFn_sublist_of x None)) as L.
  unfold uses_hash.
  assert (E : forall n, (n <= maxCollSizeForDeepEqual)%nat ->
                        (maxCollSizeForDeepEqual <? n)%nat = false)
    by (intros n Hn; apply Nat.ltb_ge, Hn).
  rewrite (E (length x) H), (E (length (distinctFn x None))) by lia.
  now rewrite !andb_false_r.
Qed.

End DistinctMore.

(** ** contains, in *)
Section CollectionsFacts.

Variable deepEqual : value -> value -> value.
Variable toJSON : value -> string.

Local Abbreviation contains := (Collections.contains deepEqual toJSON).
Local Abbreviation in_ := (Collections.in_ deepEqual toJSON).

Lemma containsImpl_existsb (a : list value) (x : value) (rest : list value) :
  Collections.containsImpl deepEqual a (x :: rest) =
  existsb (fun ai => truthy (deepEqual ai x)) a.
Proof.
  induction a as [| ai a IH]; [reflexivity |].
  cbn [Collections.containsImpl existsb hd].
  destruct (truthy _); [reflexivity | exact IH].
Qed.

(** X15: [contains] looks at its right operand first: it is the empty
    collection when the right operand is empty, also when the left one is
    empty too; with a right operand of one item it tells whether some
    item of the left operand is [deepEqual] to it; a right operand of
    several items gives [false] on an empty left operand and an error
    on any other. *)
Theorem contains_cases (a : list value) (x y : value) (rest : list value) :
  contains a [] = Ok empty /\
  contains a [x] = Ok (VBool (existsb (fun ai => truthy (deepEqual ai x)) a)) /\
  contains [] (x :: y :: rest) = Ok (VBool false) /\
  (a <> [] ->
   contains a (x :: y :: rest) =
   Throw ("Expected singleton on right side of contains, got " +:+
          toJSON (VArr (x :: y :: rest)))).
Proof.
  repeat split.
  - unfold Collections.contains. cbn [length Nat.eqb Nat.ltb Nat.leb].
    destruct a as [| ai a]; [reflexivity |]. cbn [length Nat.eqb].
    now rewrite containsImpl_existsb.
  - intros Ha. destruct a; [congruence | reflexivity].
Qed.

(** X16: [in] is [contains] with the operands exchanged: the two return
    the same value, and [in] raises an error exactly when [contains]
    does, with a message of its own. *)
Theorem in_converse (a b : list value) :
  in_ a b =
  match contains b a with
  | Ok r => Ok r
  | Throw _ =>
      Throw ("Expected singleton on right side of in, got " +:+ toJSON (VArr a))
  end.
Proof.
  unfold Collections.in_, Collections.contains.
  destruct (Nat.eqb (length a) 0); [reflexivity |].
  destruct (Nat.eqb (length b) 0); [reflexivity |].
  destruct (1 <? length a)%nat; reflexivity.
Qed.

End CollectionsFacts.

(** ** Conversions *)

Lemma span_digits (d : Decimal.uint) :
  Misc.span Misc.is_digit (NilEmpty.string_of_uint d) =
  (NilEmpty.string_of_uint d, "").
Proof.
  induction d as [| d IH | d IH | d IH | d IH | d IH | d IH | d IH | d IH
                  | d IH | d IH];
    cbn [NilEmpty.string_of_uint Misc.span]; [reflexivity | ..];
    (change (Misc.is_digit _) with true; cbv iota; now rewrite IH).
Qed.

Lemma intRegex_uint (d : Decimal.uint) :
  d <> Decimal.Nil ->
  Misc.intRegex (NilEmpty.string_of_uint d) = true /\
  Misc.intRegex (String "-" (NilEmpty.string_of_uint d)) = true.
Proof.
  intros Hd. unfold Misc.intRegex.
  assert (E : Misc.strip_sign (NilEmpty.string_of_uint d) =
              NilEmpty.string_of_uint d)
    by (destruct d; reflexivity).
  rewrite E. change (Misc.strip_sign (String "-" ?s)) with s.
  rewrite span_digits. destruct d; [congruence | ..]; split; reflexivity.
Qed.

Lemma fold_digits_acc (d : Decimal.uint) (acc : positive) :
  fold_left JS.digit_value
    (list_ascii_of_string (NilEmpty.string_of_uint d)) (Z.pos acc) =
  Z.pos (Pos.of_uint_acc d acc).
Proof.
  revert acc.
  induction d as [| d IH | d IH | d IH | d IH | d IH | d IH | d IH | d IH
                  | d IH | d IH];
    intros acc;
    cbn [NilEmpty.string_of_uint list_ascii_of_string fold_left
         Pos.of_uint_acc];
    [reflexivity | ..];
    (rewrite <- IH; f_equal; unfold JS.digit_value;
     match goal with |- context [nat_of_ascii ?c] =>
       let n := eval vm_compute in (Z.of_nat (nat_of_ascii c)) in
       change (Z.of_nat (nat_of_ascii c)) with n end; lia).
Qed.

Lemma digits_value_uint (d : Decimal.uint) :
  JS.digits_value (NilEmpty.string_of_uint d) = Z.of_uint d.
Proof.
  unfold JS.digits_value, Z.of_uint.
  induction d as [| d IH | d IH | d IH | d IH | d IH | d IH | d IH | d IH
                  | d IH | d IH];
    cbn [NilEmpty.string_of_uint list_ascii_of_string fold_left Pos.of_uint];
    [reflexivity | exact IH | ..];
    (cbn [Z.of_N]; rewrite <- fold_digits_acc; f_equal).
Qed.

(** The decimal rendering of a bigint denotes it. *)
Lemma BigInt_of_string_toString (z : Z) :
  JS.BigInt_of_string (JS.bigint_toString z) = z.
Proof.
  unfold JS.bigint_toString.
  rewrite <- (DecimalZ.of_to z) at 2.
  destruct (Z.to_int z) as [d | d] eqn:E; cbn [NilEmpty.string_of_int Z.of_int].
  - rewrite <- digits_value_uint.
    assert (Hd : d <> Decimal.Nil).
    { destruct z; cbn in E; try discriminate; injection E as <-;
        [discriminate | apply Unsigned.to_uint_nonnil]. }
    destruct d; [congruence | reflexivity ..].
  - rewrite <- digits_value_uint. reflexivity.
Qed.

Lemma intRegex_toString (z : Z) : Misc.intRegex (JS.bigint_toString z) = true.
Proof.
  unfold JS.bigint_toString. destruct z; cbn [Z.to_int NilEmpty.string_of_int].
  - reflexivity.
  - apply intRegex_uint, Unsigned.to_uint_nonnil.
  - apply intRegex_uint, Unsigned.to_uint_nonnil.
Qed.

Section ConversionFacts.

Variable parseInt : string -> float.
Variable parseFloat : string -> float.
Variable convert : value -> string -> option fp_type.
Variable fp_toString : fp_type -> string.
Variable numToString : float -> string.
Variable object_toString : value -> string.

Local Abbreviation toInteger := (Misc.toInteger parseInt).
Local Abbreviation toDecimal := (Misc.toDecimal parseFloat).
Local Abbreviation toString :=
  (Misc.toString convert fp_toString numToString object_toString).

(** X17: the conversions round-trip.  A boolean converted by
    [toInteger], [toLong], [toDecimal] or [toString] converts back to
    itself by [toBoolean]; a Long converted by [toString] converts back
    to itself by [toLong], whatever its sign and size. *)
Theorem conversions_round_trip (b : bool) (z : Z) :
  (let* n := toInteger [VBool b] in Misc.toBoolean (Util.arraify n))
  = Ok (VBool b) /\
  (let* n := Misc.toLong [VBool b] in Misc.toBoolean (Util.arraify n))
  = Ok (VBool b) /\
  (let* n := toDecimal [VBool b] in Misc.toBoolean (Util.arraify n))
  = Ok (VBool b) /\
  (let* s := toString [VBool b] in Misc.toBoolean (Util.arraify s))
  = Ok (VBool b) /\
  (let* s := toString [VBigInt z] in Misc.toLong (Util.arraify s))
  = Ok (VBigInt z).
Proof.
  repeat split; try (destruct b; reflexivity).
  unfold Misc.toString, Misc.toLong. cbn.
  now rewrite intRegex_toString, BigInt_of_string_toString.
Qed.

End ConversionFacts.

(** X18: [toBoolean] on a singleton follows its tables: a boolean is
    returned as it is; the Numbers and bigints 1 and 0 give [true] and
    [false] and every other one gives nothing; a string that is not the
    name of a member of [Object.prototype] gives [true] when its lower
    case is one of the six spellings of [trueStrings], [false] for the
    six of [falseStrings], and nothing otherwise.  The empty collection
    gives nothing, and several items raise an error. *)
Theorem toBoolean_table (b : bool) (x : float) (z : Z) (s : string)
    (v w : value) (rest : list value) :
  Misc.toBoolean [] = Ok VUndefined /\
  Misc.toBoolean (v :: w :: rest) =
  Throw "toBoolean: The input collection contains multiple items" /\
  Misc.toBoolean [VBool b] = Ok (VBool b) /\
  Misc.toBoolean [VNum x] =
  Ok (if PrimFloat.eqb x 1 then VBool true
      else if PrimFloat.eqb x 0 then VBool false else VUndefined) /\
  Misc.toBoolean [VBigInt z] =
  Ok (if (z =? 1)%Z then VBool true
      else if (z =? 0)%Z then VBool false else VUndefined) /\
  (JS.mem_string (JS.toLowerCase s) JS.Object_prototype_names = false ->
   Misc.toBoolean [VStr s] =
   Ok (if JS.mem_string (JS.toLowerCase s) Misc.trueStrings then VBool true
       else if JS.mem_string (JS.toLowerCase s) Misc.falseStrings
            then VBool false
       else VUndefined)).
Proof.
  repeat split. apply toBoolean_string.
Qed.

(** ** Arithmetic *)

Lemma SFadd_comm (a b : spec_float) : SFadd prec emax a b = SFadd prec emax b a.
Proof.
  destruct a as [sa | sa | | sa ma ea], b as [sb | sb | | sb mb eb];
    cbn [SFadd]; try reflexivity; try (destruct sa, sb; reflexivity).
  cbv zeta. now rewrite Z.min_comm, Z.add_comm.
Qed.

Lemma SFmul_comm (a b : spec_float) : SFmul prec emax a b = SFmul prec emax b a.
Proof.
  destruct a as [sa | sa | | sa ma ea], b as [sb | sb | | sb mb eb];
    cbn [SFmul]; try reflexivity; try (now rewrite xorb_comm).
  now rewrite xorb_comm, Pos.mul_comm, Z.add_comm.
Qed.

Lemma float_add_comm (x y : float) : (x + y = y + x)%float.
Proof. apply Prim2SF_inj. rewrite !add_spec. apply SFadd_comm. Qed.

Lemma float_mul_comm (x y : float) : (x * y = y * x)%float.
Proof. apply Prim2SF_inj. rewrite !mul_spec. apply SFmul_comm. Qed.

Section MathFacts.

Variable convert : value -> string -> option fp_type.
Variable fp_div : fp_type -> fp_type -> value.
Variable toJSON : value -> string.
Variable fp_plus : fp_type -> fp_type -> result value.
Variable fp_mul : fp_type -> fp_type -> result value.

Local Abbreviation plus := (Math.plus convert toJSON fp_plus).
Local Abbreviation mul := (Math.mul convert toJSON fp_mul).
Local Abbreviation div := (Math.div convert fp_div toJSON).
Local Abbreviation sumFn := (Aggregate.sumFn convert toJSON fp_plus).

(** X19: on Numbers and bigints, in any mixture, [plus] and [mul] do not
    depend on the order of the operands. *)
Theorem plus_mul_commute (x y : value) :
  numeric x = true -> numeric y = true ->
  plus [x] [y] = plus [y] [x] /\ mul [x] [y] = mul [y] [x].
Proof.
  destruct x as [| | | nx | bx | | | | | |]; try discriminate;
  destruct y as [| | | ny | by_ | | | | | |]; try discriminate; intros _ _;
    unfold Math.plus, Math.mul;
    cbn [Math.valDataConverted Util.valDataConverted is_nullish orb].
  - now rewrite float_add_comm, float_mul_comm.
  - destruct (JS.isInteger nx); split; f_equal; f_equal;
      first [apply Z.add_comm | apply Z.mul_comm
            | apply float_add_comm | apply float_mul_comm].
  - destruct (JS.isInteger ny); split; f_equal; f_equal;
      first [apply Z.add_comm | apply Z.mul_comm
            | apply float_add_comm | apply float_mul_comm].
  - now rewrite Z.add_comm, Z.mul_comm.
Qed.

(** X20: on two bigints with a divisor that is not zero, [intdiv] and
    [mod] are the quotient and the remainder of one division: the
    dividend is the quotient times the divisor plus the remainder, and
    the remainder is smaller than the divisor in magnitude and has the
    sign of the dividend. *)
Theorem bigint_division (x y : Z) :
  y <> 0%Z ->
  exists q r : Z,
    Math.intdiv (VBigInt x) (VBigInt y) = VBigInt q /\
    Math.mod_ (VBigInt x) (VBigInt y) = Ok (VBigInt r) /\
    (x = q * y + r /\ Z.abs r < Z.abs y /\ 0 <= r * x)%Z.
Proof.
  intros Hy. exists (Z.quot x y), (Z.rem x y).
  apply Z.eqb_neq in Hy as E.
  unfold Math.intdiv, Math.mod_, Math.bigint_rem. cbn. rewrite E.
  repeat split.
  - rewrite Z.mul_comm. now apply Z.quot_rem'.
  - now apply Z.rem_bound_abs.
  - now apply Z.rem_sign_mul.
Qed.

(** X21: a division by zero is no error: [div] on two numeric
    singletons and [intdiv] return the empty collection when the divisor
    is the Number 0 or the bigint 0n, and [mod] does when the divisor is
    the Number 0. *)
Theorem division_by_zero (x y : value) :
  numeric x = true -> zero_divisor y = true ->
  div [x] [y] = Ok empty /\
  Math.intdiv x y = empty /\
  (Math.is_zero_number y = true -> Math.mod_ x y = Ok empty).
Proof.
  intros Hx Hy. split; [now apply div_zero_divisor |].
  split; [now apply intdiv_zero_divisor | apply mod_zero_number].
Qed.

Lemma aggregate_bigints (zs : list Z) : forall i total,
  Aggregate.aggregate_from i (VBigInt <$> zs)
    (fun _ total this =>
       let x := Aggregate.with_data this in
       let y := Aggregate.with_data total in
       if Nat.eqb (length x) 0 || Nat.eqb (length y) 0 then Ok empty
       else Math.plus convert toJSON fp_plus x y)
    (VBigInt total) = Ok (VBigInt (total + fold_right Z.add 0%Z zs)).
Proof.
  induction zs as [| z zs IH]; intros i total;
    cbn [fmap list_fmap Aggregate.aggregate_from fold_right].
  - now rewrite Z.add_0_r.
  - cbn. rewrite IH. f_equal. f_equal. lia.
Qed.

(** X22: on a collection of Long values that is not empty, [sumFn]
    returns their exact sum. *)
Theorem sumFn_bigints (z : Z) (zs : list Z) :
  sumFn (VBigInt <$> (z :: zs)) = Ok (VBigInt (fold_right Z.add 0%Z (z :: zs))).
Proof.
  unfold Aggregate.sumFn, Aggregate.aggregateMacro.
  cbn [fmap list_fmap hd].
  assert (E : JS.slice (VBigInt z :: (VBigInt <$> zs)) 1
                (Z.of_nat (length (VBigInt z :: (VBigInt <$> zs)))) =
              VBigInt <$> zs).
  { rewrite slice_suffix. cbn [length].
    assert (R : JS.relative_index (S (length (VBigInt <$> zs))) 1 = 1%nat)
      by (unfold JS.relative_index; cbn [Z.ltb Z.compare]; lia).
    now rewrite R. }
  rewrite E. apply aggregate_bigints.
Qed.

End MathFacts.

(** ** min and max *)
Section MinMax.

Variable cmp : list value -> list value -> value.

Local Abbreviation fn := (fun a b => Ok (cmp a b)).

Lemma minMax_loop_no_data (rest : list value) : forall total,
  Exists (fun d => has_data d = false) rest ->
  Aggregate.minMax_loop rest fn total = Ok [].
Proof.
  induction rest as [| d rest IH]; intros total H;
    [now apply Exists_nil in H |].
  cbn [Aggregate.minMax_loop]. unfold has_data in H.
  destruct (is_nullish (Util.valData d)) eqn:E; [reflexivity |].
  cbn [bind]. apply IH. apply Exists_cons in H as [H | H]; [| exact H].
  rewrite E in H. discriminate.
Qed.

Lemma minMax_loop_selects (rest : list value) : forall t,
  Forall (fun d => has_data d = true) rest ->
  exists m k,
    Aggregate.minMax_loop rest fn [t] = Ok [m] /\
    (t :: rest) !! k = Some m /\
    forall j d, (k < j)%nat -> (t :: rest) !! j = Some d ->
                Util.isTrue (cmp [d] [m]) = false.
Proof.
  induction rest as [| d rest IH]; intros t H.
  - exists t, 0%nat. repeat split. intros [| j] x Hj Hx; [lia | discriminate].
  - apply Forall_cons in H as [Hd H]. unfold has_data in Hd.
    apply negb_true_iff in Hd.
    cbn [Aggregate.minMax_loop]. rewrite Hd. cbn [bind].
    destruct (Util.isTrue (cmp [d] [t])) eqn:E.
    + destruct (IH d H) as (m & k & R & Hk & Hlater).
      exists m, (S k). repeat split; [exact R | exact Hk |].
      intros [| j] x Hj Hx; [lia |]. apply (Hlater j); [lia | exact Hx].
    + destruct (IH t H) as (m & k & R & Hk & Hlater).
      destruct k as [| k].
      * injection Hk as <-. exists t, 0%nat. repeat split; [exact R |].
        intros [| [| j]] x Hj Hx; [lia | | ].
        -- injection Hx as <-. exact E.
        -- apply (Hlater (S j)); [lia | exact Hx].
      * exists m, (S (S k)). repeat split; [exact R | exact Hk |].
        intros [| [| j]] x Hj Hx; [lia | lia |].
        apply (Hlater (S j)); [lia | exact Hx].
Qed.

(** X23: with a comparison that returns normally,
    [minMaxShortcutTemplate] returns the empty collection when the
    collection is empty or holds an item without data; otherwise it
    returns one item of the collection, and no item after it wins the
    comparison against it. *)
Theorem minMax_selects (data : list value) :
  (data = [] \/ Exists (fun d => has_data d = false) data ->
   Aggregate.minMaxShortcutTemplate data fn = Ok []) /\
  (data <> [] -> Forall (fun d => has_data d = true) data ->
   exists m k,
     Aggregate.minMaxShortcutTemplate data fn = Ok [m] /\
     data !! k = Some m /\
     forall j d, (k < j)%nat -> data !! j = Some d ->
                 Util.isTrue (cmp [d] [m]) = false).
Proof.
  split.
  - intros [-> | H]; [reflexivity |].
    destruct data as [| d0 rest]; [now apply Exists_nil in H |].
    cbn [Aggregate.minMaxShortcutTemplate].
    destruct (is_nullish (Util.valData d0)) eqn:E; [reflexivity |].
    apply minMax_loop_no_data. apply Exists_cons in H as [H | H]; [| exact H].
    unfold has_data in H. rewrite E in H. discriminate.
  - intros Hne H. destruct data as [| d0 rest]; [congruence |].
    apply Forall_cons in H as [H0 H]. unfold has_data in H0.
    apply negb_true_iff in H0.
    cbn [Aggregate.minMaxShortcutTemplate]. rewrite H0.
    now apply minMax_loop_selects.
Qed.

End MinMax.

(** ** Strings *)

Lemma append_cons (c : ascii) (a b : string) :
  String c a +:+ b = String c (a +:+ b).
Proof. reflexivity. Qed.

Lemma append_assoc (a b c : string) : (a +:+ b) +:+ c = a +:+ (b +:+ c).
Proof.
  induction a as [| x a IH]; [reflexivity |]. now rewrite !append_cons, IH.
Qed.

Lemma append_nil_r (a : string) : a +:+ "" = a.
Proof.
  induction a as [| x a IH]; [reflexivity |]. now rewrite append_cons, IH.
Qed.

Lemma length_append (a b : string) :
  String.length (a +:+ b) = (String.length a + String.length b)%nat.
Proof.
  induction a as [| x a IH]; [reflexivity |].
  rewrite append_cons. cbn [String.length]. now rewrite IH.
Qed.

Lemma prefix_split (p s : string) :
  String.prefix p s = true -> s = p +:+ drop_chars (String.length p) s.
Proof.
  revert s. induction p as [| c p IH]; intros s H; [reflexivity |].
  destruct s as [| d s]; [discriminate |]. cbn in H.
  destruct (Ascii.ascii_dec c d) as [-> | ]; [| discriminate].
  cbn [String.length drop_chars]. rewrite append_cons. f_equal. now apply IH.
Qed.

Lemma drop_chars_length (n : nat) (s : string) :
  String.length (drop_chars n s) = (String.length s - n)%nat.
Proof.
  revert s. induction n as [| n IH]; intros s; [cbn; lia |].
  destruct s as [| c r]; [reflexivity |]. cbn. apply IH.
Qed.

Lemma split_go_nonempty (sep : string) (skip : nat) (cur s : string) :
  JS.split_go sep skip cur s <> [].
Proof.
  revert skip cur. induction s as [| c r IH]; intros skip cur;
    cbn [JS.split_go]; [discriminate |].
  destruct skip; [| apply IH].
  destruct (String.prefix sep (String c r)); [discriminate | apply IH].
Qed.

Lemma join_cons (sep a : string) (l : list string) :
  l <> [] -> JS.join sep (a :: l) = a +:+ sep +:+ JS.join sep l.
Proof. destruct l; [congruence | reflexivity]. Qed.

(** While a separator is passed over, the piece being read is kept. *)
Lemma split_go_skip (sep : string) : forall skip cur s,
  (skip <= String.length s)%nat ->
  JS.split_go sep skip cur s = JS.split_go sep 0 cur (drop_chars skip s).
Proof.
  induction skip as [| k IH]; intros cur s H; [now destruct s |].
  destruct s as [| c r]; [cbn in H; lia |]. cbn [JS.split_go drop_chars].
  apply IH. cbn in H. lia.
Qed.

Lemma join_split_go (sep : string) (n : nat) : forall s cur,
  sep <> "" -> (String.length s <= n)%nat ->
  JS.join sep (JS.split_go sep 0 cur s) = cur +:+ s.
Proof.
  induction n as [| n IH]; intros s cur Hsep Hn.
  - destruct s; [| cbn in Hn; lia]. cbn. now rewrite append_nil_r.
  - destruct s as [| c r]; [cbn; now rewrite append_nil_r |].
    cbn [JS.split_go]. destruct (String.prefix sep (String c r)) eqn:P.
    + rewrite join_cons by apply split_go_nonempty.
      pose proof (prefix_split _ _ P) as E.
      destruct sep as [| c' sep']; [congruence |].
      cbn [String.length Nat.sub]. rewrite Nat.sub_0_r.
      cbn [drop_chars] in E. cbn in P.
      destruct (Ascii.ascii_dec c' c) as [-> | ]; [| discriminate].
      injection E as E.
      assert (L : (String.length sep' <= String.length r)%nat).
      { rewrite E, length_append. lia. }
      rewrite split_go_skip by exact L.
      rewrite IH.
      * cbn. f_equal. rewrite E at 2. reflexivity.
      * discriminate.
      * rewrite drop_chars_length. cbn in Hn. lia.
    + rewrite IH; [| exact Hsep | cbn in Hn; lia].
      rewrite append_assoc. reflexivity.
Qed.

Lemma join_chars (s : string) :
  JS.join "" (List.map (fun c => String c "") (list_ascii_of_string s)) = s.
Proof.
  induction s as [| c r IH]; [reflexivity |].
  cbn [list_ascii_of_string List.map].
  destruct r as [| d r']; [reflexivity |].
  rewrite join_cons by discriminate. rewrite IH. reflexivity.
Qed.

(** Joining what [split] returns with the separator gives the string
    back. *)
Lemma join_split (s sep : string) : JS.join sep (JS.split s sep) = s.
Proof.
  unfold JS.split. destruct (String.eqb sep "") eqn:E.
  - apply String.eqb_eq in E. subst sep. apply join_chars.
  - apply String.eqb_neq in E.
    now rewrite (join_split_go sep (String.length s)).
Qed.

Lemma stringValues_strings (l : list string) :
  Strings.stringValues (VStr <$> l) = Ok l.
Proof.
  induction l as [| a l IH]; [reflexivity |].
  cbn [fmap list_fmap Strings.stringValues Util.valData]. now rewrite IH.
Qed.

Lemma substring_all (s : string) : String.substring 0 (String.length s) s = s.
Proof. induction s as [| c s IH]; [reflexivity |]. cbn. now rewrite IH. Qed.

Lemma substring_cut (s : string) : forall k,
  (k <= String.length s)%nat ->
  String.substring 0 k s +:+ String.substring k (String.length s - k) s = s /\
  String.length (String.substring 0 k s) = k.
Proof.
  induction s as [| c s IH]; intros k Hk.
  - destruct k; [split; reflexivity | cbn in Hk; lia].
  - destruct k as [| k].
    + cbn [String.substring String.length Nat.sub]. rewrite substring_all.
      split; reflexivity.
    + cbn in Hk. destruct (IH k ltac:(lia)) as [E L].
      cbn [String.substring String.length Nat.sub].
      rewrite append_cons, E, L. split; reflexivity.
Qed.

Lemma upper_upper (c : ascii) :
  JS.upper_ascii (JS.upper_ascii c) = JS.upper_ascii c.
Proof. destruct c as [[] [] [] [] [] [] [] []]; reflexivity. Qed.

Lemma lower_upper (c : ascii) :
  JS.lower_ascii (JS.upper_ascii c) = JS.lower_ascii c.
Proof. destruct c as [[] [] [] [] [] [] [] []]; reflexivity. Qed.

Lemma upper_lower (c : ascii) :
  JS.upper_ascii (JS.lower_ascii c) = JS.upper_ascii c.
Proof. destruct c as [[] [] [] [] [] [] [] []]; reflexivity. Qed.

Lemma map_string_map_string (f g : ascii -> ascii) (s : string) :
  JS.map_string f (JS.map_string g s) = JS.map_string (fun c => f (g c)) s.
Proof. induction s as [| c s IH]; [reflexivity |]. cbn. now rewrite IH. Qed.

Lemma map_string_ext (f g : ascii -> ascii) (s : string) :
  (forall c, f c = g c) -> JS.map_string f s = JS.map_string g s.
Proof.
  intros H. induction s as [| c s IH]; [reflexivity |]. cbn. now rewrite H, IH.
Qed.

Lemma map_string_length (f : ascii -> ascii) (s : string) :
  String.length (JS.map_string f s) = String.length s.
Proof. induction s as [| c s IH]; [reflexivity |]. cbn. now rewrite IH. Qed.

Section StringsFacts.

Variable toJSON : value -> string.

Local Abbreviation upper := (Strings.upper toJSON).
Local Abbreviation lower := (Strings.lower toJSON).
Local Abbreviation length_ := (Strings.length toJSON).
Local Abbreviation substring := (Strings.substring toJSON).
Local Abbreviation splitFn := (Strings.splitFn toJSON).

(** X24: [joinFn] undoes [splitFn]: for every string and every
    separator, joining the pieces with the separator gives the string
    back.  The one exception is the empty string cut with the empty
    separator: there are no pieces, and [joinFn] returns the empty
    collection. *)
Theorem join_split_round_trip (s sep : string) :
  (let* parts := splitFn [VStr s] sep in
   Strings.joinFn (Util.arraify parts) (Some sep)) =
  Ok (if String.eqb s "" && String.eqb sep "" then empty else VStr s).
Proof.
  unfold Strings.splitFn, Strings.str_of, Misc.singleton.
  cbn [length Nat.ltb Nat.leb Nat.eqb hd Util.valData is_nullish
       Misc.singletonEvalByType bind Util.arraify].
  unfold Strings.joinFn.
  change (List.map VStr ?l) with (VStr <$> l).
  rewrite stringValues_strings. cbn [bind].
  destruct (JS.split s sep) as [| a l] eqn:E.
  - assert (Hs : s = "" /\ sep = "").
    { unfold JS.split in E. destruct (String.eqb sep "") eqn:S.
      - apply String.eqb_eq in S. split; [| exact S].
        destruct s; [reflexivity | discriminate].
      - now apply split_go_nonempty in E. }
    destruct Hs as [-> ->]. reflexivity.
  - cbn [List.length Nat.eqb]. rewrite <- E, join_split.
    assert (B : String.eqb s "" && String.eqb sep "" = false).
    { destruct (String.eqb s "") eqn:S1; [| reflexivity].
      destruct (String.eqb sep "") eqn:S2; [| reflexivity].
      apply String.eqb_eq in S1, S2. subst. discriminate. }
    now rewrite B.
Qed.

(** X25: on a string of ASCII characters, [upper] keeps the length of
    the string and is idempotent, and [upper] and [lower] absorb each
    other: the lower case of the upper case is the lower case, and the
    upper case of the lower case is the upper case. *)
Theorem case_conversions (s : string) :
  ascii_only s = true ->
  (let* u := upper [VStr s] in upper (Util.arraify u)) = upper [VStr s] /\
  (let* u := upper [VStr s] in lower (Util.arraify u)) = lower [VStr s] /\
  (let* l := lower [VStr s] in upper (Util.arraify l)) = upper [VStr s] /\
  (let* u := upper [VStr s] in length_ (Util.arraify u)) = length_ [VStr s].
Proof.
  intros _.
  unfold Strings.upper, Strings.lower, Strings.length, Strings.str_of,
    Misc.singleton.
  cbn [length Nat.ltb Nat.leb Nat.eqb hd Util.valData is_nullish
       Misc.singletonEvalByType bind Util.arraify Util.isSome Util.isEmpty
       negb].
  unfold JS.toUpperCase, JS.toLowerCase.
  rewrite !map_string_map_string, map_string_length.
  rewrite (map_string_ext _ _ s upper_upper),
    (map_string_ext _ _ s lower_upper), (map_string_ext _ _ s upper_lower).
  repeat split.
Qed.

(** X26: for a position [k] inside the string, the substring of length
    [k] from the start, followed by the substring from [k] on, is the
    string; the first of the two has [k] characters. *)
Theorem substring_partition (s : string) (k : nat) :
  (0 < k < String.length s)%nat ->
  exists a b,
    substring [VStr s] (Some 0%Z) (Some (Z.of_nat k)) = Ok (VStr a) /\
    substring [VStr s] (Some (Z.of_nat k)) None = Ok (VStr b) /\
    a +:+ b = s /\ String.length a = k.
Proof.
  intros Hk.
  exists (String.substring 0 k s),
         (String.substring k (String.length s - k) s).
  destruct (substring_cut s k ltac:(lia)) as [E L].
  unfold Strings.substring, Strings.str_of, Misc.singleton.
  cbn [length Nat.ltb Nat.leb Nat.eqb hd Util.valData is_nullish
       Misc.singletonEvalByType bind].
  assert (B0 : ((0 <? 0) || (Z.of_nat (String.length s) <=? 0))%Z = false).
  { cbn [Z.ltb Z.compare orb]. apply Z.leb_gt. lia. }
  assert (Bk : ((Z.of_nat k <? 0)
                || (Z.of_nat (String.length s) <=? Z.of_nat k))%Z = false).
  { apply orb_false_intro; [apply Z.ltb_ge | apply Z.leb_gt]; lia. }
  rewrite B0, Bk. unfold JS.substring, JS.clamp.
  replace (Z.to_nat (Z.min (Z.max 0 0) (Z.of_nat (String.length s))))
    with 0%nat by lia.
  replace (Z.to_nat (Z.min (Z.max (0 + Z.of_nat k) 0)
                       (Z.of_nat (String.length s)))) with k by lia.
  replace (Z.to_nat (Z.min (Z.max (Z.of_nat k) 0)
                       (Z.of_nat (String.length s)))) with k by lia.
  replace (Z.to_nat (Z.min (Z.max (Z.of_nat (String.length s)) 0)
                       (Z.of_nat (String.length s))))
    with (String.length s) by lia.
  rewrite Nat.min_0_l, Nat.max_0_l, Nat.sub_0_r.
  rewrite Nat.min_l, Nat.max_r by lia.
  repeat split; assumption.
Qed.

End StringsFacts.

(** ** Termination of deepEqual *)

Lemma depth_list_max (l : list value) (x : value) :
  In x l -> (DeepEqual.depth x <= list_max (List.map DeepEqual.depth l))%nat.
Proof.
  induction l as [| a l IH]; [intros [] |].
  change (list_max (List.map DeepEqual.depth (a :: l)))
    with (Nat.max (DeepEqual.depth a) (list_max (List.map DeepEqual.depth l))).
  intros [-> | H]; [lia |]. specialize (IH H). lia.
Qed.

Lemma depth_props_max (props : list (string * value)) (kv : string * value) :
  In kv props ->
  (DeepEqual.depth (snd kv) <=
   list_max (List.map (fun kv => DeepEqual.depth (snd kv)) props))%nat.
Proof.
  induction props as [| a l IH]; [intros [] |].
  change (list_max (List.map (fun kv => DeepEqual.depth (snd kv)) (a :: l)))
    with (Nat.max (DeepEqual.depth (snd a))
            (list_max (List.map (fun kv => DeepEqual.depth (snd kv)) l))).
  intros [-> | H]; [lia |]. specialize (IH H). lia.
Qed.

Lemma indexed_In {A} (l : list A) : forall i k x,
  In (k, x) (indexed i l) -> In x l.
Proof.
  induction l as [| a l IH]; intros i k x; [intros [] |].
  cbn. intros [H | H]; [injection H as _ ->; now left | right; eauto].
Qed.

(** A member of a value is less deep than the value. *)
Lemma depth_get (a : value) (key : string) :
  (DeepEqual.depth (get a key) <= Nat.pred (DeepEqual.depth a))%nat.
Proof.
  unfold get.
  destruct (List.find _ (own_props a)) as [[k x] |] eqn:E; [| cbn; lia].
  apply find_some in E as [E _].
  destruct a; cbn [own_props] in E; try contradiction.
  - unfold chars in E. apply indexed_In, in_map_iff in E as (c & <- & _).
    cbn. lia.
  - apply indexed_In in E. cbn [DeepEqual.depth Nat.pred].
    now apply depth_list_max.
  - cbn [DeepEqual.depth Nat.pred]. now apply (depth_props_max props (k, x)).
Qed.

Lemma depth_node (v : value) :
  DeepEqual.isResourceNode v = true ->
  (DeepEqual.depth (DeepEqual.node__data v) < DeepEqual.depth v)%nat /\
  (DeepEqual.depth (DeepEqual.node_data v) < DeepEqual.depth v)%nat.
Proof. destruct v; try discriminate. intros _. cbn. lia. Qed.

Lemma depth_data_member (v : value) (name : string) :
  DeepEqual.isResourceNode v = true ->
  (DeepEqual.depth (DeepEqual.data_member v name) < DeepEqual.depth v)%nat.
Proof.
  intros H. destruct (depth_node v H) as [_ L]. unfold DeepEqual.data_member.
  destruct (is_nullish _); [cbn; lia |].
  pose proof (depth_get (DeepEqual.node_data v) name). lia.
Qed.

Lemma list_eqb_eq (l1 l2 : list string) : list_eqb l1 l2 = true -> l1 = l2.
Proof.
  revert l2. induction l1 as [| a l1 IH]; intros [| b l2]; cbn;
    try discriminate; [reflexivity |].
  intros H. apply andb_true_iff in H as [H1 H2].
  apply String.eqb_eq in H1. subst. f_equal. now apply IH.
Qed.

Lemma insert_sorted_length (k : string) (l : list string) :
  length (insert_sorted k l) = S (length l).
Proof.
  induction l as [| h t IH]; cbn; [reflexivity |].
  destruct (String.leb k h); cbn; lia.
Qed.

Lemma sort_length (l : list string) : length (sort l) = length l.
Proof.
  induction l as [| a l IH]; [reflexivity |].
  change (sort (a :: l)) with (insert_sorted a (sort l)).
  now rewrite insert_sorted_length, IH.
Qed.

Lemma keys_depth (a : value) :
  js_type_eqb (typeof a) TObject = true -> keys a <> [] ->
  (1 <= DeepEqual.depth a)%nat.
Proof. destruct a; cbn; try discriminate; intros; try lia; congruence. Qed.

Section DeepEqualFacts.
Import DeepEqual.

Variable same_object : value -> value -> bool.
Variable convert : value -> string -> option fp_type.
Variable fp_equals : fp_type -> fp_type -> value.
Variable fp_equivalentTo : fp_type -> fp_type -> value.
Variable isNumber : value -> bool.
Variable isEquivalent : value -> value -> value.

Local Abbreviation body :=
  (deepEqual_body same_object convert fp_equals fp_equivalentTo isNumber
     isEquivalent).
Local Abbreviation rec :=
  (deepEqual_rec same_object convert fp_equals fp_equivalentTo isNumber
     isEquivalent).
Local Abbreviation objEquiv := (objEquiv same_object).
Local Abbreviation operand := (deepEqual_operand convert).

Lemma depth_operand (v : value) : (depth (operand v) <= depth v)%nat.
Proof.
  unfold deepEqual_operand. destruct v; cbn; try lia.
  destruct (convert v1 path); cbn; lia.
Qed.

Lemma all_equal_some deq a b visit :
  (forall key, deq (get a key) (get b key) <> None) ->
  all_equal deq a b visit <> None.
Proof.
  intros H. induction visit as [| key rest IH]; cbn; [discriminate |].
  destruct (deq (get a key) (get b key)) eqn:E; [| now apply H in E].
  destruct (truthy v); [exact IH | discriminate].
Qed.

(** [objEquiv] returns when the nested calls on less deep operands do. *)
Lemma objEquiv_some deq a b :
  js_type_eqb (typeof a) TObject = true \/
  js_type_eqb (typeof b) TObject = true ->
  (forall x y, (depth x + depth y < depth a + depth b)%nat ->
               deq x y <> None) ->
  objEquiv deq a b <> None.
Proof.
  intros Hobj Hdeq. unfold DeepEqual.objEquiv.
  destruct (_ || _); [discriminate |].
  destruct (negb (strict_eq _ _ _)); [discriminate |].
  destruct (negb (Nat.eqb _ _)) eqn:EL; [discriminate |].
  destruct (negb (list_eqb _ _)) eqn:EK; [discriminate |].
  apply negb_false_iff, Nat.eqb_eq in EL.
  rewrite !sort_length in EL.
  destruct (keys a) as [| k0 ks] eqn:Ka.
  { cbn. discriminate. }
  assert (Kb : keys b <> []).
  { intros E. rewrite E in EL. discriminate. }
  assert (Hd : forall key, deq (get a key) (get b key) <> None).
  { intros key. apply Hdeq.
    pose proof (depth_get a key) as Ga. pose proof (depth_get b key) as Gb.
    destruct Hobj as [Ho | Ho].
    - pose proof (keys_depth a Ho ltac:(rewrite Ka; discriminate)). lia.
    - pose proof (keys_depth b Ho Kb). lia. }
  destruct (sort (k0 :: ks)) as [| key [| key' rest]];
    [discriminate | apply Hd |].
  now apply all_equal_some.
Qed.

Lemma and_then_some (r k : option value) :
  r <> None -> k <> None -> and_then r k <> None.
Proof.
  destruct r as [v |]; [| congruence]. cbn. destruct (truthy v); congruence.
Qed.

Lemma both_nodes (fuzzy : bool) (v1 v2 : value) :
  fuzzy || negb (isResourceNode v1 && isResourceNode v2) = false ->
  isResourceNode v1 = true /\ isResourceNode v2 = true.
Proof.
  intros H. apply orb_false_elim in H as [_ H].
  apply negb_false_iff, andb_true_iff in H. exact H.
Qed.

(** The body returns when the nested calls on less deep operands do. *)
Lemma body_some deq v1 v2 fuzzy :
  (forall a b f, (depth a + depth b < depth v1 + depth v2)%nat ->
                 deq a b f <> None) ->
  body deq v1 v2 fuzzy <> None.
Proof.
  intros Hdeq. unfold deepEqual_body.
  change (if isResourceNode v1 then convertData convert v1 else v1)
    with (operand v1).
  change (if isResourceNode v2 then convertData convert v2 else v2)
    with (operand v2).
  pose proof (depth_operand v1) as L1. pose proof (depth_operand v2) as L2.
  assert (Hdata : forall f,
            isResourceNode v1 = true -> isResourceNode v2 = true ->
            deq (node__data v1) (node__data v2) f <> None).
  { intros f H1 H2. apply Hdeq.
    destruct (depth_node v1 H1), (depth_node v2 H2). lia. }
  assert (Hmember : forall name f,
            isResourceNode v1 = true -> isResourceNode v2 = true ->
            deq (data_member v1 name) (data_member v2 name) f <> None).
  { intros name f H1 H2. apply Hdeq.
    pose proof (depth_data_member v1 name H1).
    pose proof (depth_data_member v2 name H2). lia. }
  repeat match goal with
  | |- Some _ <> None => discriminate
  | |- deq (node__data _) (node__data _) _ <> None => apply Hdata
  | |- deq (data_member _ _) (data_member _ _) _ <> None => apply Hmember
  | |- and_then _ _ <> None => apply and_then_some
  | H : _ || negb (isResourceNode v1 && isResourceNode v2) = false
    |- isResourceNode _ = true => apply both_nodes in H; apply H
  | H : negb (isResourceNode v1 && isResourceNode v2) = false
    |- isResourceNode _ = true =>
      apply negb_false_iff, andb_true_iff in H; apply H
  | H : isResourceNode v1 && isResourceNode v2 = true
    |- isResourceNode _ = true => apply andb_true_iff in H; apply H
  | |- DeepEqual.objEquiv _ _ _ _ <> None => apply objEquiv_some
  | |- (if ?c then _ else _) <> None => destruct c eqn:?
  | |- match ?x with _ => _ end <> None => destruct x eqn:?
  end.
  all: first
    [ match goal with
      | H : _ || _ || negb ?a && negb ?b = false |- ?a = true \/ ?b = true =>
          apply orb_false_elim in H as [_ H];
          destruct a; [now left | destruct b; [now right | discriminate]]
      end
    | intros x y Hxy; apply Hdeq; lia ].
Qed.

Lemma rec_some (n : nat) : forall v1 v2 fuzzy,
  (depth v1 + depth v2 < n)%nat -> rec n v1 v2 fuzzy <> None.
Proof.
  induction n as [| n IH]; intros v1 v2 fuzzy H; [lia |].
  cbn [deepEqual_rec]. apply body_some. intros a b f Hab. apply IH. lia.
Qed.

Lemma all_equal_extends deq deq' a b visit r :
  (forall x y r, deq x y = Some r -> deq' x y = Some r) ->
  all_equal deq a b visit = Some r -> all_equal deq' a b visit = Some r.
Proof.
  intros H. induction visit as [| key rest IH]; cbn; [auto |].
  destruct (deq (get a key) (get b key)) as [v |] eqn:E; [| discriminate].
  rewrite (H _ _ _ E). destruct (truthy v); auto.
Qed.

Lemma objEquiv_extends deq deq' a b r :
  (forall x y r, deq x y = Some r -> deq' x y = Some r) ->
  objEquiv deq a b = Some r -> objEquiv deq' a b = Some r.
Proof.
  intros H. unfold DeepEqual.objEquiv.
  repeat match goal with
  | |- (if ?c then _ else _) = _ -> _ => destruct c
  | |- match ?x with _ => _ end = _ -> _ => destruct x
  end; auto; now apply all_equal_extends.
Qed.

Lemma and_then_extends (r r' k k' : option value) (v : value) :
  (forall x, r = Some x -> r' = Some x) ->
  (forall x, k = Some x -> k' = Some x) ->
  and_then r k = Some v -> and_then r' k' = Some v.
Proof.
  intros Hr Hk. destruct r as [x |]; [| discriminate].
  rewrite (Hr x eq_refl). cbn. destruct (truthy x); auto.
Qed.

(** What the body returns is kept when the nested calls return more. *)
Lemma body_extends deq deq' v1 v2 fuzzy r :
  extends deq deq' ->
  body deq v1 v2 fuzzy = Some r -> body deq' v1 v2 fuzzy = Some r.
Proof.
  intros H. unfold deepEqual_body.
  repeat match goal with
  | |- Some _ = _ -> _ => exact (fun e => e)
  | |- deq _ _ _ = _ -> _ => apply H
  | |- and_then _ _ = _ -> _ => apply and_then_extends; intros ?
  | |- DeepEqual.objEquiv _ _ _ _ = _ -> _ =>
      apply objEquiv_extends; intros ? ? ?; apply H
  | |- (if ?c then _ else _) = _ -> _ => destruct c
  | |- match ?x with _ => _ end = _ -> _ => destruct x
  end.
Qed.

Lemma rec_extends (n : nat) : extends (rec n) (rec (S n)).
Proof.
  induction n as [| n IH]; intros a b f r H; [discriminate |].
  cbn [deepEqual_rec] in *. eapply body_extends; [| exact H]. exact IH.
Qed.

Lemma rec_more_fuel (n m : nat) : (n <= m)%nat -> extends (rec n) (rec m).
Proof.
  induction 1 as [| m _ IH]; intros a b f r H; [exact H |].
  now apply rec_extends, IH.
Qed.

(** X27: [deepEqual] with the default options (the comparison of [=])
    returns on every pair of values: the depth of its nested calls is at
    most the sum of the nesting depths of the two operands, and the
    result does not depend on how much further the recursion is allowed
    to go. *)
Theorem deepEqual_terminates (v1 v2 : value) :
  exists r : value,
    DeepEqual.deepEqual same_object convert fp_equals fp_equivalentTo
      isNumber isEquivalent v1 v2 false = r /\
    forall fuel, (depth v1 + depth v2 < fuel)%nat ->
                 rec fuel v1 v2 false = Some r.
Proof.
  unfold DeepEqual.deepEqual.
  destruct (rec (S (depth v1 + depth v2)) v1 v2 false) as [r |] eqn:E.
  - exists r. split; [reflexivity |]. intros fuel H.
    apply (rec_more_fuel (S (depth v1 + depth v2)) fuel); [lia | exact E].
  - apply rec_some in E; [contradiction | lia].
Qed.

Local Abbreviation equal :=
  (Equality.equal same_object convert fp_equals fp_equivalentTo isNumber
     isEquivalent).
Local Abbreviation equival :=
  (Equality.equival same_object convert fp_equals fp_equivalentTo isNumber
     isEquivalent).

(** X28: with an empty operand [equal] returns the empty collection;
    [equival] returns [[true]] when both operands are empty and the
    empty collection when exactly one is. *)
Theorem equal_equival_empty (a b : list value) :
  (a = [] \/ b = [] -> equal a b = empty) /\
  equival [] [] = VArr [VBool true] /\
  (a <> [] -> equival a [] = empty /\ equival [] a = empty).
Proof.
  split; [apply equal_empty |]. split; [reflexivity |].
  intros Ha. destruct a; [congruence |]. split; reflexivity.
Qed.

End DeepEqualFacts.

(** ** The hash of an object *)

Lemma insert_sorted_Permutation (k : string) (l : list string) :
  insert_sorted k l ≡ₚ k :: l.
Proof.
  induction l as [| h t IH]; [reflexivity |]. cbn.
  destruct (String.leb k h); [reflexivity |].
  rewrite IH. apply Permutation_swap.
Qed.

Lemma sort_Permutation (l : list string) : sort l ≡ₚ l.
Proof.
  induction l as [| a l IH]; [reflexivity |].
  change (sort (a :: l)) with (insert_sorted a (sort l)).
  now rewrite insert_sorted_Permutation, IH.
Qed.

Lemma leb_false_le (k h : string) : String.leb k h = false -> String.le h k.
Proof.
  intros H. destruct (String.leb_total k h) as [E | E]; [congruence |].
  unfold String.le. now rewrite E.
Qed.

Lemma insert_sorted_Sorted (k : string) (l : list string) :
  Sorted String.le l -> Sorted String.le (insert_sorted k l).
Proof.
  induction 1 as [| h t Ht IH Hh]; cbn.
  - repeat constructor.
  - destruct (String.leb k h) eqn:E.
    + constructor; [now constructor |]. constructor.
      unfold String.le. now rewrite E.
    + constructor; [exact IH |].
      destruct t as [| h' t']; cbn.
      * constructor. now apply leb_false_le.
      * destruct (String.leb k h'); constructor;
          [now apply leb_false_le | now inversion Hh].
Qed.

Lemma sort_Sorted (l : list string) : Sorted String.le (sort l).
Proof.
  induction l as [| a l IH]; [constructor |].
  change (sort (a :: l)) with (insert_sorted a (sort l)).
  now apply insert_sorted_Sorted.
Qed.

(** Sorting forgets the order of the names. *)
Lemma sort_Permutation_eq (l1 l2 : list string) : l1 ≡ₚ l2 -> sort l1 = sort l2.
Proof.
  intros H. apply (Sorted_unique String.le); [apply sort_Sorted .. |].
  now rewrite !sort_Permutation.
Qed.

Lemma NoDup_fst_unique (l : list (string * value)) (k : string)
    (x x' : value) :
  NoDup (l.*1) -> (k, x) ∈ l -> (k, x') ∈ l -> x = x'.
Proof.
  induction l as [| [k0 x0] l IH]; intros Hnd H1 H2;
    [now apply elem_of_nil in H1 |].
  cbn in Hnd. apply NoDup_cons in Hnd as [Hk Hnd].
  apply elem_of_cons in H1 as [E1 | H1], H2 as [E2 | H2].
  - congruence.
  - injection E1 as -> ->. exfalso. apply Hk.
    apply list_elem_of_fmap. now exists (k0, x').
  - injection E2 as -> ->. exfalso. apply Hk.
    apply list_elem_of_fmap. now exists (k0, x).
  - now apply IH.
Qed.

(** Reading a member of an object does not depend on the order of the
    members. *)
Lemma get_Permutation (props1 props2 : list (string * value)) (key : string) :
  NoDup (props1.*1) -> props1 ≡ₚ props2 ->
  get (VObj props1) key = get (VObj props2) key.
Proof.
  intros Hnd Hp. unfold get. cbn [own_props].
  assert (Hnd2 : NoDup (props2.*1)) by now rewrite <- Hp.
  destruct (List.find _ props1) as [[k x] |] eqn:E1.
  - apply find_some in E1 as [I1 K1]. cbn in K1.
    apply String.eqb_eq in K1. subst k.
    destruct (List.find _ props2) as [[k' x'] |] eqn:E2.
    + apply find_some in E2 as [I2 K2]. cbn in K2.
      apply String.eqb_eq in K2. subst k'.
      apply list_elem_of_In in I1, I2. rewrite Hp in I1.
      now apply (NoDup_fst_unique props2 key x x' Hnd2).
    + exfalso. apply list_elem_of_In in I1. rewrite Hp in I1.
      apply list_elem_of_In in I1.
      apply (find_none _ _ E2) in I1. cbn in I1.
      now rewrite String.eqb_refl in I1.
  - destruct (List.find _ props2) as [[k' x'] |] eqn:E2; [| reflexivity].
    exfalso. apply find_some in E2 as [I2 K2].
    apply list_elem_of_In in I2. rewrite <- Hp in I2.
    apply list_elem_of_In in I2.
    apply (find_none _ _ E1) in I2. cbn in I2, K2. congruence.
Qed.

Section HashFacts.

Variable convert : value -> string -> option fp_type.
Variable fp_toString : fp_type -> string.
Variable _yearMonthConversionFactor : string -> option float.
Variable toUcumQuantity : float -> string -> float * string.
Variable getSpecifiedUnit : string -> string * float.
Variable numToString : float -> string.
Variable toISOString : float -> string.

Local Abbreviation prepareObject :=
  (HashObject.prepareObject convert fp_toString _yearMonthConversionFactor
     toUcumQuantity getSpecifiedUnit numToString toISOString).
Local Abbreviation hashObject :=
  (HashObject.hashObject convert fp_toString _yearMonthConversionFactor
     toUcumQuantity getSpecifiedUnit numToString toISOString).
Local Abbreviation prepared := (prepared_members prepareObject).

Lemma prepareObject_obj (props : list (string * value)) :
  prepareObject (VObj props) =
  VObj (List.fold_left
          (fun o key =>
             HashObject.set_prop o (key, get (VObj (prepared props)) key))
          (sort (List.map fst props)) []).
Proof. reflexivity. Qed.

(** X29: the hash of an object does not depend on the order of its
    members: two objects with the same members, each name once, in
    different orders have the same hash. *)
Theorem hashObject_key_order (props1 props2 : list (string * value)) :
  NoDup (props1.*1) -> props1 ≡ₚ props2 ->
  hashObject (VObj props1) = hashObject (VObj props2).
Proof.
  intros Hnd Hp. unfold HashObject.hashObject.
  rewrite !prepareObject_obj.
  rewrite (sort_Permutation_eq (List.map fst props1) (List.map fst props2))
    by (change (List.map fst ?l) with (l.*1); now rewrite Hp).
  assert (G : forall key,
             get (VObj (prepared props1)) key =
             get (VObj (prepared props2)) key).
  { intros key. unfold prepared_members. apply get_Permutation.
    - change (List.map ?f ?l) with (f <$> l).
      rewrite <- list_fmap_compose. exact Hnd.
    - change (List.map ?f ?l) with (f <$> l). now rewrite Hp. }
  assert (F : forall ks o,
             List.fold_left
               (fun o key =>
                  HashObject.set_prop o
                    (key, get (VObj (prepared props1)) key))
               ks o =
             List.fold_left
               (fun o key =>
                  HashObject.set_prop o
                    (key, get (VObj (prepared props2)) key))
               ks o).
  { induction ks as [| key ks IH]; intros o; [reflexivity |].
    cbn [fold_left]. now rewrite G, IH. }
  now rewrite F.
Qed.

End HashFacts.

(** * Instances on the samples *)

Lemma unequal_empty_operand_witness :
  Equality.unequal Sample.distinct_objects Sample.no_conversion
    Sample.fp_equals Sample.fp_equals Sample.isNumber Sample.isEquivalent
    [] [VNum 1] = VBool false /\
  Util.arraify
    (Equality.unequal Sample.distinct_objects Sample.no_conversion
       Sample.fp_equals Sample.fp_equals Sample.isNumber Sample.isEquivalent
       [] [VNum 1]) = [VBool false].
Proof.
  apply (unequal_empty_operand Sample.distinct_objects Sample.no_conversion
           Sample.fp_equals Sample.fp_equals Sample.isNumber
           Sample.isEquivalent [] [VNum 1]).
  left. reflexivity.
Defined.

Lemma equal_numbers_witness :
  Equality.equal Sample.distinct_objects Sample.no_conversion
    Sample.fp_equals Sample.fp_equals Sample.isNumber Sample.isEquivalent
    [VNum (0.1 + 0.2)] [VNum 0.3] =
  VBool (PrimFloat.eqb (Numbers.roundToMaxPrecision (0.1 + 0.2))
                       (Numbers.roundToMaxPrecision 0.3)).
Proof.
  apply (equal_numbers Sample.distinct_objects Sample.no_conversion
           Sample.fp_equals Sample.fp_equals Sample.isNumber
           Sample.isEquivalent (0.1 + 0.2) 0.3).
  reflexivity.
Defined.

Lemma toQuantity_calendar_target_witness :
  Misc.toQuantity Sample.no_conversion Sample.calendar_seconds
    (fun _ => None) (fun _ _ _ => None) (fun _ => 0%float)
    None [VFP (FP_Quantity 1 "year")] (Some "month") = Ok VNull.
Proof.
  apply (toQuantity_calendar_target Sample.no_conversion
           Sample.calendar_seconds (fun _ => None) (fun _ _ _ => None)
           (fun _ => 0%float) (VFP (FP_Quantity 1 "year")) "month"
           2592000%float).
  - reflexivity.
  - discriminate.
  - reflexivity.
  - reflexivity.
Defined.

Lemma distinctFn_strategy_switch_witness :
  Filtering.distinctFn Sample.deepEqual Sample.hashObject
    Sample.isPrimitiveValue Sample.seven_contacts None =
  [Sample.contact_array; Sample.contact_object] /\
  Filtering.distinctFn Sample.deepEqual Sample.hashObject
    Sample.isPrimitiveValue
    (Filtering.distinctFn Sample.deepEqual Sample.hashObject
       Sample.isPrimitiveValue Sample.seven_contacts None) None =
  [Sample.contact_array].
Proof.
  apply (distinctFn_strategy_switch Sample.distinct_objects
           Sample.no_conversion Sample.fp_equals Sample.fp_equals
           Sample.isNumber Sample.isEquivalent Sample.fp_toString
           (fun _ => None) (fun x u => (x, u)) (fun u => (u, 1%float))
           Sample.render_number Sample.render_number
           Sample.isPrimitiveValue).
  - discriminate.
  - reflexivity.
  - reflexivity.
  - reflexivity.
Defined.

(** The projection of the cyclic sample returns one of the two items. *)
Lemma sample_outputs (v : value) :
  output Sample.other v -> v = Sample.ping \/ v = Sample.pong.
Proof.
  intros [x Hx]. unfold Sample.other in Hx.
  destruct (String.eqb (Sample.item_id x) "ping").
  - apply list_elem_of_singleton in Hx. now right.
  - destruct (String.eqb (Sample.item_id x) "pong").
    + apply list_elem_of_singleton in Hx. now left.
    + now apply elem_of_nil in Hx.
Qed.

Lemma sample_class_bound (v : value) :
  output Sample.other v -> (Sample.class_of v < 2)%nat.
Proof.
  intros _. unfold Sample.class_of.
  destruct (String.eqb (Sample.item_id v) "pong"); lia.
Qed.

Lemma sample_class_deepEqual (v w : value) :
  output Sample.other v -> output Sample.other w ->
  Sample.class_of v = Sample.class_of w ->
  truthy (Sample.deepEqual v w) = true.
Proof.
  intros Hv Hw.
  destruct (sample_outputs v Hv) as [-> | ->],
           (sample_outputs w Hw) as [-> | ->];
    vm_compute; congruence.
Qed.

Lemma sample_class_hashObject (v w : value) :
  output Sample.other v -> output Sample.other w ->
  Sample.class_of v = Sample.class_of w ->
  Sample.hashObject v = Sample.hashObject w.
Proof.
  intros Hv Hw.
  destruct (sample_outputs v Hv) as [-> | ->],
           (sample_outputs w Hw) as [-> | ->];
    vm_compute; congruence.
Qed.

Lemma repeatMacro_terminates_witness :
  exists gens,
    generations Sample.other [Sample.ping] gens /\
    forall fuel,
      (2 * 2 + 2 <= fuel)%nat ->
      Filtering.repeatMacro Sample.deepEqual Sample.hashObject
        Sample.isPrimitiveValue fuel (VArr [Sample.ping]) Sample.other
        Filtering.initial_state = Some (concat gens).
Proof.
  apply (repeatMacro_terminates Sample.deepEqual Sample.hashObject
           Sample.isPrimitiveValue Sample.other Sample.class_of 2
           sample_class_bound sample_class_deepEqual
           sample_class_hashObject [Sample.ping]).
Defined.

(** The run on the cyclic sample: the two items, in the order of their
    discovery. *)
Example repeatMacro_cycle :
  Filtering.repeatMacro Sample.deepEqual Sample.hashObject
    Sample.isPrimitiveValue 6 (VArr [Sample.ping]) Sample.other
    Filtering.initial_state = Some [Sample.pong; Sample.ping].
Proof. vm_compute. reflexivity. Qed.

Lemma first_tail_last_witness :
  Filtering.firstFn Sample.flags :: Filtering.tailFn Sample.flags = Sample.flags /\
  Filtering.takeFn Sample.flags (-1) ++ [Filtering.lastFn Sample.flags] = Sample.flags /\
  Filtering.skipFn Sample.flags (-1) = [Filtering.lastFn Sample.flags].
Proof. apply (first_tail_last Sample.flags). discriminate. Defined.

Lemma whereMacro_items_witness :
  Filtering.whereMacro (VArr Sample.flags) Sample.itself `sublist_of` Sample.flags /\
  forall x, x ∈ Filtering.whereMacro (VArr Sample.flags) Sample.itself <->
            exists i, Sample.flags !! i = Some x /\ kept Sample.itself i x = true.
Proof.
  apply (whereMacro_items Sample.flags Sample.itself).
  repeat constructor.
Defined.

Lemma existsMacro_criterion_witness :
  (Existence.existsMacro Sample.flags (Some Sample.itself) = true <->
   exists i x, Sample.flags !! i = Some x /\ kept Sample.itself i x = true) /\
  (Existence.existsMacro Sample.flags None = true <-> Sample.flags <> []).
Proof.
  apply (existsMacro_criterion Sample.flags Sample.itself).
  repeat constructor.
Defined.

Lemma allMacro_lazy_witness :
  Existence.allMacro Sample.flags Sample.itself =
  ([VBool false], [(0%nat, VBool true); (1%nat, VBool false)]).
Proof.
  apply (proj2 (allMacro_lazy Sample.flags Sample.itself) 1%nat (VBool false)).
  - reflexivity.
  - reflexivity.
  - intros j x Hj Hx. destruct j as [| j]; [| lia].
    injection Hx as <-. reflexivity.
Defined.

Lemma boolean_quantifiers_witness :
  Existence.allTrueFn [VBool true; VBool false] = Ok [VBool false] /\
  Existence.anyFalseFn [VBool true; VBool false] = Ok [VBool true] /\
  Existence.anyTrueFn [VBool true; VBool false] = Ok [VBool true] /\
  Existence.allFalseFn [VBool true; VBool false] = Ok [VBool false].
Proof.
  apply (boolean_quantifiers [VBool true; VBool false] [true; false]).
  reflexivity.
Defined.


Lemma distinctFn_deepEqual_separated_witness :
  separated Sample.deepEqual
    (Filtering.distinctFn Sample.deepEqual Sample.hashObject Sample.isPrimitiveValue Sample.twins None) /\
  hd_error (Filtering.distinctFn Sample.deepEqual Sample.hashObject Sample.isPrimitiveValue Sample.twins None) = hd_error Sample.twins.
Proof.
  apply (distinctFn_deepEqual_separated Sample.deepEqual Sample.hashObject Sample.isPrimitiveValue Sample.twins).
  reflexivity.
Defined.

Lemma duplicates_not_subset_witness :
  Existence.subsetOfFn Sample.deepEqual Sample.hashObject Sample.isPrimitiveValue
    Sample.twins (Filtering.distinctFn Sample.deepEqual Sample.hashObject Sample.isPrimitiveValue Sample.twins None)
  = [VBool false].
Proof.
  apply (duplicates_not_subset Sample.deepEqual Sample.hashObject Sample.isPrimitiveValue Sample.twins).
  vm_compute. reflexivity.
Defined.

Lemma exclude_filters_witness :
  pair_uses_hash Sample.isPrimitiveValue Sample.twins [VStr "b"] = false /\
  forall x y,
    x ∈ Combining.exclude Sample.deepEqual Sample.hashObject
          Sample.isPrimitiveValue Sample.twins [VStr "b"] ->
    y ∈ [VStr "b"] -> truthy (Sample.deepEqual x y) = false.
Proof.
  split; [reflexivity |].
  apply (proj2 (proj2 (exclude_filters Sample.deepEqual Sample.hashObject
                         Sample.isPrimitiveValue Sample.twins [VStr "b"]))).
  reflexivity.
Defined.

Lemma intersect_selects_witness :
  pair_uses_hash Sample.isPrimitiveValue Sample.twins [VStr "a"] = false /\
  forall x,
    x ∈ Combining.intersect Sample.deepEqual Sample.hashObject
          Sample.isPrimitiveValue Sample.twins [VStr "a"] ->
    exists y, y ∈ [VStr "a"] /\ truthy (Sample.deepEqual x y) = true.
Proof.
  split; [reflexivity |].
  apply (proj2 (proj2 (proj2 (intersect_selects Sample.deepEqual
                                Sample.hashObject Sample.isPrimitiveValue
                                Sample.twins [VStr "a"])))).
  reflexivity.
Defined.

Lemma contains_cases_witness :
  Collections.contains Sample.deepEqual Sample.hashObject Sample.twins [VStr "a"; VStr "b"] =
  Throw ("Expected singleton on right side of contains, got " +:+
         Sample.hashObject (VArr [VStr "a"; VStr "b"])).
Proof.
  apply (proj2 (proj2 (proj2 (contains_cases Sample.deepEqual Sample.hashObject Sample.twins (VStr "a") (VStr "b") [])))).
  discriminate.
Defined.

Lemma toBoolean_table_witness :
  Misc.toBoolean [VStr "Yes"] = Ok (VBool true).
Proof.
  apply (proj2 (proj2 (proj2 (proj2 (proj2
           (toBoolean_table true 0%float 0%Z "Yes" VNull VNull [])))))).
  reflexivity.
Defined.

Lemma plus_mul_commute_witness :
  Math.plus Sample.no_conversion Sample.hashObject
    (fun _ _ => Ok VUndefined) [VNum 2] [VBigInt 3] =
  Math.plus Sample.no_conversion Sample.hashObject
    (fun _ _ => Ok VUndefined) [VBigInt 3] [VNum 2] /\
  Math.mul Sample.no_conversion Sample.hashObject
    (fun _ _ => Ok VUndefined) [VNum 2] [VBigInt 3] =
  Math.mul Sample.no_conversion Sample.hashObject
    (fun _ _ => Ok VUndefined) [VBigInt 3] [VNum 2].
Proof.
  apply (plus_mul_commute Sample.no_conversion Sample.hashObject
           (fun _ _ => Ok VUndefined) (fun _ _ => Ok VUndefined)
           (VNum 2) (VBigInt 3)); reflexivity.
Defined.

Lemma bigint_division_witness :
  exists q r : Z,
    Math.intdiv (VBigInt (-7)) (VBigInt 2) = VBigInt q /\
    Math.mod_ (VBigInt (-7)) (VBigInt 2) = Ok (VBigInt r) /\
    (-7 = q * 2 + r /\ Z.abs r < Z.abs 2 /\ 0 <= r * -7)%Z.
Proof. apply (bigint_division (-7) 2). discriminate. Defined.

Lemma division_by_zero_witness :
  Math.div Sample.no_conversion (fun _ _ => VUndefined) Sample.hashObject
    [VBigInt 5] [VNum 0] = Ok empty /\
  Math.intdiv (VBigInt 5) (VNum 0) = empty /\
  (Math.is_zero_number (VNum 0) = true ->
   Math.mod_ (VBigInt 5) (VNum 0) = Ok empty).
Proof.
  apply (division_by_zero Sample.no_conversion (fun _ _ => VUndefined)
           Sample.hashObject (VBigInt 5) (VNum 0)); reflexivity.
Defined.

Lemma minMax_selects_witness :
  Aggregate.minMaxShortcutTemplate [VNum 1; VNull]
    (fun a b => Ok (Sample.deepEqual (VArr a) (VArr b))) = Ok [].
Proof.
  apply (proj1 (minMax_selects
                  (fun a b => Sample.deepEqual (VArr a) (VArr b))
                  [VNum 1; VNull])).
  right. apply Exists_cons_tl, Exists_cons_hd. reflexivity.
Defined.

Lemma case_conversions_witness :
  (let* u := Strings.upper Sample.hashObject [VStr "Ab1"] in
   Strings.lower Sample.hashObject (Util.arraify u)) =
  Strings.lower Sample.hashObject [VStr "Ab1"].
Proof.
  apply (proj1 (proj2 (case_conversions Sample.hashObject "Ab1" eq_refl))).
Defined.

Lemma substring_partition_witness :
  exists a b,
    Strings.substring Sample.hashObject [VStr "abcde"] (Some 0%Z)
      (Some (Z.of_nat 2)) = Ok (VStr a) /\
    Strings.substring Sample.hashObject [VStr "abcde"] (Some (Z.of_nat 2))
      None = Ok (VStr b) /\
    a +:+ b = "abcde" /\ String.length a = 2%nat.
Proof.
  apply (substring_partition Sample.hashObject "abcde" 2). cbn. lia.
Defined.

Lemma equal_equival_empty_witness :
  Equality.equal Sample.distinct_objects Sample.no_conversion
    Sample.fp_equals Sample.fp_equals Sample.isNumber Sample.isEquivalent
    [] [VNum 1] = empty.
Proof.
  apply (proj1 (equal_equival_empty Sample.distinct_objects
                  Sample.no_conversion Sample.fp_equals Sample.fp_equals
                  Sample.isNumber Sample.isEquivalent [] [VNum 1])).
  now left.
Defined.

Lemma hashObject_key_order_witness :
  Sample.hashObject (VObj [("b", VNum 1); ("a", VStr "x")]) =
  Sample.hashObject (VObj [("a", VStr "x"); ("b", VNum 1)]).
Proof.
  apply (hashObject_key_order Sample.no_conversion Sample.fp_toString
           (fun _ => None) (fun x u => (x, u)) (fun u => (u, 1%float))
           Sample.render_number Sample.render_number
           [("b", VNum 1); ("a", VStr "x")] [("a", VStr "x"); ("b", VNum 1)]).
  - apply NoDup_cons. split; [| apply NoDup_singleton].
    intros H. apply list_elem_of_singleton in H. discriminate.
  - apply Permutation_swap.
Defined.

Lemma distinctFn_idempotent_witness :
  Filtering.distinctFn Sample.deepEqual Sample.hashObject
    Sample.isPrimitiveValue
    (Filtering.distinctFn Sample.deepEqual Sample.hashObject
       Sample.isPrimitiveValue Sample.twins None) None =
  Filtering.distinctFn Sample.deepEqual Sample.hashObject
    Sample.isPrimitiveValue Sample.twins None.
Proof.
  apply (distinctFn_idempotent Sample.deepEqual Sample.hashObject
           Sample.isPrimitiveValue Sample.twins).
  right. apply Nat.leb_le. reflexivity.
Defined.
